(** * Price resolution and fetch resilience: a shallow embedding

    The Python modules [src/prices/hl_spot_prices.py],
    [src/prices/hyper_evm_prices.py], [src/prices/redstone_prices.py] and
    [src/compute/stable_fx.py] are embedded as functions of an error and
    trace monad.  Decoded JSON is a value of [pyval]; Python floats are
    binary64 primitive floats; every call that leaves the process (the
    venue SDK, [requests.get], [time.sleep], [uuid.uuid4]) is answered by
    an oracle that sees the events so far, and the calls that reach the
    network or the clock are recorded in a trace of events.  The exceptions
    the code can meet are values of [exn]; [try/except Exception] is
    [try_except]. *)

From Stdlib Require Import ZArith Ascii String List Bool Lia.
From Stdlib Require Import Floats.PrimFloat Floats.SpecFloat Floats.FloatOps Floats.FloatAxioms.
From stdpp Require Import base option gmap strings.

Import ListNotations.
Set Warnings "-register-all".
Local Open Scope string_scope.
Local Open Scope Z_scope.

(** ** Python values *)

(** What [json.loads] / [resp.json()] can produce.  A decoded object keeps
    its keys in order and has no repeated key. *)
Inductive pyval : Type :=
| PNone
| PBool (b : bool)
| PInt (z : Z)
| PFloat (f : float)
| PStr (s : string)
| PList (l : list pyval)
| PDict (kvs : list (string * pyval)).

(** The exceptions the embedded code can see.  A [RuntimeError] raised by the
    repository is kept as a constructor holding the values its f-string
    message interpolates. *)
Inductive builtin_error : Type :=
| AttributeError | TypeError | ValueError | KeyError | IndexError | OverflowError
| ZeroDivisionError.

Inductive exn : Type :=
| Builtin (k : builtin_error)
| ExternalError (what : string)
    (* raised inside requests or the venue SDK: connection, timeout, HTTP status, JSON decoding *)
| TokenNotInSpotMeta (base quote : string)
    (* RuntimeError(f"Token not in spot_meta: base={base} quote={quote}") *)
| SpotPairNotFound (base quote : string)
    (* RuntimeError(f"Spot pair not found: {base}/{quote}") *)
| NoLiquidityOnBook (base quote : string)
    (* RuntimeError(f"No liquidity on book for {base}/{quote}") *)
| NoSuitablePool (tokenA tokenB : string)
    (* RuntimeError(f"No suitable DexScreener pool for {tokenA} vs {tokenB}") *)
| UnexpectedPayloadType (data : pyval)
    (* RuntimeError(f"Unexpected RedStone payload type: {type(data)}") *)
| NoUsableDataFrom (endpoint : string)
    (* RuntimeError(f"No usable data from {endpoint}") *)
| NoDataFrom (endpoint : string)
    (* RuntimeError(f"No data from {ep}") *)
| FailedAfterAttempts (retries : Z) (last_err : option exn).
    (* RuntimeError(f"Failed to fetch RedStone prices after {retries} attempts: {last_err}") *)

Inductive result (A : Type) : Type :=
| Ok (a : A)
| Err (e : exn).
Arguments Ok {A} a.
Arguments Err {A} e.

Definition is_ok {A} (r : result A) : bool :=
  match r with Ok _ => true | Err _ => false end.

(** ** Strings (ASCII fragment of [str]) *)

Module Str.

Definition code (c : ascii) : Z := Z.of_N (N_of_ascii c).

Definition chr (z : Z) : ascii := ascii_of_N (Z.to_N z).

(** [str.isspace] on one ASCII character. *)
Definition is_space (c : ascii) : bool :=
  let n := code c in
  ((9 <=? n) && (n <=? 13)) || ((28 <=? n) && (n <=? 32)).

Definition is_digit (c : ascii) : bool :=
  let n := code c in (48 <=? n) && (n <=? 57).

Definition lower_char (c : ascii) : ascii :=
  let n := code c in
  if (65 <=? n) && (n <=? 90) then chr (n + 32) else c.

Definition upper_char (c : ascii) : ascii :=
  let n := code c in
  if (97 <=? n) && (n <=? 122) then chr (n - 32) else c.

Definition chars (s : string) : list ascii := list_ascii_of_string s.

Definition of_chars (l : list ascii) : string := string_of_list_ascii l.

Definition lower (s : string) : string := of_chars (map lower_char (chars s)).

Definition upper (s : string) : string := of_chars (map upper_char (chars s)).

Fixpoint lstrip (l : list ascii) : list ascii :=
  match l with
  | c :: l' => if is_space c then lstrip l' else l
  | [] => []
  end.

Definition strip_chars (l : list ascii) : list ascii :=
  rev (lstrip (rev (lstrip l))).

Definition strip (s : string) : string := of_chars (strip_chars (chars s)).

Definition nonempty (s : string) : bool :=
  match s with EmptyString => false | String _ _ => true end.

Definition startswith (p s : string) : bool := String.prefix p s.

Definition endswith (p s : string) : bool :=
  String.prefix (of_chars (rev (chars p))) (of_chars (rev (chars s))).

(** [sep.join(l)] *)
Fixpoint join (sep : string) (l : list string) : string :=
  match l with
  | [] => ""
  | [x] => x
  | x :: l' => x ++ sep ++ join sep l'
  end.

(** Iterating a [str] yields its characters as one-character strings. *)
Definition iter (s : string) : list string :=
  map (fun c => String c EmptyString) (chars s).

End Str.

(** ** Numbers: [float(...)], [int(...)] and [==] *)

Module Num.

(** The whitespace [float] and [int] skip around an ASCII literal: space,
    tab, line feed, vertical tab, form feed and carriage return.  It is
    narrower than [str.isspace]: the separators 0x1C to 0x1F are not
    skipped. *)
Definition is_blank (c : ascii) : bool :=
  let n := Str.code c in
  ((9 <=? n) && (n <=? 13)) || (n =? 32).

Fixpoint skip_blanks (l : list ascii) : list ascii :=
  match l with
  | c :: l' => if is_blank c then skip_blanks l' else l
  | [] => []
  end.

Definition trim (l : list ascii) : list ascii :=
  rev (skip_blanks (rev (skip_blanks l))).

Definition digit_val (c : ascii) : Z := Str.code c - 48.

Definition digits_val (l : list ascii) : Z :=
  fold_left (fun acc c => 10 * acc + digit_val c) l 0.

(** A digit part with single underscores between digits (PEP 515):
    returns the digits read and what follows them. *)
Fixpoint read_more (l : list ascii) : list ascii * list ascii :=
  match l with
  | c :: l' =>
      if Str.is_digit c then
        let '(ds, r) := read_more l' in (c :: ds, r)
      else if Ascii.eqb c "_" then
        match l' with
        | d :: l'' =>
            if Str.is_digit d then
              let '(ds, r) := read_more l'' in (d :: ds, r)
            else ([], l)
        | [] => ([], l)
        end
      else ([], l)
  | [] => ([], [])
  end.

Definition read_digits (l : list ascii) : list ascii * list ascii :=
  match l with
  | c :: l' =>
      if Str.is_digit c then
        let '(ds, r) := read_more l' in (c :: ds, r)
      else ([], l)
  | [] => ([], [])
  end.

Definition read_sign (l : list ascii) : bool * list ascii :=
  match l with
  | c :: l' =>
      if Ascii.eqb c "-" then (true, l')
      else if Ascii.eqb c "+" then (false, l')
      else (false, l)
  | [] => (false, [])
  end.

(** The binary64 value nearest to [(-1)^neg * m * 10^e], ties to even. *)
Definition of_decimal (neg : bool) (m e : Z) : float :=
  match m with
  | Zpos _ =>
      let n := if 0 <=? e then m * 10 ^ e else m in
      let d := if 0 <=? e then 1 else 10 ^ (- e) in
      SF2Prim (SFdiv prec emax
                 (S754_finite neg (Z.to_pos n) 0)
                 (S754_finite false (Z.to_pos d) 0))
  | _ => if neg then neg_zero else zero
  end.

Definition signed (neg : bool) (f : float) : float :=
  if neg then PrimFloat.opp f else f.

(** The optional exponent part of a float literal; [None] when what is
    left is not an exponent part reaching the end of the string. *)
Definition read_exponent (l : list ascii) : option Z :=
  match l with
  | [] => Some 0
  | c :: l' =>
      if Ascii.eqb (Str.lower_char c) "e" then
        let '(eneg, l1) := read_sign l' in
        match read_digits l1 with
        | ((_ :: _) as ds, []) =>
            Some (if eneg then - digits_val ds else digits_val ds)
        | _ => None
        end
      else None
  end.

(** [float(s)] for a [str]: [None] stands for [ValueError]. *)
Definition float_of_string (s : string) : option float :=
  let '(neg, body) := read_sign (trim (Str.chars s)) in
  let word := Str.of_chars (map Str.lower_char body) in
  if String.eqb word "inf" || String.eqb word "infinity" then
    Some (signed neg infinity)
  else if String.eqb word "nan" then
    Some nan
  else
    let '(ip, r1) := read_digits body in
    let '(fp, r2) :=
      match r1 with
      | c :: r1' => if Ascii.eqb c "." then read_digits r1' else ([], r1)
      | [] => ([], [])
      end in
    match (ip ++ fp)%list with
    | [] => None
    | ds =>
        match read_exponent r2 with
        | Some e => Some (of_decimal neg (digits_val ds) (e - Z.of_nat (length fp)))
        | None => None
        end
    end.

(** [float(z)] for an [int]: correctly rounded, [OverflowError] beyond
    the binary64 range. *)
Definition float_of_Z (z : Z) : result float :=
  let f := of_decimal (z <? 0) (Z.abs z) 0 in
  if is_infinity f then Err (Builtin OverflowError) else Ok f.

(** The integer a finite float equals, when it is one. *)
Definition exact_Z (f : float) : option Z :=
  match Prim2SF f with
  | S754_zero _ => Some 0
  | S754_finite s m e =>
      let mag :=
        if 0 <=? e then Some (Zpos m * 2 ^ e)
        else if Zpos m mod 2 ^ (- e) =? 0 then Some (Zpos m / 2 ^ (- e))
        else None in
      match mag with
      | Some a => Some (if s then - a else a)
      | None => None
      end
  | _ => None
  end.

(** [int(f)] for a [float]: truncation towards zero. *)
Definition trunc (f : float) : result Z :=
  match Prim2SF f with
  | S754_nan => Err (Builtin ValueError)
  | S754_infinity _ => Err (Builtin OverflowError)
  | S754_zero _ => Ok 0
  | S754_finite s m e =>
      let a := if 0 <=? e then Zpos m * 2 ^ e else Zpos m / 2 ^ (- e) in
      Ok (if s then - a else a)
  end.

(** [int(s)] for a [str] in base ten: [None] stands for [ValueError]. *)
Definition int_of_string (s : string) : option Z :=
  let '(neg, body) := read_sign (trim (Str.chars s)) in
  match read_digits body with
  | ((_ :: _) as ds, []) => Some (if neg then - digits_val ds else digits_val ds)
  | _ => None
  end.

End Num.

(** ** Operations on decoded values *)

Module Py.

(** [bool(v)] *)
Definition truthy (v : pyval) : bool :=
  match v with
  | PNone => false
  | PBool b => b
  | PInt z => negb (z =? 0)
  | PFloat f => negb (PrimFloat.eqb f zero)
  | PStr s => Str.nonempty s
  | PList l => match l with [] => false | _ :: _ => true end
  | PDict kvs => match kvs with [] => false | _ :: _ => true end
  end.

(** [a or b] *)
Definition or_ (a b : pyval) : pyval := if truthy a then a else b.

Definition is_none (v : pyval) : bool :=
  match v with PNone => true | _ => false end.

Fixpoint lookup (k : string) (kvs : list (string * pyval)) : option pyval :=
  match kvs with
  | [] => None
  | (k', v) :: kvs' => if String.eqb k k' then Some v else lookup k kvs'
  end.

(** [d.get(k, default)]; only a [dict] has the method. *)
Definition get (d : pyval) (k : string) (default : pyval) : result pyval :=
  match d with
  | PDict kvs => Ok (match lookup k kvs with Some v => v | None => default end)
  | _ => Err (Builtin AttributeError)
  end.

(** [d[k]] with a [str] key. *)
Definition getitem (d : pyval) (k : string) : result pyval :=
  match d with
  | PDict kvs =>
      match lookup k kvs with
      | Some v => Ok v
      | None => Err (Builtin KeyError)
      end
  | _ => Err (Builtin TypeError)
  end.

(** [v[0]] *)
Definition first (v : pyval) : result pyval :=
  match v with
  | PList (x :: _) => Ok x
  | PList [] => Err (Builtin IndexError)
  | PStr (String c _) => Ok (PStr (String c EmptyString))
  | PStr EmptyString => Err (Builtin IndexError)
  | PDict _ => Err (Builtin KeyError)
  | _ => Err (Builtin TypeError)
  end.

(** [for x in v] *)
Definition iter (v : pyval) : result (list pyval) :=
  match v with
  | PList l => Ok l
  | PStr s => Ok (map PStr (Str.iter s))
  | PDict kvs => Ok (map (fun kv => PStr (fst kv)) kvs)
  | _ => Err (Builtin TypeError)
  end.

(** [v.lower()]; only a [str] has the method. *)
Definition lower (v : pyval) : result string :=
  match v with
  | PStr s => Ok (Str.lower s)
  | _ => Err (Builtin AttributeError)
  end.

(** [float(v)] *)
Definition float_ (v : pyval) : result float :=
  match v with
  | PBool b => Ok (if b then one else zero)
  | PInt z => Num.float_of_Z z
  | PFloat f => Ok f
  | PStr s =>
      match Num.float_of_string s with
      | Some f => Ok f
      | None => Err (Builtin ValueError)
      end
  | _ => Err (Builtin TypeError)
  end.

(** [int(v)] *)
Definition int_ (v : pyval) : result Z :=
  match v with
  | PBool b => Ok (if b then 1 else 0)
  | PInt z => Ok z
  | PFloat f => Num.trunc f
  | PStr s =>
      match Num.int_of_string s with
      | Some z => Ok z
      | None => Err (Builtin ValueError)
      end
  | _ => Err (Builtin TypeError)
  end.

(** [a / b] on floats *)
Definition truediv (a b : float) : result float :=
  if PrimFloat.eqb b zero then Err (Builtin ZeroDivisionError) else Ok (a / b)%float.

Definition eq_Z_float (z : Z) (f : float) : bool :=
  match Num.exact_Z f with
  | Some z' => z =? z'
  | None => false
  end.

Definition Z_of_bool (b : bool) : Z := if b then 1 else 0.

(** [a == b] on decoded values: numbers compare by value across [bool],
    [int] and [float]; lists elementwise; dicts as mappings. *)
Fixpoint eq (a b : pyval) {struct a} : bool :=
  match a, b with
  | PNone, PNone => true
  | PBool x, PBool y => Bool.eqb x y
  | PBool x, PInt y => Z_of_bool x =? y
  | PInt x, PBool y => x =? Z_of_bool y
  | PBool x, PFloat y => eq_Z_float (Z_of_bool x) y
  | PFloat x, PBool y => eq_Z_float (Z_of_bool y) x
  | PInt x, PInt y => x =? y
  | PInt x, PFloat y => eq_Z_float x y
  | PFloat x, PInt y => eq_Z_float y x
  | PFloat x, PFloat y => PrimFloat.eqb x y
  | PStr x, PStr y => String.eqb x y
  | PList la, PList lb =>
      (fix all2 (la lb : list pyval) {struct la} : bool :=
         match la, lb with
         | [], [] => true
         | x :: la', y :: lb' => eq x y && all2 la' lb'
         | _, _ => false
         end) la lb
  | PDict da, PDict db =>
      (Nat.eqb (length da) (length db)) &&
      (fix sub (da : list (string * pyval)) {struct da} : bool :=
         match da with
         | [] => true
         | (k, v) :: da' =>
             match lookup k db with
             | Some w => eq v w && sub da'
             | None => false
             end
         end) da
  | _, _ => false
  end.

End Py.

(** ** Effects: oracles, events and the monad *)

(** What [requests.get] hands back: [resp.status_code], the outcome of
    [resp.json()] and [resp.text]. *)
Record response : Type := mkResponse {
  status_code : Z;
  resp_json : result pyval;
  resp_text : string
}.

Inductive event : Type :=
| EvSpotMeta
    (* info.spot_meta() *)
| EvPost (path : string) (payload : pyval)
    (* info.post(path, payload) *)
| EvGet (url : string) (params : list (string * string)) (timeout : float)
    (* requests.get(url, params=..., timeout=...) *)
| EvSleep (secs : float).
    (* time.sleep(secs) *)

Definition trace : Type := list event.

(** The venue client [hyperliquid.info.Info]: each answer may depend on
    everything that happened before the call. *)
Record Info : Type := mkInfo {
  spot_meta : trace -> result pyval;
  post : trace -> string -> pyval -> result pyval
}.

(** The process environment: network, clock, and the pieces of CPython the
    model leaves abstract ([json.loads], and [str()] of a value that is not
    a [str]). *)
Record Runtime : Type := mkRuntime {
  requests_get : trace -> string -> list (string * string) -> float -> result response;
  uuid4_hex : trace -> string;
  time_sleep : trace -> float -> result unit;
  json_loads : string -> result pyval;
  repr : pyval -> string
}.

(** A computation reads the environment, extends the trace, and returns a
    value or raises. *)
Definition M (A : Type) : Type := Runtime -> trace -> result A * trace.

#[global] Instance result_ret : MRet result := fun _ a => Ok a.
#[global] Instance result_bind : MBind result := fun _ _ f r =>
  match r with
  | Ok a => f a
  | Err e => Err e
  end.

#[global] Instance M_ret : MRet M := fun _ a _ tr => (Ok a, tr).
#[global] Instance M_bind : MBind M := fun _ _ f m rt tr =>
  match m rt tr with
  | (Ok a, tr') => f a rt tr'
  | (Err e, tr') => (Err e, tr')
  end.

Definition raise {A} (e : exn) : M A := fun _ tr => (Err e, tr).

Definition lift {A} (r : result A) : M A := fun _ tr => (r, tr).

(** [try: body / except Exception as e: handler(e)] *)
Definition try_except {A} (body : M A) (handler : exn -> M A) : M A :=
  fun rt tr =>
    match body rt tr with
    | (Ok a, tr') => (Ok a, tr')
    | (Err e, tr') => handler e rt tr'
    end.

Definition info_spot_meta (info : Info) : M pyval :=
  fun _ tr => (spot_meta info tr, tr ++ [EvSpotMeta])%list.

Definition info_post (info : Info) (path : string) (payload : pyval) : M pyval :=
  fun _ tr => (post info tr path payload, tr ++ [EvPost path payload])%list.

(** [requests.get]; the constant headers of [_http_get_json] are not recorded. *)
Definition do_requests_get (url : string) (params : list (string * string))
    (timeout : float) : M response :=
  fun rt tr => (requests_get rt tr url params timeout, tr ++ [EvGet url params timeout])%list.

Definition do_sleep (secs : float) : M unit :=
  fun rt tr => (time_sleep rt tr secs, tr ++ [EvSleep secs])%list.

Definition do_uuid4_hex : M string :=
  fun rt tr => (Ok (uuid4_hex rt tr), tr).

(** [str(v)] *)
Definition py_str (v : pyval) : M string :=
  fun rt tr => (Ok (match v with PStr s => s | _ => repr rt v end), tr).

(** ** hl_spot_prices.py *)

Definition SPOT_ASSET_OFFSET : Z := 10000.

(** [out[name] = idx]: a [list] or [dict] key is unhashable; a key that is
    not a [str] is stored by Python but no [str] lookup ever finds it, and
    [out] is only read through [str] lookups. *)
Definition set_name (name idx : pyval) (out : gmap string pyval)
    : result (gmap string pyval) :=
  match name with
  | PStr s => Ok (<[s := idx]> out)
  | PList _ | PDict _ => Err (Builtin TypeError)
  | _ => Ok out
  end.

Fixpoint build_names (ts : list pyval) (out : gmap string pyval)
    : result (gmap string pyval) :=
  match ts with
  | [] => Ok out
  | t :: ts' =>
      name ← Py.get t "name" PNone;
      idx ← Py.get t "index" PNone;
      out' ← (if negb (Py.is_none name) && negb (Py.is_none idx)
              then set_name name idx out else Ok out);
      build_names ts' out'
  end.

Definition _build_name_to_token_index (spot_meta : pyval) : result (gmap string pyval) :=
  tokens ← Py.get spot_meta "tokens" (PList []);
  ts ← Py.iter tokens;
  build_names ts ∅.

(** The loop over the universe in [find_spot_pair_index], up to the final
    [raise]; the [break] on a matching entry with no ["index"] leaves the
    loop for that [raise]. *)
Fixpoint find_pair (base quote : string) (base_idx quote_idx : pyval)
    (us : list pyval) : result Z :=
  match us with
  | [] => Err (SpotPairNotFound base quote)
  | u :: us' =>
      b ← Py.get u "baseTokenIndex" PNone;
      matches ← (if Py.eq b base_idx
                 then q ← Py.get u "quoteTokenIndex" PNone; Ok (Py.eq q quote_idx)
                 else Ok false);
      if (matches : bool) then
        pair_index ← Py.get u "index" PNone;
        if Py.is_none pair_index then Err (SpotPairNotFound base quote)
        else Py.int_ pair_index
      else find_pair base quote base_idx quote_idx us'
  end.

Definition find_spot_pair_index (info : Info) (base quote : string) : M Z :=
  sm ← info_spot_meta info;
  name_to_idx ← lift (_build_name_to_token_index sm);
  match name_to_idx !! base, name_to_idx !! quote with
  | Some base_idx, Some quote_idx =>
      lift (universe ← Py.get sm "universe" (PList []);
            us ← Py.iter universe;
            find_pair base quote base_idx quote_idx us)
  | _, _ => raise (TokenNotInSpotMeta base quote)
  end.

(** [ob.get(k1) or ob.get(k2) or []] *)
Definition book_side (ob : pyval) (k1 k2 : string) : result pyval :=
  a ← Py.get ob k1 PNone;
  if Py.truthy a then Ok a
  else b ← Py.get ob k2 PNone; Ok (Py.or_ b (PList [])).

(** [float(side[0]["px"])] *)
Definition best_px (side : pyval) : result float :=
  level ← Py.first side;
  px ← Py.getitem level "px";
  Py.float_ px.

(** [{"type": "l2Book", "asset": asset_id}] *)
Definition l2book_request (asset_id : Z) : pyval :=
  PDict [("type", PStr "l2Book"); ("asset", PInt asset_id)].

Definition get_spot_mid (info : Info) (base quote : string) : M float :=
  pair_index ← find_spot_pair_index info base quote;
  let asset_id := SPOT_ASSET_OFFSET + pair_index in
  ob ← info_post info "/info" (l2book_request asset_id);
  bids ← lift (book_side ob "levels" "bids");
  asks ← lift (book_side ob "levels_ask" "asks");
  if negb (Py.truthy bids) || negb (Py.truthy asks) then
    raise (NoLiquidityOnBook base quote)
  else
    best_bid ← lift (best_px bids);
    best_ask ← lift (best_px asks);
    lift (Py.truediv (best_bid + best_ask) 2).

(** ** hyper_evm_prices.py *)

Definition DEXSCREENER_BASE : string := "https://api.dexscreener.com/latest/dex/tokens".

(** [r.raise_for_status()] *)
Definition raise_for_status (r : response) : M unit :=
  if (400 <=? status_code r) && (status_code r <? 600)
  then raise (ExternalError "HTTPError")
  else mret tt.

Definition _load_pairs_for_token (token_addr : string) (timeout : float) : M pyval :=
  let url := DEXSCREENER_BASE ++ "/" ++ token_addr in
  r ← do_requests_get url [] timeout;
  _ ← raise_for_status r;
  data ← lift (resp_json r);
  pairs ← lift (Py.get data "pairs" (PList []));
  mret (Py.or_ pairs (PList [])).

(** [(p.get(k) or {}).get("address", "").lower()] *)
Definition token_address (p : pyval) (k : string) : result string :=
  t ← Py.get p k PNone;
  a ← Py.get (Py.or_ t (PDict [])) "address" (PStr "");
  Py.lower a.

(** [p.get("priceNative") or p.get("price")] *)
Definition pool_price (p : pyval) : result pyval :=
  a ← Py.get p "priceNative" PNone;
  if Py.truthy a then Ok a else Py.get p "price" PNone.

(** [liq_usd]: the [try] around [float((p.get("liquidity") or {}).get("usd", 0.0))]
    with its [except Exception: liq_usd = 0.0]. *)
Definition pool_liquidity (p : pyval) : float :=
  match (l ← Py.get p "liquidity" PNone;
         u ← Py.get (Py.or_ l (PDict [])) "usd" (PFloat zero);
         Py.float_ u) with
  | Ok f => f
  | Err _ => zero
  end.

(** The exact-orientation block: [Some v] when it returns [v]. *)
Definition exact_return (tA tB base quote : string) (price_str : pyval) : option float :=
  if String.eqb base tA && String.eqb quote tB && Py.truthy price_str then
    match Py.float_ price_str with
    | Ok v => Some v
    | Err _ => None
    end
  else None.

(** The inverted-orientation block: [Some (1/v)] when it returns. *)
Definition inverted_return (tA tB base quote : string) (price_str : pyval) : option float :=
  if String.eqb base tB && String.eqb quote tA && Py.truthy price_str then
    match Py.float_ price_str with
    | Ok v =>
        if negb (PrimFloat.eqb v zero) then
          match Py.truediv 1%float v with
          | Ok r => Some r
          | Err _ => None
          end
        else None
    | Err _ => None
    end
  else None.

(** The loop variables [best_liq] and [best_price]. *)
Record best : Type := mkBest {
  best_liq : float;
  best_price : option pyval
}.

Inductive scan : Type :=
| Returned (v : float)
| Continue (st : best).

(** One iteration of [for p in pairs], with [tA = tokenA.lower()] and
    [tB = tokenB.lower()]. *)
Definition scan_pool (tA tB : string) (p : pyval) (st : best) : result scan :=
  base ← token_address p "baseToken";
  quote ← token_address p "quoteToken";
  if negb (Str.nonempty base) || negb (Str.nonempty quote) then Ok (Continue st)
  else
    price_str ← pool_price p;
    let liq_usd := pool_liquidity p in
    match exact_return tA tB base quote price_str with
    | Some v => Ok (Returned v)
    | None =>
        match inverted_return tA tB base quote price_str with
        | Some v => Ok (Returned v)
        | None =>
            if PrimFloat.ltb (best_liq st) liq_usd && Py.truthy price_str
            then Ok (Continue (mkBest liq_usd (Some price_str)))
            else Ok (Continue st)
        end
    end.

Fixpoint scan_pools (tA tB : string) (ps : list pyval) (st : best) : result scan :=
  match ps with
  | [] => Ok (Continue st)
  | p :: ps' =>
      r ← scan_pool tA tB p st;
      match r with
      | Returned v => Ok (Returned v)
      | Continue st' => scan_pools tA tB ps' st'
      end
  end.

(** What follows the loop: the liquidity-ranked fallback, then the [raise]. *)
Definition after_scan (tokenA tokenB : string) (st : best) : result float :=
  match best_price st with
  | Some bp =>
      match Py.float_ bp with
      | Ok v => Ok v
      | Err _ => Err (NoSuitablePool tokenA tokenB)
      end
  | None => Err (NoSuitablePool tokenA tokenB)
  end.

Definition initial_best : best := mkBest (-1)%float None.

(** The body of [get_pair_mid_from_dexscreener] once [pairs] is loaded. *)
Definition pair_mid_of_pairs (tokenA tokenB : string) (pairs : pyval) : result float :=
  ps ← Py.iter pairs;
  r ← scan_pools (Str.lower tokenA) (Str.lower tokenB) ps initial_best;
  match r with
  | Returned v => Ok v
  | Continue st => after_scan tokenA tokenB st
  end.

Definition get_pair_mid_from_dexscreener (tokenA tokenB : string) (timeout : float)
    : M float :=
  pairs ← _load_pairs_for_token tokenA timeout;
  lift (pair_mid_of_pairs tokenA tokenB pairs).

(** ** stable_fx.py *)

(** The argument [preferred_quotes]: annotated [List[str]], and a [str] when
    the default is used. *)
Inductive str_seq : Type :=
| OneStr (s : string)
| StrList (l : list string).

(** [for q in preferred_quotes] *)
Definition seq_iter (qs : str_seq) : list string :=
  match qs with
  | OneStr s => Str.iter s
  | StrList l => l
  end.

(** The default [preferred_quotes = ("FEUSD")]: parentheses around a [str]
    literal make no tuple. *)
Definition default_preferred_quotes : str_seq := OneStr "FEUSD".

(** Tier A, the loop over the quotes; [None] when the loop ends without a
    [return].  ([last_err] is assigned and never read.) *)
Fixpoint spot_tier (info : Info) (symbol : string) (qs : list string) : M (option float) :=
  match qs with
  | [] => mret None
  | q :: qs' =>
      try_except (v ← get_spot_mid info symbol q; mret (Some v))
                 (fun _ => spot_tier info symbol qs')
  end.

(** [evm_addresses and symbol in evm_addresses and evm_usd_reference in evm_addresses],
    with the two addresses looked up when it holds. *)
Definition dex_addresses (evm_addresses : option (gmap string string))
    (symbol evm_usd_reference : string) : option (string * string) :=
  match evm_addresses with
  | Some m =>
      if bool_decide (m = ∅) then None
      else
        match m !! symbol, m !! evm_usd_reference with
        | Some a, Some b => Some (a, b)
        | _, _ => None
        end
  | None => None
  end.

(** Tier B; [None] when the tier is skipped or its [try] fails. *)
Definition dex_tier (evm_addresses : option (gmap string string))
    (symbol evm_usd_reference : string) : M (option float) :=
  match dex_addresses evm_addresses symbol evm_usd_reference with
  | Some (a, b) =>
      try_except (v ← get_pair_mid_from_dexscreener a b 5%float; mret (Some v))
                 (fun _ => mret None)
  | None => mret None
  end.

Definition resolve_stable_usd_factor (info : Info) (symbol : string)
    (preferred_quotes : str_seq) (evm_addresses : option (gmap string string))
    (evm_usd_reference : string) : M float :=
  a ← spot_tier info symbol (seq_iter preferred_quotes);
  match a with
  | Some v => mret v
  | None =>
      b ← dex_tier evm_addresses symbol evm_usd_reference;
      match b with
      | Some v => mret v
      | None => mret 1%float
      end
  end.

(** ** redstone_prices.py *)

Definition REDSTONE_PRICE_ENDPOINTS : list string :=
  [ "https://api.redstone.finance/prices";
    "https://oracle-gateway-1.a.redstone.finance/prices";
    "https://oracle-gateway-2.a.redstone.finance/prices" ].

(** An entry of the returned mapping: [{"value": ..., "timestamp": ..., "provider": ...}]. *)
Record price_record : Type := mkPrice {
  value : float;
  timestamp : pyval;
  provider : string
}.

(** [resp.json()], or [resp.text] when that raises. *)
Definition response_data (resp : response) : pyval :=
  match resp_json resp with
  | Ok j => j
  | Err _ => PStr (resp_text resp)
  end.

(** [(status_code, parsed_json_or_text)]; the response headers, third in the
    source's tuple, are dropped by both callers. *)
Definition _http_get_json (url : string) (params : list (string * string))
    (timeout : float) : M (Z * pyval) :=
  resp ← do_requests_get url params timeout;
  mret (status_code resp, response_data resp).

(** The list built from a payload keyed by symbol: one record for each
    [obj] with [isinstance(obj, dict) and "value" in obj]. *)
Fixpoint records_of_mapping (kvs : list (string * pyval)) : list pyval :=
  match kvs with
  | [] => []
  | (sym, obj) :: kvs' =>
      match obj with
      | PDict o =>
          match Py.lookup "value" o with
          | Some v =>
              PDict [("symbol", PStr sym);
                     ("value", v);
                     ("timestamp", default PNone (Py.lookup "timestamp" o));
                     ("provider", default (PStr "redstone") (Py.lookup "provider" o))]
              :: records_of_mapping kvs'
          | None => records_of_mapping kvs'
          end
      | _ => records_of_mapping kvs'
      end
  end.

(** The first step of [_normalize_rs_payload]: text that looks like JSON is
    decoded, and kept as it is when decoding fails. *)
Definition decode_text (loads : string -> result pyval) (data : pyval) : pyval :=
  match data with
  | PStr s =>
      let txt := Str.strip s in
      if (Str.startswith "{" txt && Str.endswith "}" txt)
         || (Str.startswith "[" txt && Str.endswith "]" txt)
      then match loads txt with
           | Ok d => d
           | Err _ => data
           end
      else data
  | _ => data
  end.

Definition normalize_with (loads : string -> result pyval) (data : pyval)
    : result (list pyval) :=
  let data := decode_text loads data in
  match data with
  | PList l => Ok l
  | PDict kvs =>
      match records_of_mapping kvs with
      | [] => Err (UnexpectedPayloadType data)
      | out => Ok out
      end
  | _ => Err (UnexpectedPayloadType data)
  end.

Definition _normalize_rs_payload (data : pyval) : M (list pyval) :=
  fun rt tr => (normalize_with (json_loads rt) data, tr).

(** [wanted = [s.strip().upper() for s in symbols if s.strip()]] *)
Definition wanted_of (symbols : list string) : list string :=
  map (fun s => Str.upper (Str.strip s))
      (List.filter (fun s => Str.nonempty (Str.strip s)) symbols).

(** The four lines that read one record, from [val = float(item["value"])] on. *)
Definition read_record (item : pyval) : M price_record :=
  v ← lift (Py.getitem item "value");
  val ← lift (Py.float_ v);
  ts ← lift (Py.get item "timestamp" PNone);
  p ← lift (Py.get item "provider" (PStr "redstone"));
  provider ← py_str p;
  mret (mkPrice val ts provider).

(** The batch loop: a record that fails is skipped. *)
Fixpoint batch_records (items : list pyval) (out : gmap string price_record)
    : M (gmap string price_record) :=
  match items with
  | [] => mret out
  | item :: items' =>
      out' ← try_except
               (s ← lift (Py.getitem item "symbol");
                s' ← py_str s;
                let sym := Str.upper s' in
                r ← read_record item;
                mret (<[sym := r]> out))
               (fun _ => mret out);
      batch_records items' out'
  end.

(** The per-symbol inner loop: the first matching record is stored. *)
Fixpoint pick_record (sym : string) (items : list pyval) (out : gmap string price_record)
    : M (gmap string price_record) :=
  match items with
  | [] => mret out
  | item :: items' =>
      r ← try_except
            (s ← lift (Py.get item "symbol" (PStr ""));
             s' ← py_str s;
             if negb (String.eqb (Str.upper s') sym) then mret None
             else r ← read_record item; mret (Some r))
            (fun _ => mret None);
      match r with
      | Some r => mret (<[sym := r]> out)
      | None => pick_record sym items' out
      end
  end.

(** The per-symbol fallback loop. *)
Fixpoint per_symbol (endpoint : string) (timeout : float) (syms : list string)
    (out : gmap string price_record) : M (gmap string price_record) :=
  match syms with
  | [] => mret out
  | sym :: syms' =>
      u ← do_uuid4_hex;
      '(status, data) ← _http_get_json endpoint [("symbol", sym); ("_", u)] timeout;
      out' ← (if negb (status =? 200) then mret out
              else
                n ← try_except (l ← _normalize_rs_payload data; mret (Some l))
                               (fun _ => mret None);
                match n with
                | Some normalized => pick_record sym normalized out
                | None => mret out
                end);
      per_symbol endpoint timeout syms' out'
  end.

Definition is_empty (out : gmap string price_record) : bool := bool_decide (out = ∅).

(** The batch query of [_try_redstone_endpoint]: the mapping it collected,
    empty when the status is not 200 or the payload is unusable. *)
Definition batch_query (endpoint : string) (wanted : list string) (timeout : float)
    : M (gmap string price_record) :=
  u ← do_uuid4_hex;
  '(status, data) ← _http_get_json endpoint [("symbols", Str.join "," wanted); ("_", u)] timeout;
  if status =? 200 then
    try_except (normalized ← _normalize_rs_payload data; batch_records normalized ∅)
               (fun _ => mret ∅)
  else mret ∅.

Definition _try_redstone_endpoint (endpoint : string) (symbols : list string)
    (timeout : float) : M (gmap string price_record) :=
  let wanted := wanted_of symbols in
  match wanted with
  | [] => mret ∅
  | _ :: _ =>
      out ← batch_query endpoint wanted timeout;
      if negb (is_empty out) then mret out
      else
        out ← per_symbol endpoint timeout wanted ∅;
        if negb (is_empty out) then mret out
        else raise (NoUsableDataFrom endpoint)
  end.

(** The loop [for ep in eps] of one attempt: the first non-empty result, or
    the updated [last_err]. *)
Fixpoint scan_endpoints (eps : list string) (symbols : list string) (timeout : float)
    (last_err : option exn) : M (option (gmap string price_record) * option exn) :=
  match eps with
  | [] => mret (None, last_err)
  | ep :: eps' =>
      r ← try_except (result ← _try_redstone_endpoint ep symbols timeout; mret (inl result))
                     (fun e => mret (inr e));
      match r with
      | inl result =>
          if negb (is_empty result) then mret (Some result, last_err)
          else scan_endpoints eps' symbols timeout (Some (NoDataFrom ep))
      | inr e => scan_endpoints eps' symbols timeout (Some e)
      end
  end.

(** [retry_base_delay * (2 ** (attempt - 1))]: the [int] is converted to a
    [float] before the product. *)
Definition backoff_delay (retry_base_delay : float) (attempt : Z) : result float :=
  f ← Num.float_of_Z (2 ^ (attempt - 1));
  Ok (retry_base_delay * f)%float.

(** [while attempt < retries]; [fuel] bounds the iterations and [None] says
    it ran out. *)
Fixpoint fetch_loop (fuel : nat) (eps symbols : list string) (timeout : float)
    (retries : Z) (retry_base_delay : float) (attempt : Z) (last_err : option exn)
    : M (option (gmap string price_record)) :=
  if attempt <? retries then
    match fuel with
    | O => mret None
    | S fuel' =>
        '(found, last_err) ← scan_endpoints eps symbols timeout last_err;
        match found with
        | Some result => mret (Some result)
        | None =>
            let attempt := attempt + 1 in
            d ← lift (backoff_delay retry_base_delay attempt);
            _ ← do_sleep d;
            fetch_loop fuel' eps symbols timeout retries retry_base_delay attempt last_err
        end
    end
  else raise (FailedAfterAttempts retries last_err).

(** [eps = endpoints or REDSTONE_PRICE_ENDPOINTS] *)
Definition endpoints_or_default (endpoints : option (list string)) : list string :=
  match endpoints with
  | Some ((_ :: _) as l) => l
  | _ => REDSTONE_PRICE_ENDPOINTS
  end.

Definition fetch_redstone_prices (symbols : list string) (endpoints : option (list string))
    (timeout_secs : float) (retries : Z) (retry_base_delay : float)
    : M (option (gmap string price_record)) :=
  fetch_loop (Z.to_nat retries) (endpoints_or_default endpoints) symbols timeout_secs
             retries retry_base_delay 0 None.

(** ** Vocabulary of the statements *)

(** A catalog entry for the ordered pair of token indices [(bi, qi)], as the
    loop of [find_spot_pair_index] tests it. *)
Definition entry_for (bi qi : pyval) (u : pyval) : bool :=
  match Py.get u "baseTokenIndex" PNone, Py.get u "quoteTokenIndex" PNone with
  | Ok b, Ok q => Py.eq b bi && Py.eq q qi
  | _, _ => false
  end.

Definition is_object (v : pyval) : bool :=
  match v with PDict _ => true | _ => false end.

(** A pool whose two token addresses can be read: an object whose
    ["baseToken"] and ["quoteToken"] are objects (or missing) with a [str]
    address (or none). *)
Definition pool_readable (p : pyval) : bool :=
  is_ok (token_address p "baseToken") && is_ok (token_address p "quoteToken").

(** A pool that yields a parseable price: [float] accepts its price field. *)
Definition price_parses (p : pyval) : bool :=
  match pool_price p with
  | Ok price => is_ok (Py.float_ price)
  | Err _ => false
  end.

(** The fallback candidate is the non-empty price field of a scanned pool. *)
Definition candidate_from (ps : list pyval) (st : best) : Prop :=
  match best_price st with
  | Some bp => exists p, In p ps /\ pool_price p = Ok bp /\ Py.truthy bp = true
  | None => True
  end.

(** What the two orientation blocks return for a pool that has both
    addresses, when one of them returns: the price of a pool in the exact
    orientation, the reciprocal of the non-zero price of a pool in the
    inverted one. *)
Definition orientation_return (tA tB : string) (p : pyval) : option float :=
  match token_address p "baseToken", token_address p "quoteToken", pool_price p with
  | Ok base, Ok quote, Ok price =>
      if negb (Str.nonempty base) || negb (Str.nonempty quote) then None
      else match exact_return tA tB base quote price with
           | Some v => Some v
           | None => inverted_return tA tB base quote price
           end
  | _, _, _ => None
  end.

(** A pool with both addresses and a non-empty price field. *)
Definition with_price (p : pyval) : bool :=
  match token_address p "baseToken", token_address p "quoteToken", pool_price p with
  | Ok base, Ok quote, Ok price => Str.nonempty base && Str.nonempty quote && Py.truthy price
  | _, _, _ => false
  end.

(** A pool the fallback can keep: one with both addresses and a non-empty
    price field whose USD liquidity is above the [-1.0] the scan starts
    from (so it is a number, and not NaN). *)
Definition fallback_eligible (p : pyval) : bool :=
  with_price p && PrimFloat.ltb (-1)%float (pool_liquidity p).

(** The liquidity-ranked fallback candidate in the spec's words: the pool of
    the highest USD liquidity among the eligible ones, and the first of them
    when several share it.  Every eligible pool before it has less
    liquidity, no eligible pool after it has more. *)
Definition highest_liquidity_candidate (ps : list pyval) (c : pyval) : Prop :=
  exists pre post,
    ps = (pre ++ c :: post)%list
    /\ fallback_eligible c = true
    /\ (forall p, In p pre -> fallback_eligible p = true ->
          PrimFloat.ltb (pool_liquidity p) (pool_liquidity c) = true)
    /\ (forall p, In p post -> fallback_eligible p = true ->
          PrimFloat.ltb (pool_liquidity c) (pool_liquidity p) = false).

(** The loop variables after a scan of [seen] that did not return: the
    initial ones when no pool was eligible, else the liquidity and the price
    field of the candidate. *)
Definition fallback_state (seen : list pyval) (st : best) : Prop :=
  (st = initial_best /\ forall p, In p seen -> fallback_eligible p = false)
  \/ exists c price,
       highest_liquidity_candidate seen c
       /\ pool_price c = Ok price
       /\ st = mkBest (pool_liquidity c) (Some price).

(** The place of a binary64 number other than NaN in the order [<]:
    compared component by component, the ranks order the numbers as
    [SFcompare] does. *)
Definition sf_rank (f : spec_float) : option (Z * Z * Z) :=
  match f with
  | S754_nan => None
  | S754_infinity true => Some (-2, 0, 0)
  | S754_finite true m e => Some (-1, - e, - Zpos m)
  | S754_zero _ => Some (0, 0, 0)
  | S754_finite false m e => Some (1, e, Zpos m)
  | S754_infinity false => Some (2, 0, 0)
  end.

Definition rank_lt (a b : Z * Z * Z) : Prop :=
  let '(a1, a2, a3) := a in
  let '(b1, b2, b3) := b in
  a1 < b1 \/ (a1 = b1 /\ (a2 < b2 \/ (a2 = b2 /\ a3 < b3))).

(** The key under which the batch loop stores a record that has a symbol and
    a value [float] accepts; [None] for any other item. *)
Definition record_key (rt : Runtime) (item : pyval) : option string :=
  match Py.getitem item "symbol", Py.getitem item "value" ≫= Py.float_ with
  | Ok s, Ok _ => Some (Str.upper (match s with PStr x => x | _ => repr rt s end))
  | _, _ => None
  end.

(** The batch request sent to an endpoint after the events [tr]. *)
Definition batch_request (rt : Runtime) (tr : trace) (endpoint : string)
    (symbols : list string) (timeout : float) : event :=
  EvGet endpoint [("symbols", Str.join "," (wanted_of symbols)); ("_", uuid4_hex rt tr)] timeout.

(** The delays slept, in order. *)
Definition sleeps (tr : trace) : list float :=
  flat_map (fun e => match e with EvSleep secs => [secs] | _ => [] end) tr.

(** A computation that never sleeps. *)
Definition no_sleep {A} (m : M A) : Prop :=
  forall rt tr, sleeps (snd (m rt tr)) = sleeps tr.

(** [float(2 ** k)] *)
Definition float_pow2 (k : Z) : float := Num.of_decimal false (2 ^ k) 0.


(** ** Sample venues and replies, to run the model on *)

Module Sample.

Definition token (name : string) (index : Z) : pyval :=
  PDict [("name", PStr name); ("index", PInt index)].

Definition pair_entry (b q i : Z) : pyval :=
  PDict [("baseTokenIndex", PInt b); ("quoteTokenIndex", PInt q); ("index", PInt i)].

Definition level (px : string) : pyval :=
  PDict [("px", PStr px); ("sz", PStr "10.0")].

Definition catalog (universe : list pyval) : pyval :=
  PDict [("tokens", PList [token "USDC" 0; token "FEUSD" 1; token "USDT0" 2; token "USDHL" 3]);
         ("universe", PList universe)].

Definition book (bids asks : list pyval) : pyval :=
  PDict [("levels", PList bids); ("levels_ask", PList asks)].

(** A venue that always answers with the same catalog and the same book. *)
Definition venue (universe : list pyval) (ob : pyval) : Info :=
  mkInfo (fun _ => Ok (catalog universe)) (fun _ _ _ => Ok ob).

Definition venue_down : Info :=
  mkInfo (fun _ => Err (ExternalError "connection refused"))
         (fun _ _ _ => Err (ExternalError "connection refused")).

(** A process whose HTTP replies depend on the URL only. *)
(** A clock that refuses NaN and a negative delay with [ValueError], as
    [time.sleep] does, and a delay beyond 10^9 seconds with
    [OverflowError]. *)
Definition sleep (secs : float) : result unit :=
  if is_nan secs then Err (Builtin ValueError)
  else if PrimFloat.ltb 1000000000 (abs secs) then Err (Builtin OverflowError)
  else if PrimFloat.ltb secs 0 then Err (Builtin ValueError)
  else Ok tt.

Definition runtime (get : string -> result response) : Runtime :=
  mkRuntime (fun _ url _ _ => get url)
            (fun _ => "5f0c1d2e3a4b49788a6b7c8d9e0f1a2b")
            (fun _ => sleep)
            (fun _ => Err (Builtin ValueError))
            (fun _ => "").

Definition offline : Runtime :=
  runtime (fun _ => Err (ExternalError "connection refused")).

Definition pool (base quote : string) (price : pyval) (liq : Z) : pyval :=
  PDict [("baseToken", PDict [("address", PStr base)]);
         ("quoteToken", PDict [("address", PStr quote)]);
         ("priceNative", price);
         ("liquidity", PDict [("usd", PInt liq)])].

Definition json_reply (body : pyval) : result response :=
  Ok (mkResponse 200 (Ok body) "").

Definition dex_reply (pools : list pyval) : result response :=
  json_reply (PDict [("pairs", PList pools)]).

End Sample.

(** Addresses for the DEX tier, and a venue where only USDHL/FEUSD trades. *)
Definition sample_addresses : gmap string string :=
  {[ "FEUSD" := "0x88102bea0bbad5f301f6e9e4dacdf979";
     "USDC" := "0x6d1e7cde53ba9467b783cb7c530ce054" ]}.

Definition sample_book : pyval :=
  Sample.book [Sample.level "1.25"; Sample.level "1.0"]
              [Sample.level "1.75"; Sample.level "2.0"].

(** A process whose every HTTP request is answered with the given pools. *)
Definition dex_runtime (pools : list pyval) : Runtime :=
  Sample.runtime (fun _ => Sample.dex_reply pools).

Definition dex_query (token_addr : string) : event :=
  EvGet (DEXSCREENER_BASE ++ "/" ++ token_addr) [] 5%float.

(** A RedStone reply holding a record for BTC, one for ETH and a record
    without a value. *)
Definition sample_prices : pyval :=
  PList [PDict [("symbol", PStr "BTC"); ("value", PInt 65000); ("timestamp", PInt 123)];
         PDict [("symbol", PStr "eth"); ("value", PStr "3000.5"); ("provider", PStr "x")];
         PDict [("symbol", PStr "SOL")]].

Definition prices_runtime : Runtime :=
  Sample.runtime (fun _ => Sample.json_reply sample_prices).

(** An endpoint that refuses the batch query with status 500, answers the
    per-symbol query for BTC and for ETH, and has nothing for any other
    symbol. *)
Definition per_symbol_only (params : list (string * string)) : result response :=
  match params with
  | ("symbol", sym) :: _ =>
      if String.eqb sym "BTC" then
        Sample.json_reply (PList [PDict [("symbol", PStr "BTC"); ("value", PFloat 65000)]])
      else if String.eqb sym "ETH" then
        Sample.json_reply (PList [PDict [("symbol", PStr "ETH"); ("value", PFloat 3000)]])
      else Ok (mkResponse 404 (Err (Builtin ValueError)) "not found")
  | _ => Ok (mkResponse 500 (Err (Builtin ValueError)) "internal error")
  end.

Definition per_symbol_runtime : Runtime :=
  mkRuntime (fun _ _ params _ => per_symbol_only params)
            (fun _ => "5f0c1d2e3a4b49788a6b7c8d9e0f1a2b")
            (fun _ => Sample.sleep)
            (fun _ => Err (Builtin ValueError))
            (fun _ => "").

(** The mapping payload of one endpoint for BTC. *)
Definition btc_mapping : pyval :=
  PDict [("BTC", PDict [("value", PInt 65000); ("timestamp", PInt 123); ("provider", PStr "x")])].


(** * The rest of the modules *)

(** ** Vocabulary of the further statements *)

(** The events of the venue client. *)
Definition venue_event (e : event) : bool :=
  match e with
  | EvSpotMeta | EvPost _ _ => true
  | _ => false
  end.

(** The index the token list gives a name: that of the last entry carrying
    the name with an index other than [None]; [found] is the index known
    before the list is read. *)
Fixpoint named_index (s : string) (ts : list pyval) (found : option pyval) : option pyval :=
  match ts with
  | [] => found
  | t :: ts' =>
      match Py.get t "name" PNone, Py.get t "index" PNone with
      | Ok (PStr n), Ok idx =>
          if String.eqb n s && negb (Py.is_none idx)
          then named_index s ts' (Some idx)
          else named_index s ts' found
      | _, _ => named_index s ts' found
      end
  end.

(** A venue whose catalog is the given value. *)
(** ** hl_spot_prices.py: the other functions *)

(** What the functions below raise: an exception of the code above, or one
    of their own [RuntimeError]s. *)
Inductive spot_error : Type :=
| Raised (e : exn)
| NoSpotMidAvailable (base : string) (preferred_quotes : list string) (last_err : option exn)
    (* RuntimeError(f"No available spot mid for {base} against {preferred_quotes}: {last_err}") *)
| TokenNotInSpotMetaTokens (token_name : string)
    (* RuntimeError(f"Token not in spot_meta tokens: {token_name}") *)
| NoStableFactors.
    (* RuntimeError("Could not derive any stable/USD factors from HL spot.") *)

Inductive outcome (A : Type) : Type :=
| Returns (a : A)
| Raises (e : spot_error).
Arguments Returns {A} a.
Arguments Raises {A} e.

(** The loop of [get_spot_mid_any]: the first mid found, if any, and
    [last_err]. *)
Fixpoint spot_mid_any_loop (info : Info) (base : string) (qs : list string)
    (last_err : option exn) : M (option float * option exn) :=
  match qs with
  | [] => mret (None, last_err)
  | quote :: qs' =>
      try_except (v ← get_spot_mid info base quote; mret (Some v, last_err))
                 (fun e => spot_mid_any_loop info base qs' (Some e))
  end.

Definition get_spot_mid_any (info : Info) (base : string) (preferred_quotes : list string)
    : Runtime -> trace -> outcome float * trace :=
  fun rt tr =>
    match spot_mid_any_loop info base preferred_quotes None rt tr with
    | (Ok (Some v, _), tr') => (Returns v, tr')
    | (Ok (None, last_err), tr') =>
        (Raises (NoSpotMidAvailable base preferred_quotes last_err), tr')
    | (Err e, tr') => (Raises (Raised e), tr')
    end.

(** [get_fx(base, quote, info)] *)
Definition get_fx (base quote : string) (info : Info) : M float :=
  get_spot_mid info base quote.

(** ** stable_fx.py: the variant with a USDC reference *)

(** The default [preferred_quotes = ("USDT0", "USDHL", "FEUSD")] of the
    variant, a tuple of three quotes. *)
Definition default_preferred_quotes_usdc : str_seq := StrList ["USDT0"; "USDHL"; "FEUSD"].

(** Its DEX tier: the product with [usdc_usd_rate] is taken under the same
    [try]. *)
Definition dex_tier_usdc (evm_addresses : option (gmap string string))
    (symbol evm_usd_reference : string) (usdc_usd_rate : float) : M (option float) :=
  match dex_addresses evm_addresses symbol evm_usd_reference with
  | Some (a, b) =>
      try_except (stable_usdc_rate ← get_pair_mid_from_dexscreener a b 5%float;
                  mret (Some (stable_usdc_rate * usdc_usd_rate)%float))
                 (fun _ => mret None)
  | None => mret None
  end.

Definition resolve_stable_usd_factor_with_usdc_reference (info : Info) (symbol : string)
    (usdc_usd_rate : float) (preferred_quotes : str_seq)
    (evm_addresses : option (gmap string string)) (evm_usd_reference : string) : M float :=
  a ← spot_tier info symbol (seq_iter preferred_quotes);
  match a with
  | Some v => mret v
  | None =>
      b ← dex_tier_usdc evm_addresses symbol evm_usd_reference usdc_usd_rate;
      match b with
      | Some v => mret v
      | None => mret 1%float
      end
  end.

(** ** Further sample values *)

(** A network that answers every request with the same reply. *)
Definition reply_runtime (r : result response) : Runtime := Sample.runtime (fun _ => r).

(** The request [_load_pairs_for_token] sends. *)
Definition pairs_request (token_addr : string) (timeout : float) : event :=
  EvGet (DEXSCREENER_BASE ++ "/" ++ token_addr) [] timeout.

(** ** Vocabulary for the RedStone client *)

(** A computation that, run in [rt], raises only exceptions that satisfy [P]. *)
Definition raises_only {A} (P : exn -> Prop) (rt : Runtime) (m : M A) : Prop :=
  forall tr e tr', m rt tr = (Err e, tr') -> P e.

(** [e] is an exception [requests.get] raises for some request to [endpoint]. *)
Definition request_error (rt : Runtime) (endpoint : string) (timeout : float) (e : exn) : Prop :=
  exists tr0 params, requests_get rt tr0 endpoint params timeout = Err e.

(** The errors an endpoint can leave in [last_err]. *)
Definition endpoint_error (rt : Runtime) (eps : list string) (timeout : float) (e : exn) : Prop :=
  exists ep, In ep eps
             /\ (e = NoDataFrom ep \/ e = NoUsableDataFrom ep \/ request_error rt ep timeout e).

(** The error a scan of [eps] leaves when every endpoint returns an empty
    mapping. *)
Definition no_data_after (eps : list string) (last_err : option exn) : option exn :=
  fold_left (fun _ ep => Some (NoDataFrom ep)) eps last_err.

(** The sleeps of [n] attempts, the first numbered [k]. *)
Definition backoff_sleeps (retry_base_delay : float) (k : Z) (n : nat) : trace :=
  map (fun i => EvSleep (retry_base_delay * float_pow2 (k + Z.of_nat i))%float) (seq 0 n).

(** The symbols asked for one by one, in order: the ["symbol"] parameter of
    each request that has one. *)
Definition asked_symbol (e : event) : list string :=
  match e with
  | EvGet _ ((k, s) :: _) _ => if String.eqb k "symbol" then [s] else []
  | _ => []
  end.

Definition asked (tr : trace) : list string := flat_map asked_symbol tr.

(** The record the loops store for [item]: [float(item["value"])], the
    timestamp as it is, [str] of the provider or ["redstone"]. *)
Definition record_of (rt : Runtime) (item : pyval) : option price_record :=
  match Py.getitem item "value" ≫= Py.float_,
        Py.get item "timestamp" PNone,
        Py.get item "provider" (PStr "redstone") with
  | Ok val, Ok ts, Ok p => Some (mkPrice val ts (match p with PStr s => s | _ => repr rt p end))
  | _, _, _ => None
  end.

(** A computation that leaves the trace as it found it. *)
Definition silent {A} (m : M A) : Prop := forall rt tr, snd (m rt tr) = tr.

(** What one round of the batch loop does to [out]. *)
Definition store_record (rt : Runtime) (out : gmap string price_record) (item : pyval)
    : gmap string price_record :=
  match record_key rt item, record_of rt item with
  | Some k, Some r => <[k := r]> out
  | _, _ => out
  end.

(** ** hl_spot_prices.py: [get_stable_usd_factors] *)

Definition stable_candidates : list (string * string) :=
  [("feUSD", "USDT0"); ("feUSD", "USDC");
   ("USDHL", "USDT0"); ("USDHL", "USDC");
   ("USDT0", "USDC")].

(** The [try] of the loop body: the mid is looked up first, and stored only
    for a base that has no factor yet. *)
Definition stable_step (info : Info) (base quote : string) (results : gmap string float)
    : M (gmap string float) :=
  try_except
    (px ← get_spot_mid info base quote;
     mret (match results !! base with
           | None => <[base := px]> results
           | Some _ => results
           end))
    (fun _ => mret results).

(** [for base, quote in candidates], with the set [tried]. *)
Fixpoint stable_factors_loop (info : Info) (cs : list (string * string))
    (tried : list (string * string)) (results : gmap string float) : M (gmap string float) :=
  match cs with
  | [] => mret results
  | (base, quote) :: cs' =>
      if bool_decide ((base, quote) ∈ tried) then stable_factors_loop info cs' tried results
      else
        results' ← stable_step info base quote results;
        stable_factors_loop info cs' ((base, quote) :: tried) results'
  end.

(** The block after the loop: [if "USDT0" not in results]. *)
Definition usdt0_retry (info : Info) (results : gmap string float) : M (gmap string float) :=
  match results !! "USDT0" with
  | None =>
      try_except (px ← get_spot_mid info "USDT0" "USDC"; mret (<["USDT0" := px]> results))
                 (fun _ => mret results)
  | Some _ => mret results
  end.

Definition get_stable_usd_factors (info : Info)
    : Runtime -> trace -> outcome (gmap string float) * trace :=
  fun rt tr =>
    match (results ← stable_factors_loop info stable_candidates [] ∅;
           usdt0_retry info results) rt tr with
    | (Ok results, tr') =>
        if bool_decide (results = ∅) then (Raises NoStableFactors, tr')
        else (Returns results, tr')
    | (Err e, tr') => (Raises (Raised e), tr')
    end.

(** A venue that lists feUSD, USDHL, USDT0 and USDC, with the pairs
    [universe], and answers every book request with [ob]. *)
Definition stable_venue (universe : list pyval) (ob : pyval) : Info :=
  mkInfo (fun _ => Ok (PDict [("tokens", PList [Sample.token "USDC" 0; Sample.token "feUSD" 1;
                                                Sample.token "USDT0" 2; Sample.token "USDHL" 3]);
                              ("universe", PList universe)]))
         (fun _ _ _ => Ok ob).

(** [results] after the [try] of the loop body, from the outcome [r] of the
    lookup. *)
Definition stored_factor (r : result float) (base : string) (results : gmap string float)
    : gmap string float :=
  match r, results !! base with
  | Ok px, None => <[base := px]> results
  | _, _ => results
  end.

(** The first of two lookups that succeeded. *)
Definition first_ok (r1 r2 : result float) : option float :=
  match r1, r2 with
  | Ok v, _ => Some v
  | Err _, Ok v => Some v
  | Err _, Err _ => None
  end.

(** ** hip3_config.py and app.py *)

Definition EVM_ADDR : gmap string string :=
  {[ "FEUSD" := "0x88102bea0bbad5f301f6e9e4dacdf979" ]}.

(** What the service needs besides [Runtime]: [Info(API_URL, skip_ws=True)],
    a call into the venue's SDK that connects and may raise, and
    [time.time()]. *)
Record Service : Type := mkService {
  new_info : M Info;
  time_time : trace -> float
}.

(** [{"id": ..., "value": ..., "timestamp": ...}] *)
Record price_reply : Type := mkReply {
  reply_id : string;
  reply_value : float;
  reply_timestamp : float
}.

(** [time.time()] *)
Definition do_time_time (sv : Service) : M float :=
  fun _ tr => (Ok (time_time sv tr), tr).

(** The handler of [/price/btc-feusd].  [fetch_redstone_prices] runs with its
    defaults; its loop never runs out of fuel, so the branch of [None] is
    never taken. *)
Definition btc_feusd (sv : Service) : M price_reply :=
  rs ← fetch_redstone_prices ["BTC"; "USDT0"; "USDC"] None 4%float 4 0.5%float;
  match rs with
  | None => raise (FailedAfterAttempts 4 None)
  | Some rs =>
      match rs !! "BTC" with
      | None => raise (Builtin KeyError)
      | Some btc =>
          let btc_usd := value btc in
          info ← new_info sv;
          fx ← resolve_stable_usd_factor info "FEUSD" default_preferred_quotes
                                         (Some EVM_ADDR) "USDC";
          v ← lift (Py.truediv btc_usd fx);
          now ← do_time_time sv;
          mret (mkReply "BTC-FEUSD" v now)
      end
  end.

(** A service whose venue client is [info] and whose clock shows [now]. *)
Definition sample_service (info : Info) (now : float) : Service :=
  mkService (mret info) (fun _ => now).
(** * Properties *)

(** ** The monad *)

Section MonadFacts.

Context {A B : Type}.

Lemma bind_ok (m : M A) (f : A -> M B) rt tr a tr' :
  m rt tr = (Ok a, tr') -> (m ≫= f) rt tr = f a rt tr'.
Proof. intros H. unfold mbind, M_bind. now rewrite H. Qed.

Lemma bind_err (m : M A) (f : A -> M B) rt tr e tr' :
  m rt tr = (Err e, tr') -> (m ≫= f) rt tr = (Err e, tr').
Proof. intros H. unfold mbind, M_bind. now rewrite H. Qed.

Lemma bind_lift (r : result A) (f : A -> M B) rt tr :
  (lift r ≫= f) rt tr =
  match r with
  | Ok a => f a rt tr
  | Err e => (Err e, tr)
  end.
Proof. unfold mbind, M_bind, lift. now destruct r. Qed.

Lemma try_except_ok (m : M A) (h : exn -> M A) rt tr a tr' :
  m rt tr = (Ok a, tr') -> try_except m h rt tr = (Ok a, tr').
Proof. intros H. unfold try_except. now rewrite H. Qed.

Lemma try_except_err (m : M A) (h : exn -> M A) rt tr e tr' :
  m rt tr = (Err e, tr') -> try_except m h rt tr = h e rt tr'.
Proof. intros H. unfold try_except. now rewrite H. Qed.

End MonadFacts.

(** ** The order book (hl_spot_prices.py) *)

(** A side of the book is a non-empty value or the empty list. *)
Lemma book_side_shape ob k1 k2 side :
  book_side ob k1 k2 = Ok side -> Py.truthy side = true \/ side = PList [].
Proof.
  unfold book_side. destruct ob; try discriminate. cbn.
  match goal with |- context [if Py.truthy ?a then _ else _] => destruct (Py.truthy a) eqn:Ha end.
  - intros [= <-]. now left.
  - intros [= <-]. unfold Py.or_.
    match goal with |- context [if Py.truthy ?b then _ else _] => destruct (Py.truthy b) eqn:Hb end.
    + now left.
    + now right.
Qed.

(** The events of a successful [get_spot_mid]: one metadata query, then
    one book query. *)
Lemma find_spot_pair_index_trace info base quote rt tr r tr' :
  find_spot_pair_index info base quote rt tr = (r, tr') -> tr' = (tr ++ [EvSpotMeta])%list.
Proof.
  unfold find_spot_pair_index, info_spot_meta, mbind, M_bind.
  destruct (spot_meta info tr) as [sm|e]; [|now intros [= _ <-]].
  unfold lift. destruct (_build_name_to_token_index sm) as [names|e]; [|now intros [= _ <-]].
  destruct (names !! base), (names !! quote); unfold raise; now intros [= _ <-].
Qed.

Lemma get_spot_mid_ok_trace info base quote rt tr v tr' :
  get_spot_mid info base quote rt tr = (Ok v, tr') ->
  exists pair_index,
    tr' = (tr ++ [EvSpotMeta; EvPost "/info" (l2book_request (SPOT_ASSET_OFFSET + pair_index))])%list.
Proof.
  unfold get_spot_mid. unfold mbind at 1, M_bind at 1.
  destruct (find_spot_pair_index info base quote rt tr) as [[idx|e] tr1] eqn:Hfind;
    [|discriminate].
  apply find_spot_pair_index_trace in Hfind as ->.
  intros H. exists idx.
  unfold info_post, mbind, M_bind, lift, raise in H.
  repeat match type of H with
         | context [match ?x with _ => _ end] => destruct x; try discriminate
         end.
  all: injection H as _ <-; now rewrite <- app_assoc.
Qed.

Lemma find_pair_absent base quote base_idx quote_idx universe :
  forallb is_object universe = true ->
  existsb (entry_for base_idx quote_idx) universe = false ->
  find_pair base quote base_idx quote_idx universe = Err (SpotPairNotFound base quote).
Proof.
  induction universe as [|u us IH]; [reflexivity|].
  cbn [forallb existsb]. intros [Hu Hus]%andb_prop [Hn Hns]%orb_false_elim.
  destruct u as [| | | | | |kvs]; try discriminate.
  unfold entry_for in Hn. cbn in Hn. cbn.
  destruct (Py.eq _ base_idx); cbn in *; [rewrite Hn|]; cbn; now apply IH.
Qed.

(** C6. The pair lookup is exact-order only.  With [base] and [quote] both in
    the token catalog and a pair catalog of objects that holds an entry for
    (index(quote), index(base)) and none for (index(base), index(quote)),
    [get_spot_mid base quote] fails with the pair-not-found error right
    after the metadata query: no order book is ever requested. *)
Theorem reversed_pair_is_not_found info base quote rt tr sm names base_idx quote_idx universe :
  spot_meta info tr = Ok sm ->
  _build_name_to_token_index sm = Ok names ->
  names !! base = Some base_idx ->
  names !! quote = Some quote_idx ->
  Py.get sm "universe" (PList []) = Ok (PList universe) ->
  forallb is_object universe = true ->
  existsb (entry_for quote_idx base_idx) universe = true ->
  existsb (entry_for base_idx quote_idx) universe = false ->
  get_spot_mid info base quote rt tr
  = (Err (SpotPairNotFound base quote), (tr ++ [EvSpotMeta])%list).
Proof.
  intros Hsm Hnames Hb Hq Hu Hobj _ Habs.
  unfold get_spot_mid. apply bind_err.
  unfold find_spot_pair_index, info_spot_meta, mbind at 1, M_bind at 1.
  rewrite Hsm, bind_lift, Hnames, Hb, Hq.
  unfold lift. cbn. rewrite Hu. cbn.
  now rewrite (find_pair_absent _ _ _ _ _ Hobj Habs).
Qed.

Lemma reversed_pair_is_not_found_example :
  get_spot_mid (Sample.venue [Sample.pair_entry 2 1 7]
                             (Sample.book [Sample.level "1.25"] [Sample.level "1.75"]))
               "FEUSD" "USDT0" Sample.offline []
  = (Err (SpotPairNotFound "FEUSD" "USDT0"), [EvSpotMeta]).
Proof.
  apply (reversed_pair_is_not_found _ "FEUSD" "USDT0" Sample.offline []
           (Sample.catalog [Sample.pair_entry 2 1 7])
           {[ "USDC" := PInt 0; "FEUSD" := PInt 1; "USDT0" := PInt 2; "USDHL" := PInt 3 ]}
           (PInt 1) (PInt 2) [Sample.pair_entry 2 1 7]).
  - reflexivity.
  - vm_compute. reflexivity.
  - vm_compute. reflexivity.
  - vm_compute. reflexivity.
  - reflexivity.
  - reflexivity.
  - reflexivity.
  - reflexivity.
Defined.

(** C2. Once the pair is found and the book fetched: an empty bid side or an
    empty ask side makes [get_spot_mid] fail with the no-liquidity error;
    with both sides non-empty it returns [(best_bid + best_ask) / 2], the
    two being [float] of the ["px"] field of the first bid and of the first
    ask. *)
Theorem get_spot_mid_of_book info base quote rt tr tr1 idx ob bids asks :
  find_spot_pair_index info base quote rt tr = (Ok idx, tr1) ->
  post info tr1 "/info" (l2book_request (SPOT_ASSET_OFFSET + idx)) = Ok ob ->
  book_side ob "levels" "bids" = Ok bids ->
  book_side ob "levels_ask" "asks" = Ok asks ->
  (bids = PList [] \/ asks = PList [] ->
   get_spot_mid info base quote rt tr
   = (Err (NoLiquidityOnBook base quote),
      (tr1 ++ [EvPost "/info" (l2book_request (SPOT_ASSET_OFFSET + idx))])%list))
  /\
  (forall b0 bl a0 al px_bid px_ask best_bid best_ask,
     bids = PList (b0 :: bl) ->
     asks = PList (a0 :: al) ->
     Py.getitem b0 "px" = Ok px_bid -> Py.float_ px_bid = Ok best_bid ->
     Py.getitem a0 "px" = Ok px_ask -> Py.float_ px_ask = Ok best_ask ->
     get_spot_mid info base quote rt tr
     = (Ok ((best_bid + best_ask) / 2)%float,
        (tr1 ++ [EvPost "/info" (l2book_request (SPOT_ASSET_OFFSET + idx))])%list)).
Proof.
  intros Hfind Hpost Hbids Hasks.
  assert (Hstep : get_spot_mid info base quote rt tr
                  = (if negb (Py.truthy bids) || negb (Py.truthy asks)
                     then raise (NoLiquidityOnBook base quote)
                     else best_bid ← lift (best_px bids);
                          best_ask ← lift (best_px asks);
                          lift (Py.truediv (best_bid + best_ask) 2))
                      rt (tr1 ++ [EvPost "/info" (l2book_request (SPOT_ASSET_OFFSET + idx))])%list).
  { unfold get_spot_mid. rewrite (bind_ok _ _ _ _ _ _ Hfind).
    unfold info_post, mbind at 1, M_bind at 1. rewrite Hpost.
    now rewrite bind_lift, Hbids, bind_lift, Hasks. }
  rewrite Hstep. split.
  - intros [-> | ->]; cbn; [reflexivity | now rewrite orb_true_r].
  - intros b0 bl a0 al pb pa bb ba -> -> Hb Hbf Ha Haf. cbn [Py.truthy negb orb].
    rewrite bind_lift. unfold best_px. cbn. rewrite Hb. cbn. rewrite Hbf.
    rewrite bind_lift. cbn. rewrite Ha. cbn. rewrite Haf.
    reflexivity.
Qed.

Lemma get_spot_mid_of_book_example :
  get_spot_mid (Sample.venue [Sample.pair_entry 1 2 7]
                             (Sample.book [Sample.level "1.25"; Sample.level "1.0"]
                                          [Sample.level "1.75"; Sample.level "2.0"]))
               "FEUSD" "USDT0" Sample.offline []
  = (Ok 1.5%float, [EvSpotMeta; EvPost "/info" (l2book_request 10007)]).
Proof.
  set (ob := Sample.book [Sample.level "1.25"; Sample.level "1.0"]
                         [Sample.level "1.75"; Sample.level "2.0"]).
  refine (proj2 (get_spot_mid_of_book (Sample.venue [Sample.pair_entry 1 2 7] ob)
                   "FEUSD" "USDT0" Sample.offline [] [EvSpotMeta] 7 ob
                   (PList [Sample.level "1.25"; Sample.level "1.0"])
                   (PList [Sample.level "1.75"; Sample.level "2.0"]) _ _ _ _)
                _ _ _ _ (PStr "1.25") (PStr "1.75") 1.25%float 1.75%float _ _ _ _ _ _);
    vm_compute; reflexivity.
Defined.

(** ** The tiered orchestrator (stable_fx.py) *)

Lemma spot_tier_first info symbol q rest rt tr v tr' :
  get_spot_mid info symbol q rt tr = (Ok v, tr') ->
  spot_tier info symbol (q :: rest) rt tr = (Ok (Some v), tr').
Proof.
  intros H. cbn [spot_tier]. apply try_except_ok. now rewrite (bind_ok _ _ _ _ _ _ H).
Qed.

Lemma spot_tier_next info symbol q rest rt tr e tr' :
  get_spot_mid info symbol q rt tr = (Err e, tr') ->
  spot_tier info symbol (q :: rest) rt tr = spot_tier info symbol rest rt tr'.
Proof.
  intros H. cbn [spot_tier].
  now rewrite (try_except_err _ _ rt tr e tr') by now apply bind_err.
Qed.

(** The spot tier never raises. *)
Lemma spot_tier_total info symbol qs rt tr :
  exists r tr', spot_tier info symbol qs rt tr = (Ok r, tr').
Proof.
  revert tr. induction qs as [|q qs IH]; intros tr.
  - now exists None, tr.
  - destruct (get_spot_mid info symbol q rt tr) as [[v|e] tr1] eqn:H.
    + exists (Some v), tr1. now apply spot_tier_first.
    + rewrite (spot_tier_next _ _ _ _ _ _ _ _ H). apply IH.
Qed.

Lemma spot_tier_all_fail info symbol qs rt tr :
  (forall q tr0, In q qs -> is_ok (fst (get_spot_mid info symbol q rt tr0)) = false) ->
  exists tr', spot_tier info symbol qs rt tr = (Ok None, tr').
Proof.
  revert tr. induction qs as [|q qs IH]; intros tr Hfail.
  - now exists tr.
  - destruct (get_spot_mid info symbol q rt tr) as [[v|e] tr1] eqn:H.
    + specialize (Hfail q tr (or_introl eq_refl)). now rewrite H in Hfail.
    + rewrite (spot_tier_next _ _ _ _ _ _ _ _ H). apply IH.
      intros q' tr0 Hin. apply Hfail. now right.
Qed.

(** The DEX tier never raises. *)
Lemma dex_tier_total evm_addresses symbol evm_usd_reference rt tr :
  exists r tr', dex_tier evm_addresses symbol evm_usd_reference rt tr = (Ok r, tr').
Proof.
  unfold dex_tier.
  destruct (dex_addresses evm_addresses symbol evm_usd_reference) as [[a b]|];
    [|now exists None, tr].
  destruct (get_pair_mid_from_dexscreener a b 5 rt tr) as [[v|e] tr1] eqn:H.
  - exists (Some v), tr1. apply try_except_ok. now rewrite (bind_ok _ _ _ _ _ _ H).
  - exists None, tr1. now rewrite (try_except_err _ _ rt tr e tr1) by now apply bind_err.
Qed.

Lemma dex_tier_fail evm_addresses symbol evm_usd_reference rt tr :
  (forall a b tr0,
     dex_addresses evm_addresses symbol evm_usd_reference = Some (a, b) ->
     is_ok (fst (get_pair_mid_from_dexscreener a b 5 rt tr0)) = false) ->
  exists tr', dex_tier evm_addresses symbol evm_usd_reference rt tr = (Ok None, tr').
Proof.
  intros Hfail. unfold dex_tier.
  destruct (dex_addresses evm_addresses symbol evm_usd_reference) as [[a b]|];
    [|now exists tr].
  specialize (Hfail a b tr eq_refl).
  destruct (get_pair_mid_from_dexscreener a b 5 rt tr) as [[v|e] tr1] eqn:H;
    [discriminate|].
  exists tr1. now rewrite (try_except_err _ _ rt tr e tr1) by now apply bind_err.
Qed.

(** C1. [resolve_stable_usd_factor] never raises: on every input and in
    every environment it returns a factor.  When [get_spot_mid] fails for
    every preferred quote and the DEX tier is skipped (addresses missing) or
    its query fails, the factor returned is exactly 1.0. *)
Theorem resolve_stable_usd_factor_never_raises
    info symbol preferred_quotes evm_addresses evm_usd_reference rt tr :
  (exists v tr',
     resolve_stable_usd_factor info symbol preferred_quotes evm_addresses
                               evm_usd_reference rt tr = (Ok v, tr'))
  /\
  ((forall q tr0, In q (seq_iter preferred_quotes) ->
                  is_ok (fst (get_spot_mid info symbol q rt tr0)) = false) ->
   (forall a b tr0,
      dex_addresses evm_addresses symbol evm_usd_reference = Some (a, b) ->
      is_ok (fst (get_pair_mid_from_dexscreener a b 5 rt tr0)) = false) ->
   exists tr',
     resolve_stable_usd_factor info symbol preferred_quotes evm_addresses
                               evm_usd_reference rt tr = (Ok 1%float, tr')).
Proof.
  unfold resolve_stable_usd_factor. split.
  - destruct (spot_tier_total info symbol (seq_iter preferred_quotes) rt tr)
      as ([v|] & tr1 & H1); rewrite (bind_ok _ _ _ _ _ _ H1).
    + now exists v, tr1.
    + destruct (dex_tier_total evm_addresses symbol evm_usd_reference rt tr1)
        as ([v|] & tr2 & H2); rewrite (bind_ok _ _ _ _ _ _ H2).
      * now exists v, tr2.
      * now exists 1%float, tr2.
  - intros Hspot Hdex.
    destruct (spot_tier_all_fail info symbol _ rt tr Hspot) as (tr1 & H1).
    rewrite (bind_ok _ _ _ _ _ _ H1).
    destruct (dex_tier_fail evm_addresses symbol evm_usd_reference rt tr1 Hdex) as (tr2 & H2).
    rewrite (bind_ok _ _ _ _ _ _ H2). now exists tr2.
Qed.

(** C8. When [get_spot_mid] succeeds with [v] for the first preferred quote,
    [resolve_stable_usd_factor] returns [v], and everything it did is that
    one call: one metadata query and one book query, no later quote and no
    HTTP request. *)
Theorem first_quote_short_circuits
    info symbol preferred_quotes q rest evm_addresses evm_usd_reference rt tr v tr' :
  seq_iter preferred_quotes = q :: rest ->
  get_spot_mid info symbol q rt tr = (Ok v, tr') ->
  resolve_stable_usd_factor info symbol preferred_quotes evm_addresses
                            evm_usd_reference rt tr = (Ok v, tr')
  /\ exists pair_index,
       tr' = (tr ++ [EvSpotMeta;
                     EvPost "/info" (l2book_request (SPOT_ASSET_OFFSET + pair_index))])%list.
Proof.
  intros Hq H. split.
  - unfold resolve_stable_usd_factor. rewrite Hq.
    now rewrite (bind_ok _ _ _ _ _ _ (spot_tier_first _ _ _ rest _ _ _ _ H)).
  - eapply get_spot_mid_ok_trace, H.
Qed.

Lemma resolve_stable_usd_factor_peg_example :
  exists tr',
    resolve_stable_usd_factor Sample.venue_down "FEUSD" (StrList ["USDT0"; "USDHL"])
                              (Some sample_addresses) "USDC" Sample.offline []
    = (Ok 1%float, tr').
Proof.
  apply (proj2 (resolve_stable_usd_factor_never_raises
                  Sample.venue_down "FEUSD" (StrList ["USDT0"; "USDHL"])
                  (Some sample_addresses) "USDC" Sample.offline [])).
  - intros q tr0 _. reflexivity.
  - intros a b tr0 _. reflexivity.
Defined.

Lemma first_quote_short_circuits_example :
  resolve_stable_usd_factor (Sample.venue [Sample.pair_entry 1 2 7] sample_book)
                            "FEUSD" (StrList ["USDT0"; "USDHL"]) (Some sample_addresses) "USDC"
                            (Sample.runtime (fun _ => Sample.dex_reply []))
                            []
  = (Ok 1.5%float, [EvSpotMeta; EvPost "/info" (l2book_request 10007)]).
Proof.
  apply (first_quote_short_circuits
           (Sample.venue [Sample.pair_entry 1 2 7] sample_book)
           "FEUSD" (StrList ["USDT0"; "USDHL"]) "USDT0" ["USDHL"]
           (Some sample_addresses) "USDC" (Sample.runtime (fun _ => Sample.dex_reply [])) []).
  - reflexivity.
  - vm_compute. reflexivity.
Defined.

(** C9. Without an explicit [preferred_quotes] the default is the string
    "FEUSD": the spot tier iterates its characters and tries the quotes "F",
    "E", "U", "S", "D" in that order, so the call is the call with that
    explicit list.  The quote "FEUSD" is never tried: on a venue where
    USDHL/FEUSD trades at mid 1.5 the default makes five metadata queries, no
    book query, and returns the peg, while the explicit list ["FEUSD"]
    returns 1.5. *)
Theorem default_quotes_are_the_characters :
  seq_iter default_preferred_quotes = ["F"; "E"; "U"; "S"; "D"]
  /\ (forall info symbol evm_addresses evm_usd_reference,
        resolve_stable_usd_factor info symbol default_preferred_quotes
                                  evm_addresses evm_usd_reference
        = resolve_stable_usd_factor info symbol (StrList ["F"; "E"; "U"; "S"; "D"])
                                    evm_addresses evm_usd_reference)
  /\ resolve_stable_usd_factor (Sample.venue [Sample.pair_entry 3 1 4] sample_book)
                               "USDHL" default_preferred_quotes None "USDC" Sample.offline []
     = (Ok 1%float, [EvSpotMeta; EvSpotMeta; EvSpotMeta; EvSpotMeta; EvSpotMeta])
  /\ resolve_stable_usd_factor (Sample.venue [Sample.pair_entry 3 1 4] sample_book)
                               "USDHL" (StrList ["FEUSD"]) None "USDC" Sample.offline []
     = (Ok 1.5%float, [EvSpotMeta; EvPost "/info" (l2book_request 10004)]).
Proof.
  split; [reflexivity|]. split; [reflexivity|]. split; vm_compute; reflexivity.
Qed.

(** ** The DEX resolver (hyper_evm_prices.py) *)

Lemma token_address_object p k a :
  token_address p k = Ok a -> exists kvs, p = PDict kvs.
Proof. destruct p; try discriminate. intros _. now eexists. Qed.

Lemma pool_price_object kvs : exists price, pool_price (PDict kvs) = Ok price.
Proof.
  unfold pool_price. cbn.
  match goal with |- context [if Py.truthy ?a then _ else _] => destruct (Py.truthy a) end;
    now eexists.
Qed.

(** One iteration, once the addresses and the price field are read. *)
Lemma scan_pool_unfold tA tB p st base quote price :
  token_address p "baseToken" = Ok base ->
  token_address p "quoteToken" = Ok quote ->
  pool_price p = Ok price ->
  scan_pool tA tB p st =
  if negb (Str.nonempty base) || negb (Str.nonempty quote) then Ok (Continue st)
  else match exact_return tA tB base quote price with
       | Some v => Ok (Returned v)
       | None =>
           match inverted_return tA tB base quote price with
           | Some v => Ok (Returned v)
           | None =>
               if PrimFloat.ltb (best_liq st) (pool_liquidity p) && Py.truthy price
               then Ok (Continue (mkBest (pool_liquidity p) (Some price)))
               else Ok (Continue st)
           end
       end.
Proof.
  intros Hb Hq Hp. unfold scan_pool. rewrite Hb, Hq. cbn.
  destruct (negb (Str.nonempty base) || negb (Str.nonempty quote)); [reflexivity|].
  now rewrite Hp.
Qed.

Lemma exact_return_some tA tB base quote price v :
  exact_return tA tB base quote price = Some v ->
  base = tA /\ quote = tB /\ Py.truthy price = true /\ Py.float_ price = Ok v.
Proof.
  unfold exact_return.
  destruct (String.eqb base tA) eqn:Hb; [|discriminate].
  destruct (String.eqb quote tB) eqn:Hq; [|discriminate].
  destruct (Py.truthy price); [|discriminate]. cbn.
  destruct (Py.float_ price); [|discriminate]. intros [= ->].
  apply String.eqb_eq in Hb, Hq. now subst.
Qed.

Lemma inverted_return_some tA tB base quote price r :
  inverted_return tA tB base quote price = Some r ->
  base = tB /\ quote = tA /\ Py.truthy price = true /\
  exists v, Py.float_ price = Ok v /\ PrimFloat.eqb v zero = false /\ r = (1 / v)%float.
Proof.
  unfold inverted_return, Py.truediv.
  destruct (String.eqb base tB) eqn:Hb; [|discriminate].
  destruct (String.eqb quote tA) eqn:Hq; [|discriminate].
  destruct (Py.truthy price); [|discriminate]. cbn.
  destruct (Py.float_ price) as [v|]; [|discriminate].
  destruct (PrimFloat.eqb v zero) eqn:Hv; [discriminate|]. cbn. intros [= <-].
  apply String.eqb_eq in Hb, Hq. subst. repeat split; trivial. now exists v.
Qed.

(** What one iteration can do: return the parsed price of the pool or the
    reciprocal of a nonzero one, keep the loop variables, or make the pool
    the fallback candidate when its price field is non-empty. *)
Lemma scan_pool_cases tA tB p st r :
  scan_pool tA tB p st = Ok r ->
  match r with
  | Returned x =>
      exists price v,
        pool_price p = Ok price /\ Py.truthy price = true /\ Py.float_ price = Ok v /\
        (x = v \/ (PrimFloat.eqb v zero = false /\ x = (1 / v)%float))
  | Continue st' =>
      st' = st \/
      exists price,
        pool_price p = Ok price /\ Py.truthy price = true /\
        st' = mkBest (pool_liquidity p) (Some price)
  end.
Proof.
  destruct (token_address p "baseToken") as [base|e] eqn:Hb;
    [|unfold scan_pool; rewrite Hb; discriminate].
  destruct (token_address p "quoteToken") as [quote|e] eqn:Hq;
    [|unfold scan_pool; rewrite Hb, Hq; discriminate].
  destruct (token_address_object _ _ _ Hb) as [kvs ->].
  destruct (pool_price_object kvs) as [price Hp].
  rewrite (scan_pool_unfold _ _ _ _ _ _ _ Hb Hq Hp).
  destruct (negb (Str.nonempty base) || negb (Str.nonempty quote)).
  { intros [= <-]. now left. }
  destruct (exact_return tA tB base quote price) as [x|] eqn:He.
  { intros [= <-]. apply exact_return_some in He as (_ & _ & Ht & Hf).
    exists price, x. repeat split; auto. }
  destruct (inverted_return tA tB base quote price) as [x|] eqn:Hi.
  { intros [= <-]. apply inverted_return_some in Hi as (_ & _ & Ht & v & Hf & Hz & ->).
    exists price, v. repeat split; auto. }
  destruct (PrimFloat.ltb _ _); cbn.
  - destruct (Py.truthy price) eqn:Ht; intros [= <-]; [right; now exists price | now left].
  - intros [= <-]. now left.
Qed.

Lemma scan_pools_cases tA tB ps : forall st r seen,
  candidate_from seen st ->
  scan_pools tA tB ps st = Ok r ->
  match r with
  | Returned x =>
      exists p price v,
        In p ps /\ pool_price p = Ok price /\ Py.truthy price = true /\
        Py.float_ price = Ok v /\
        (x = v \/ (PrimFloat.eqb v zero = false /\ x = (1 / v)%float))
  | Continue st' => candidate_from (seen ++ ps) st'
  end.
Proof.
  induction ps as [|p ps IH]; intros st r seen Hst.
  - intros [= <-]. now rewrite app_nil_r.
  - cbn [scan_pools]. destruct (scan_pool tA tB p st) as [r1|e] eqn:H1; [|discriminate].
    apply scan_pool_cases in H1. cbn. destruct r1 as [x|st1].
    + intros [= <-]. destruct H1 as (price & v & ? & ? & ? & ?).
      exists p, price, v. split; [now left|]. auto.
    + intros H2. apply (IH st1 r (seen ++ [p])%list) in H2.
      * destruct r as [x|st2].
        -- destruct H2 as (p' & price & v & ? & ?). exists p', price, v. split; [now right|assumption].
        -- now rewrite <- app_assoc in H2.
      * destruct H1 as [-> | (price & Hp & Ht & ->)].
        -- unfold candidate_from in *. destruct (best_price st); [|exact I].
           destruct Hst as (p' & ? & ?). exists p'. split; [apply in_or_app; now left|assumption].
        -- exists p. split; [apply in_or_app; right; now left|]. now split.
Qed.

Lemma get_pair_mid_with_pairs tokenA tokenB timeout rt tr pairs tr1 :
  _load_pairs_for_token tokenA timeout rt tr = (Ok pairs, tr1) ->
  get_pair_mid_from_dexscreener tokenA tokenB timeout rt tr
  = (pair_mid_of_pairs tokenA tokenB pairs, tr1).
Proof.
  intros H. unfold get_pair_mid_from_dexscreener. now rewrite (bind_ok _ _ _ _ _ _ H).
Qed.

Lemma get_pair_mid_ok_inv tokenA tokenB timeout rt tr r tr' :
  get_pair_mid_from_dexscreener tokenA tokenB timeout rt tr = (Ok r, tr') ->
  exists pairs,
    _load_pairs_for_token tokenA timeout rt tr = (Ok pairs, tr')
    /\ pair_mid_of_pairs tokenA tokenB pairs = Ok r.
Proof.
  unfold get_pair_mid_from_dexscreener, mbind at 1, M_bind at 1.
  destruct (_load_pairs_for_token tokenA timeout rt tr) as [[pairs|e] tr1]; [|discriminate].
  unfold lift. intros [= H <-]. now exists pairs.
Qed.

Lemma pair_mid_of_pairs_ok tokenA tokenB pairs r :
  pair_mid_of_pairs tokenA tokenB pairs = Ok r ->
  exists ps p price v,
    Py.iter pairs = Ok ps /\ In p ps /\
    pool_price p = Ok price /\ Py.truthy price = true /\ Py.float_ price = Ok v /\
    (r = v \/ (PrimFloat.eqb v zero = false /\ r = (1 / v)%float)).
Proof.
  unfold pair_mid_of_pairs. destruct (Py.iter pairs) as [ps|e]; [|discriminate]. cbn.
  destruct (scan_pools (Str.lower tokenA) (Str.lower tokenB) ps initial_best) as [s|e] eqn:Hs;
    [|discriminate].
  apply (scan_pools_cases _ _ _ _ _ []) in Hs; [|exact I]. cbn. destruct s as [x|st].
  - intros [= <-]. destruct Hs as (p & price & v & Hs). exists ps, p, price, v. now split.
  - unfold after_scan. unfold candidate_from in Hs. cbn [app] in Hs.
    destruct (best_price st) as [bp|]; [|discriminate].
    destruct (Py.float_ bp) as [v|e] eqn:Hf; [|discriminate]. intros [= <-].
    destruct Hs as (p & Hin & Hp & Ht). exists ps, p, bp, v. repeat split; auto.
Qed.

(** C4, as the code has it.  A successful [get_pair_mid_from_dexscreener] is
    [float] of the non-empty price field of one of the scanned pools (exact
    orientation or fallback candidate), or the reciprocal [1 / v] of such a
    value [v] that is not zero (inverted orientation).  Nothing checks the
    sign: the result is positive only when the pool's price is. *)
Theorem dex_result_is_a_pool_price tokenA tokenB timeout rt tr r tr' :
  get_pair_mid_from_dexscreener tokenA tokenB timeout rt tr = (Ok r, tr') ->
  exists pairs ps p price v,
    _load_pairs_for_token tokenA timeout rt tr = (Ok pairs, tr') /\
    Py.iter pairs = Ok ps /\ In p ps /\
    pool_price p = Ok price /\ Py.truthy price = true /\ Py.float_ price = Ok v /\
    (r = v \/ (PrimFloat.eqb v zero = false /\ r = (1 / v)%float)).
Proof.
  intros (pairs & Hload & Hmid)%get_pair_mid_ok_inv.
  apply pair_mid_of_pairs_ok in Hmid as (ps & p & price & v & H).
  exists pairs, ps, p, price, v. now split.
Qed.

Lemma dex_result_is_a_pool_price_example :
  exists pairs ps p price v,
    _load_pairs_for_token "0xAa" 5%float
      (dex_runtime [Sample.pool "0xcc" "0xdd" (PStr "3.0") 50;
                    Sample.pool "0xBB" "0xAA" (PStr "2.0") 10]) []
    = (Ok pairs, [dex_query "0xAa"]) /\
    Py.iter pairs = Ok ps /\ In p ps /\
    pool_price p = Ok price /\ Py.truthy price = true /\ Py.float_ price = Ok v /\
    (0.5%float = v \/ (PrimFloat.eqb v zero = false /\ 0.5%float = (1 / v)%float)).
Proof.
  apply (dex_result_is_a_pool_price "0xAa" "0xBb" 5%float
           (dex_runtime [Sample.pool "0xcc" "0xdd" (PStr "3.0") 50;
                         Sample.pool "0xBB" "0xAA" (PStr "2.0") 10])
           [] 0.5%float [dex_query "0xAa"]).
  vm_compute. reflexivity.
Defined.

(** C4 as stated fails: the fallback path returns the price "0" of a pool in
    neither orientation as 0.0, and the exact orientation returns the price
    "-2.5" as -2.5; neither is greater than zero. *)
Lemma dex_result_not_positive :
  get_pair_mid_from_dexscreener "0xAa" "0xBb" 5%float
    (dex_runtime [Sample.pool "0xcc" "0xdd" (PStr "0") 1000]) []
  = (Ok 0%float, [dex_query "0xAa"])
  /\ PrimFloat.ltb 0 0 = false
  /\ get_pair_mid_from_dexscreener "0xAa" "0xBb" 5%float
       (dex_runtime [Sample.pool "0xaa" "0xbb" (PStr "-2.5") 1000]) []
     = (Ok (-2.5)%float, [dex_query "0xAa"])
  /\ PrimFloat.ltb 0 (-2.5) = false.
Proof. repeat split; vm_compute; reflexivity. Qed.

(** Loop variables whose fallback candidate, if any, does not parse. *)
Lemma scan_pool_unparseable tA tB p st :
  pool_readable p = true ->
  price_parses p = false ->
  (forall bp, best_price st = Some bp -> is_ok (Py.float_ bp) = false) ->
  exists st',
    scan_pool tA tB p st = Ok (Continue st')
    /\ (forall bp, best_price st' = Some bp -> is_ok (Py.float_ bp) = false).
Proof.
  unfold pool_readable, price_parses. intros [Hb Hq]%andb_prop Hnp Hst.
  destruct (token_address p "baseToken") as [base|] eqn:Eb; [|discriminate].
  destruct (token_address p "quoteToken") as [quote|] eqn:Eq; [|discriminate].
  destruct (token_address_object _ _ _ Eb) as [kvs ->].
  destruct (pool_price_object kvs) as [price Hp]. rewrite Hp in Hnp.
  rewrite (scan_pool_unfold _ _ _ _ _ _ _ Eb Eq Hp).
  destruct (negb (Str.nonempty base) || negb (Str.nonempty quote)); [now exists st|].
  assert (He : exact_return tA tB base quote price = None).
  { unfold exact_return. destruct (Py.float_ price); [discriminate|].
    now destruct (_ && _). }
  assert (Hi : inverted_return tA tB base quote price = None).
  { unfold inverted_return. destruct (Py.float_ price); [discriminate|].
    now destruct (_ && _). }
  rewrite He, Hi. destruct (_ && _); [|now exists st].
  eexists. split; [reflexivity|]. cbn. now intros bp [= <-].
Qed.

Lemma scan_pools_unparseable tA tB ps : forall st,
  forallb pool_readable ps = true ->
  existsb price_parses ps = false ->
  (forall bp, best_price st = Some bp -> is_ok (Py.float_ bp) = false) ->
  exists st',
    scan_pools tA tB ps st = Ok (Continue st')
    /\ (forall bp, best_price st' = Some bp -> is_ok (Py.float_ bp) = false).
Proof.
  induction ps as [|p ps IH]; intros st.
  - intros _ _ Hst. now exists st.
  - cbn [forallb existsb scan_pools]. intros [Hr Hrs]%andb_prop [Hn Hns]%orb_false_elim Hst.
    destruct (scan_pool_unparseable tA tB p st Hr Hn Hst) as (st1 & -> & Hst1). cbn.
    now apply IH.
Qed.

(** *** The order of binary64 liquidities *)

Ltac rank_no :=
  split; [discriminate
         |intros (ra & rb & Ha & Hb & H);
          first [discriminate Ha | discriminate Hb
                | injection Ha as <-; injection Hb as <-; cbn in H; lia]].

Ltac rank_yes :=
  split; [intros _; eexists _, _; split; [reflexivity|split; [reflexivity|cbn; lia]]
         |reflexivity].

Lemma SFltb_rank a b :
  SFltb a b = true <->
  exists ra rb, sf_rank a = Some ra /\ sf_rank b = Some rb /\ rank_lt ra rb.
Proof.
  unfold SFltb.
  destruct a as [sa|sa| |sa ma ea], b as [sb|sb| |sb mb eb];
    try destruct sa; try destruct sb; cbn;
    try (destruct (Z.compare_spec ea eb) as [He|He|He]; cbn;
         [rewrite Pos.compare_cont_spec; cbn;
          destruct (Pos.compare_spec ma mb) as [Hm|Hm|Hm]; cbn| |]);
    first [rank_no | rank_yes].
Qed.

Lemma SFltb_trans a b c : SFltb a b = true -> SFltb b c = true -> SFltb a c = true.
Proof.
  rewrite !SFltb_rank.
  intros (ra & rb & Ha & Hb & Hab) (rb' & rc & Hb' & Hc & Hbc).
  rewrite Hb in Hb'. injection Hb' as <-.
  exists ra, rc. split; [exact Ha|split; [exact Hc|]].
  destruct ra as [[a1 a2] a3], rb as [[b1 b2] b3], rc as [[c1 c2] c3]. cbn in *. lia.
Qed.

(** [q <= c < p] gives [q < p], for [q] and [c] that are numbers: both are
    above some [m]. *)
Lemma SFltb_le_lt m q c p :
  SFltb m q = true -> SFltb m c = true -> SFltb c q = false -> SFltb c p = true ->
  SFltb q p = true.
Proof.
  intros Hmq Hmc Hcq Hcp.
  apply SFltb_rank in Hmq as (rm & rq & _ & Hq & _).
  apply SFltb_rank in Hmc as (rm' & rc & _ & Hc & _).
  apply SFltb_rank in Hcp as (rc' & rp & Hc' & Hp & Hcp).
  rewrite Hc in Hc'. injection Hc' as <-.
  assert (Hn : ~ rank_lt rc rq).
  { intros H. assert (SFltb c q = true) by (apply SFltb_rank; now exists rc, rq).
    congruence. }
  apply SFltb_rank. exists rq, rp. split; [exact Hq|split; [exact Hp|]].
  destruct rq as [[a1 a2] a3], rc as [[b1 b2] b3], rp as [[c1 c2] c3]. cbn in *. lia.
Qed.

Lemma float_ltb_trans (a b c : float) :
  PrimFloat.ltb a b = true -> PrimFloat.ltb b c = true -> PrimFloat.ltb a c = true.
Proof. rewrite !ltb_spec. apply SFltb_trans. Qed.

Lemma float_ltb_le_lt (m q c p : float) :
  PrimFloat.ltb m q = true -> PrimFloat.ltb m c = true -> PrimFloat.ltb c q = false ->
  PrimFloat.ltb c p = true -> PrimFloat.ltb q p = true.
Proof. rewrite !ltb_spec. apply SFltb_le_lt. Qed.

(** *** The fallback candidate *)

Lemma scan_pools_app tA tB pre rest : forall st0 st,
  scan_pools tA tB pre st0 = Ok (Continue st) ->
  scan_pools tA tB (pre ++ rest) st0 = scan_pools tA tB rest st.
Proof.
  induction pre as [|p pre IH]; intros st0 st.
  - now intros [= ->].
  - cbn [scan_pools app]. destruct (scan_pool tA tB p st0) as [[x|st1]|e]; cbn; try discriminate.
    apply IH.
Qed.

Lemma readable_pool_fields p :
  pool_readable p = true ->
  exists base quote price,
    token_address p "baseToken" = Ok base
    /\ token_address p "quoteToken" = Ok quote
    /\ pool_price p = Ok price.
Proof.
  unfold pool_readable. intros [Hb Hq]%andb_prop.
  destruct (token_address p "baseToken") as [base|] eqn:Eb; [|discriminate].
  destruct (token_address p "quoteToken") as [quote|] eqn:Eq; [|discriminate].
  destruct (token_address_object _ _ _ Eb) as [kvs ->].
  destruct (pool_price_object kvs) as [price Hp].
  now exists base, quote, price.
Qed.

(** One round of the loop for a pool neither orientation block returns for. *)
Lemma scan_pool_fallback tA tB p st :
  pool_readable p = true ->
  orientation_return tA tB p = None ->
  exists price,
    pool_price p = Ok price
    /\ scan_pool tA tB p st
       = Ok (Continue (if with_price p && PrimFloat.ltb (best_liq st) (pool_liquidity p)
                       then mkBest (pool_liquidity p) (Some price) else st)).
Proof.
  intros Hr Hnone. destruct (readable_pool_fields p Hr) as (base & quote & price & Eb & Eq & Hp).
  exists price. split; [exact Hp|].
  rewrite (scan_pool_unfold _ _ _ _ _ _ _ Eb Eq Hp).
  unfold orientation_return in Hnone. unfold with_price. rewrite Eb, Eq, Hp in *.
  destruct (Str.nonempty base); cbn [negb orb andb]; [|reflexivity].
  destruct (Str.nonempty quote); cbn [negb orb andb] in *; [|reflexivity].
  destruct (exact_return tA tB base quote price); [discriminate|]. rewrite Hnone.
  destruct (Py.truthy price), (PrimFloat.ltb (best_liq st) (pool_liquidity p)); reflexivity.
Qed.

Lemma eligible_has_price p :
  fallback_eligible p = true -> exists price, pool_price p = Ok price.
Proof.
  unfold fallback_eligible, with_price. intros [H _]%andb_prop.
  destruct (token_address p "baseToken"); [|discriminate].
  destruct (token_address p "quoteToken"); [|discriminate].
  destruct (pool_price p) as [price|]; [now exists price|discriminate].
Qed.

Lemma fallback_state_step tA tB seen st p :
  fallback_state seen st ->
  pool_readable p = true ->
  orientation_return tA tB p = None ->
  exists st',
    scan_pool tA tB p st = Ok (Continue st')
    /\ fallback_state (seen ++ [p]) st'.
Proof.
  intros Hst Hr Hnone.
  destruct (scan_pool_fallback tA tB p st Hr Hnone) as (price & Hp & ->).
  eexists. split; [reflexivity|].
  destruct Hst as [[-> Hnot] | (c & cprice & (pre & post & -> & Hc & Hpre & Hpost) & Hcp & ->)].
  - (* no candidate yet *)
    cbn [best_liq initial_best].
    change (with_price p && PrimFloat.ltb (-1) (pool_liquidity p)) with (fallback_eligible p).
    destruct (fallback_eligible p) eqn:Hel.
    + right. exists p, price. split; [|split; [exact Hp|reflexivity]].
      exists seen, []. split; [reflexivity|]. split; [exact Hel|]. split.
      * intros q Hq Hqe. rewrite (Hnot q Hq) in Hqe. discriminate.
      * intros q [].
    + left. split; [reflexivity|]. intros q [Hq|[<-|[]]]%in_app_or; [now apply Hnot|exact Hel].
  - (* a candidate [c] *)
    cbn [best_liq].
    assert (Hcl : PrimFloat.ltb (-1) (pool_liquidity c) = true)
      by (unfold fallback_eligible in Hc; now apply andb_prop in Hc).
    destruct (with_price p) eqn:Hw; cbn [andb].
    + destruct (PrimFloat.ltb (pool_liquidity c) (pool_liquidity p)) eqn:Hlt.
      * (* [p] takes over *)
        assert (Hel : fallback_eligible p = true).
        { unfold fallback_eligible. rewrite Hw. cbn [andb].
          exact (float_ltb_trans _ _ _ Hcl Hlt). }
        right. exists p, price. split; [|split; [exact Hp|reflexivity]].
        exists (pre ++ c :: post)%list, []. split; [reflexivity|]. split; [exact Hel|]. split.
        -- intros q Hq Hqe. apply in_app_or in Hq as [Hq|[<-|Hq]].
           ++ exact (float_ltb_trans _ _ _ (Hpre q Hq Hqe) Hlt).
           ++ exact Hlt.
           ++ assert (Hql : PrimFloat.ltb (-1) (pool_liquidity q) = true)
                by (unfold fallback_eligible in Hqe; now apply andb_prop in Hqe).
              exact (float_ltb_le_lt _ _ _ _ Hql Hcl (Hpost q Hq Hqe) Hlt).
        -- intros q [].
      * (* [c] stays *)
        right. exists c, cprice. split; [|split; [exact Hcp|reflexivity]].
        exists pre, (post ++ [p])%list. split; [now rewrite <- app_assoc|].
        split; [exact Hc|]. split; [exact Hpre|].
        intros q [Hq|[<-|[]]]%in_app_or Hqe; [now apply Hpost|exact Hlt].
    + right. exists c, cprice. split; [|split; [exact Hcp|reflexivity]].
      exists pre, (post ++ [p])%list. split; [now rewrite <- app_assoc|].
      split; [exact Hc|]. split; [exact Hpre|].
      intros q [Hq|[<-|[]]]%in_app_or Hqe; [now apply Hpost|].
      unfold fallback_eligible in Hqe. rewrite Hw in Hqe. discriminate.
Qed.

Lemma fallback_state_scan tA tB ps : forall seen st,
  fallback_state seen st ->
  forallb pool_readable ps = true ->
  (forall q, In q ps -> orientation_return tA tB q = None) ->
  exists st',
    scan_pools tA tB ps st = Ok (Continue st')
    /\ fallback_state (seen ++ ps) st'.
Proof.
  induction ps as [|p ps IH]; intros seen st Hst Hr Hnone.
  - exists st. rewrite app_nil_r. now split.
  - cbn [forallb] in Hr. apply andb_prop in Hr as [Hp Hps].
    destruct (fallback_state_step tA tB seen st p Hst Hp (Hnone p (or_introl eq_refl)))
      as (st1 & Hstep & Hst1).
    destruct (IH (seen ++ [p])%list st1 Hst1 Hps) as (st' & Hscan & Hst').
    { intros q Hq. apply Hnone. now right. }
    exists st'. cbn [scan_pools]. rewrite Hstep. cbn.
    split; [exact Hscan|]. now rewrite <- app_assoc in Hst'.
Qed.

Lemma fallback_state_initial : fallback_state [] initial_best.
Proof. left. split; [reflexivity|]. intros p []. Qed.

(** Two places of one list. *)
Lemma app_cons_places {A} (pre pre' post post' : list A) c c' :
  (pre ++ c :: post = pre' ++ c' :: post')%list ->
  (pre = pre' /\ c = c' /\ post = post')
  \/ (In c pre' /\ In c' post)
  \/ (In c' pre /\ In c post').
Proof.
  revert pre'. induction pre as [|x pre IH]; intros [|x' pre']; cbn [app].
  - intros [= -> ->]. now left.
  - intros [= -> ->]. right. left. split; [now left|apply in_or_app; right; now left].
  - intros [= -> <-]. right. right. split; [now left|apply in_or_app; right; now left].
  - intros [= -> H]. destruct (IH _ H) as [(-> & -> & ->)|[[H1 H2]|[H1 H2]]].
    + now left.
    + right. left. split; [now right|assumption].
    + right. right. split; [now right|assumption].
Qed.

Lemma candidate_unique ps c c' :
  highest_liquidity_candidate ps c -> highest_liquidity_candidate ps c' -> c = c'.
Proof.
  intros (pre & post & -> & Hc & Hpre & Hpost) (pre' & post' & Heq & Hc' & Hpre' & Hpost').
  destruct (app_cons_places _ _ _ _ _ _ Heq) as [(_ & H & _)|[[H1 H2]|[H1 H2]]].
  - exact H.
  - pose proof (Hpre' c H1 Hc) as Hlt. rewrite (Hpost c' H2 Hc') in Hlt. discriminate.
  - pose proof (Hpre c' H1 Hc') as Hlt. rewrite (Hpost' c H2 Hc) in Hlt. discriminate.
Qed.

Lemma candidate_in ps c :
  highest_liquidity_candidate ps c -> In c ps /\ fallback_eligible c = true.
Proof.
  intros (pre & post & -> & Hc & _). split; [|exact Hc].
  apply in_or_app. right. now left.
Qed.

(** The scan and what follows it, when no orientation block returns. *)
Lemma pair_mid_by_candidate tokenA tokenB ps :
  forallb pool_readable ps = true ->
  (forall q, In q ps -> orientation_return (Str.lower tokenA) (Str.lower tokenB) q = None) ->
  (existsb fallback_eligible ps = true -> exists c, highest_liquidity_candidate ps c)
  /\ (existsb fallback_eligible ps = false ->
      pair_mid_of_pairs tokenA tokenB (PList ps) = Err (NoSuitablePool tokenA tokenB))
  /\ (forall c price,
        highest_liquidity_candidate ps c -> pool_price c = Ok price ->
        pair_mid_of_pairs tokenA tokenB (PList ps)
        = match Py.float_ price with
          | Ok v => Ok v
          | Err _ => Err (NoSuitablePool tokenA tokenB)
          end).
Proof.
  intros Hr Hnone.
  destruct (fallback_state_scan _ _ ps [] initial_best fallback_state_initial Hr Hnone)
    as (st & Hscan & Hst).
  cbn [app] in Hst. unfold pair_mid_of_pairs. cbn [Py.iter]. cbn. rewrite Hscan. cbn.
  destruct Hst as [[-> Hnot] | (c & cprice & Hcand & Hcp & ->)].
  - assert (Hex : existsb fallback_eligible ps = false).
    { destruct (existsb fallback_eligible ps) eqn:E; [|reflexivity].
      apply existsb_exists in E as (q & Hq & Hqe). rewrite (Hnot q Hq) in Hqe. discriminate. }
    rewrite Hex. split; [discriminate|]. split; [reflexivity|].
    intros c price Hc _. apply candidate_in in Hc as [Hin Hel].
    rewrite (Hnot c Hin) in Hel. discriminate.
  - assert (Hex : existsb fallback_eligible ps = true).
    { apply existsb_exists. exists c. now apply candidate_in. }
    rewrite Hex. split; [intros _; now exists c|]. split; [discriminate|].
    intros c' price Hc' Hp'. rewrite <- (candidate_unique _ _ _ Hcand Hc') in Hp'.
    rewrite Hcp in Hp'. injection Hp' as <-. unfold after_scan. cbn [best_price].
    now destruct (Py.float_ cprice).
Qed.

(** The first pool an orientation block returns for ends the scan. *)
Lemma pair_mid_by_orientation tokenA tokenB pre p post v :
  forallb pool_readable (pre ++ p :: post) = true ->
  (forall q, In q pre -> orientation_return (Str.lower tokenA) (Str.lower tokenB) q = None) ->
  orientation_return (Str.lower tokenA) (Str.lower tokenB) p = Some v ->
  pair_mid_of_pairs tokenA tokenB (PList (pre ++ p :: post)) = Ok v.
Proof.
  intros Hr Hnone Hsome. rewrite forallb_app in Hr. apply andb_prop in Hr as [Hpre Hrest].
  cbn [forallb] in Hrest. apply andb_prop in Hrest as [Hp _].
  destruct (fallback_state_scan _ _ pre [] initial_best fallback_state_initial Hpre Hnone)
    as (st & Hscan & _).
  unfold pair_mid_of_pairs. cbn [Py.iter]. cbn.
  rewrite (scan_pools_app _ _ _ _ _ _ Hscan). cbn [scan_pools].
  destruct (readable_pool_fields p Hp) as (base & quote & price & Eb & Eq & Hprice).
  rewrite (scan_pool_unfold _ _ _ _ _ _ _ Eb Eq Hprice).
  unfold orientation_return in Hsome. rewrite Eb, Eq, Hprice in Hsome.
  destruct (negb (Str.nonempty base) || negb (Str.nonempty quote)); [discriminate|].
  destruct (exact_return _ _ base quote price) as [x|].
  - injection Hsome as ->. reflexivity.
  - rewrite Hsome. reflexivity.
Qed.

Lemma first_orientation_return tA tB ps :
  (forall q, In q ps -> orientation_return tA tB q = None)
  \/ exists pre p post v,
       ps = (pre ++ p :: post)%list
       /\ (forall q, In q pre -> orientation_return tA tB q = None)
       /\ orientation_return tA tB p = Some v.
Proof.
  induction ps as [|p ps IH].
  - left. intros q [].
  - destruct (orientation_return tA tB p) as [v|] eqn:Hp.
    + right. exists [], p, ps, v. split; [reflexivity|]. split; [intros q []|exact Hp].
    + destruct IH as [Hnone|(pre & p0 & post & v & -> & Hpre & Hp0)].
      * left. intros q [<-|Hq]; [exact Hp|now apply Hnone].
      * right. exists (p :: pre), p0, post, v. split; [reflexivity|].
        split; [|exact Hp0]. intros q [<-|Hq]; [exact Hp|now apply Hpre].
Qed.

(** C3, as the code has it.  Take pools whose addresses can be read.  The
    first pool an orientation block returns for decides the call.  When
    there is none, the liquidity-ranked fallback candidate decides: the call
    returns the candidate's raw price when [float] accepts it, and fails with
    the no-suitable-pool error when it does not, or when no pool is eligible.
    So the call fails with that error exactly when no orientation block
    returns and the candidate is missing or its price does not parse.  It
    fails in particular when no pool yields a parseable price; the converse
    does not hold, since the candidate is ranked among the pools with a
    non-empty price field, parseable or not. *)
Theorem fallback_candidate_decides tokenA tokenB timeout rt tr ps tr' :
  _load_pairs_for_token tokenA timeout rt tr = (Ok (PList ps), tr') ->
  forallb pool_readable ps = true ->
  let tA := Str.lower tokenA in
  let tB := Str.lower tokenB in
  let call := get_pair_mid_from_dexscreener tokenA tokenB timeout rt tr in
  let no_pool := (Err (NoSuitablePool tokenA tokenB), tr') in
  (forall pre p post v,
     ps = (pre ++ p :: post)%list ->
     (forall q, In q pre -> orientation_return tA tB q = None) ->
     orientation_return tA tB p = Some v ->
     call = (Ok v, tr'))
  /\
  ((forall q, In q ps -> orientation_return tA tB q = None) ->
   (existsb fallback_eligible ps = true -> exists c, highest_liquidity_candidate ps c)
   /\ (existsb fallback_eligible ps = false -> call = no_pool)
   /\ (forall c price,
         highest_liquidity_candidate ps c ->
         pool_price c = Ok price ->
         call = (match Py.float_ price with
                 | Ok v => Ok v
                 | Err _ => Err (NoSuitablePool tokenA tokenB)
                 end, tr')))
  /\
  (call = no_pool <->
   (forall q, In q ps -> orientation_return tA tB q = None)
   /\ (existsb fallback_eligible ps = false
       \/ exists c price,
            highest_liquidity_candidate ps c
            /\ pool_price c = Ok price
            /\ is_ok (Py.float_ price) = false))
  /\
  (existsb price_parses ps = false -> call = no_pool)
  /\
  (forall v, call = (Ok v, tr') -> existsb price_parses ps = true).
Proof.
  intros Hload Hread tA tB call no_pool.
  assert (Hcall : call = (pair_mid_of_pairs tokenA tokenB (PList ps), tr'))
    by exact (get_pair_mid_with_pairs _ _ _ _ _ _ _ Hload).
  assert (Hor : forall pre p post v,
             ps = (pre ++ p :: post)%list ->
             (forall q, In q pre -> orientation_return tA tB q = None) ->
             orientation_return tA tB p = Some v ->
             call = (Ok v, tr')).
  { intros pre p post v -> Hpre Hp. rewrite Hcall. f_equal.
    now apply pair_mid_by_orientation. }
  assert (Hfb : (forall q, In q ps -> orientation_return tA tB q = None) ->
                (existsb fallback_eligible ps = true ->
                 exists c, highest_liquidity_candidate ps c)
                /\ (existsb fallback_eligible ps = false -> call = no_pool)
                /\ (forall c price,
                      highest_liquidity_candidate ps c ->
                      pool_price c = Ok price ->
                      call = (match Py.float_ price with
                              | Ok v => Ok v
                              | Err _ => Err (NoSuitablePool tokenA tokenB)
                              end, tr'))).
  { intros Hnone.
    destruct (pair_mid_by_candidate tokenA tokenB ps Hread Hnone) as (Hex & Hno & Hc).
    split; [exact Hex|]. split.
    - intros H. rewrite Hcall. unfold no_pool. f_equal. now apply Hno.
    - intros c price Hcand Hp. rewrite Hcall. f_equal. exact (Hc c price Hcand Hp). }
  split; [exact Hor|]. split; [exact Hfb|]. split; [|split].
  - split.
    + intros Hfail.
      destruct (first_orientation_return tA tB ps) as [Hnone|(pre & p & post & v & E & Hpre & Hp)].
      2:{ rewrite (Hor _ _ _ _ E Hpre Hp) in Hfail. discriminate. }
      split; [exact Hnone|].
      destruct (Hfb Hnone) as (Hex & _ & Hc).
      destruct (existsb fallback_eligible ps) eqn:E; [|now left].
      right. destruct (Hex eq_refl) as [c Hcand].
      destruct (eligible_has_price c (proj2 (candidate_in _ _ Hcand))) as [price Hp].
      exists c, price. split; [exact Hcand|]. split; [exact Hp|].
      rewrite (Hc c price Hcand Hp) in Hfail.
      destruct (Py.float_ price); [discriminate|reflexivity].
    + intros [Hnone [Hno|(c & price & Hcand & Hp & Hf)]].
      * now apply (Hfb Hnone).
      * rewrite (proj2 (proj2 (Hfb Hnone)) c price Hcand Hp).
        destruct (Py.float_ price); [discriminate|reflexivity].
  - intros Hnone. rewrite Hcall. unfold no_pool. f_equal. unfold pair_mid_of_pairs. cbn.
    destruct (scan_pools_unparseable (Str.lower tokenA) (Str.lower tokenB) ps initial_best
                Hread Hnone) as (st & -> & Hst); [discriminate|].
    cbn. unfold after_scan. destruct (best_price st) as [bp|] eqn:Hbp; [|reflexivity].
    specialize (Hst bp eq_refl). now destruct (Py.float_ bp).
  - intros v Hv. rewrite Hcall in Hv. injection Hv as Hv.
    apply pair_mid_of_pairs_ok in Hv as (ps' & p & price & w & Hi & Hin & Hp & _ & Hf & _).
    cbn in Hi. injection Hi as <-. apply existsb_exists. exists p. split; [assumption|].
    unfold price_parses. now rewrite Hp, Hf.
Qed.

(** Three pools in neither orientation: the candidate is the first of the
    two pools of liquidity 500, and the call returns its price, not the
    price of the pool listed first nor of the later pool of equal
    liquidity. *)
Lemma fallback_candidate_decides_example :
  get_pair_mid_from_dexscreener "0xAa" "0xBb" 5%float
    (dex_runtime [Sample.pool "0xcc" "0xdd" (PStr "1.5") 10;
                  Sample.pool "0xcc" "0xee" (PStr "3.0") 500;
                  Sample.pool "0xcc" "0xff" (PStr "4.0") 500]) []
  = (Ok 3%float, [dex_query "0xAa"]).
Proof.
  destruct (fallback_candidate_decides "0xAa" "0xBb" 5%float
              (dex_runtime [Sample.pool "0xcc" "0xdd" (PStr "1.5") 10;
                            Sample.pool "0xcc" "0xee" (PStr "3.0") 500;
                            Sample.pool "0xcc" "0xff" (PStr "4.0") 500])
              [] [Sample.pool "0xcc" "0xdd" (PStr "1.5") 10;
                  Sample.pool "0xcc" "0xee" (PStr "3.0") 500;
                  Sample.pool "0xcc" "0xff" (PStr "4.0") 500]
              [dex_query "0xAa"] eq_refl eq_refl) as (_ & Hfb & _).
  destruct Hfb as (_ & _ & Hc).
  { intros q [<-|[<-|[<-|[]]]]; reflexivity. }
  apply (Hc (Sample.pool "0xcc" "0xee" (PStr "3.0") 500) (PStr "3.0")); [|reflexivity].
  exists [Sample.pool "0xcc" "0xdd" (PStr "1.5") 10],
         [Sample.pool "0xcc" "0xff" (PStr "4.0") 500].
  split; [reflexivity|]. split; [reflexivity|]. split.
  - intros p [<-|[]] _. reflexivity.
  - intros p [<-|[]] _. reflexivity.
Defined.

(** C3 as stated fails: the pool with the greater liquidity has a price
    field that does not parse, so it is the fallback candidate and the call
    fails, although the other pool, in neither orientation, reports the
    parseable price "1.5". *)
Lemma no_pool_despite_parseable_price :
  get_pair_mid_from_dexscreener "0xAa" "0xBb" 5%float
    (dex_runtime [Sample.pool "0xcc" "0xdd" (PStr "1.5") 10;
                  Sample.pool "0xcc" "0xee" (PStr "n/a") 500]) []
  = (Err (NoSuitablePool "0xAa" "0xBb"), [dex_query "0xAa"])
  /\ price_parses (Sample.pool "0xcc" "0xdd" (PStr "1.5") 10) = true
  /\ Py.float_ (PStr "1.5") = Ok 1.5%float.
Proof. repeat split; vm_compute; reflexivity. Qed.

(** C7, as the code has it.  Take non-empty addresses [tokenA] and [tokenB]
    that differ case-insensitively, and a pool reached by the scan (the pools
    before it neither returned nor raised) whose base address is [tokenB] and
    whose quote address is [tokenA], case-insensitively, with a non-empty
    price field that parses to [v].  If [v] is not zero the call returns
    [1 / v].  If [v] is zero the pool neither returns nor raises: the loop
    goes on with the next pool. *)
Theorem inverted_pool_returns_reciprocal
    tokenA tokenB timeout rt tr tr' pre p post st price v :
  _load_pairs_for_token tokenA timeout rt tr = (Ok (PList (pre ++ p :: post)), tr') ->
  scan_pools (Str.lower tokenA) (Str.lower tokenB) pre initial_best = Ok (Continue st) ->
  Str.nonempty (Str.lower tokenA) = true ->
  Str.nonempty (Str.lower tokenB) = true ->
  Str.lower tokenA <> Str.lower tokenB ->
  token_address p "baseToken" = Ok (Str.lower tokenB) ->
  token_address p "quoteToken" = Ok (Str.lower tokenA) ->
  pool_price p = Ok price ->
  Py.truthy price = true ->
  Py.float_ price = Ok v ->
  (PrimFloat.eqb v zero = false ->
   get_pair_mid_from_dexscreener tokenA tokenB timeout rt tr = (Ok (1 / v)%float, tr'))
  /\
  (PrimFloat.eqb v zero = true ->
   exists st', scan_pool (Str.lower tokenA) (Str.lower tokenB) p st = Ok (Continue st')).
Proof.
  intros Hload Hpre HA HB Hne Hb Hq Hp Ht Hf.
  assert (Hex : exact_return (Str.lower tokenA) (Str.lower tokenB)
                  (Str.lower tokenB) (Str.lower tokenA) price = None).
  { unfold exact_return.
    destruct (String.eqb (Str.lower tokenB) (Str.lower tokenA)) eqn:E; [|reflexivity].
    apply String.eqb_eq in E. now elim Hne. }
  pose proof (scan_pool_unfold (Str.lower tokenA) (Str.lower tokenB) p st _ _ _ Hb Hq Hp) as Hstep.
  rewrite HA, HB, Hex in Hstep. cbn [negb orb] in Hstep.
  unfold inverted_return, Py.truediv in Hstep.
  rewrite !String.eqb_refl, Ht, Hf in Hstep. cbn [andb] in Hstep. split.
  - intros Hv. rewrite Hv in Hstep. cbn in Hstep.
    rewrite (get_pair_mid_with_pairs _ _ _ _ _ _ _ Hload). f_equal.
    unfold pair_mid_of_pairs. cbn.
    rewrite (scan_pools_app _ _ _ _ _ _ Hpre). cbn [scan_pools]. now rewrite Hstep.
  - intros Hv. rewrite Hv in Hstep. cbn [negb] in Hstep. rewrite Hstep.
    destruct (_ && _); now eexists.
Qed.

Lemma inverted_pool_returns_reciprocal_example :
  get_pair_mid_from_dexscreener "0xAa" "0xBb" 5%float
    (dex_runtime [Sample.pool "0xcc" "0xdd" (PStr "3.0") 50;
                  Sample.pool "0xBB" "0xAA" (PStr "2.0") 10]) []
  = (Ok 0.5%float, [dex_query "0xAa"]).
Proof.
  refine (proj1 (inverted_pool_returns_reciprocal "0xAa" "0xBb" 5%float
                   (dex_runtime [Sample.pool "0xcc" "0xdd" (PStr "3.0") 50;
                                 Sample.pool "0xBB" "0xAA" (PStr "2.0") 10])
                   [] [dex_query "0xAa"]
                   [Sample.pool "0xcc" "0xdd" (PStr "3.0") 50]
                   (Sample.pool "0xBB" "0xAA" (PStr "2.0") 10) []
                   (mkBest 50%float (Some (PStr "3.0"))) (PStr "2.0") 2%float
                   _ _ _ _ _ _ _ _ _ _) _);
    try (vm_compute; reflexivity).
  vm_compute. discriminate.
Defined.

(** C7 as stated fails when [tokenA] and [tokenB] are the same address: a
    pool with that address on both sides has base [tokenB] and quote
    [tokenA], but the exact orientation is tested first and its price 2.0 is
    returned as it is, not as 0.5. *)
Lemma same_token_returns_price_not_reciprocal :
  get_pair_mid_from_dexscreener "0xAa" "0xAa" 5%float
    (dex_runtime [Sample.pool "0xaa" "0xaa" (PStr "2.0") 10]) []
  = (Ok 2%float, [dex_query "0xAa"])
  /\ token_address (Sample.pool "0xaa" "0xaa" (PStr "2.0") 10) "baseToken" = Ok (Str.lower "0xAa")
  /\ token_address (Sample.pool "0xaa" "0xaa" (PStr "2.0") 10) "quoteToken" = Ok (Str.lower "0xAa")
  /\ Py.float_ (PStr "2.0") = Ok 2%float
  /\ (1 / 2)%float = 0.5%float
  /\ PrimFloat.eqb 2 0.5 = false.
Proof. repeat split; vm_compute; reflexivity. Qed.

(** ** The fetcher (redstone_prices.py) *)

Lemma getitem_object item k v : Py.getitem item k = Ok v -> exists kvs, item = PDict kvs.
Proof. destruct item; try discriminate. intros _. now eexists. Qed.

Lemma read_record_object kvs rt tr :
  exists r,
    read_record (PDict kvs) rt tr =
    (match Py.getitem (PDict kvs) "value" ≫= Py.float_ with
     | Ok _ => Ok r
     | Err e => Err e
     end, tr).
Proof.
  unfold read_record. rewrite bind_lift.
  destruct (Py.getitem (PDict kvs) "value") as [v|e]; [|now exists (mkPrice zero PNone "")].
  rewrite bind_lift. cbn [mbind result_bind].
  destruct (Py.float_ v) as [val|e]; [|now exists (mkPrice zero PNone "")].
  cbn. now eexists.
Qed.

Lemma batch_step_trace item (out : gmap string price_record) rt tr :
  exists out',
    try_except
      (s ← lift (Py.getitem item "symbol");
       s' ← py_str s;
       let sym := Str.upper s' in
       r ← read_record item;
       mret (<[sym := r]> out))
      (fun _ => mret out) rt tr = (Ok out', tr)
    /\ (forall k, is_Some (out !! k) -> is_Some (out' !! k))
    /\ (forall key, record_key rt item = Some key -> is_Some (out' !! key)).
Proof.
  unfold try_except, record_key. rewrite bind_lift.
  destruct (Py.getitem item "symbol") as [s|e] eqn:Hs.
  2:{ exists out. cbn. repeat split; auto. discriminate. }
  destruct (getitem_object _ _ _ Hs) as [kvs ->].
  unfold py_str at 1, mbind at 1, M_bind at 1. cbn zeta.
  destruct (read_record_object kvs rt tr) as [r Hr].
  destruct (Py.getitem (PDict kvs) "value" ≫= Py.float_) as [val|e].
  - rewrite (bind_ok _ _ _ _ _ _ Hr). cbn. eexists. split; [reflexivity|]. split.
    + intros k Hk.
      destruct (decide (Str.upper (match s with PStr x => x | _ => repr rt s end) = k))
        as [<-|Hne].
      * rewrite lookup_insert_eq. now eexists.
      * now rewrite lookup_insert_ne.
    + intros key [= <-]. rewrite lookup_insert_eq. now eexists.
  - rewrite (bind_err _ _ _ _ _ _ Hr). exists out. cbn. repeat split; auto. discriminate.
Qed.

(** The batch loop never fails, has no effect, and keeps an entry for every
    record with a symbol and a numeric value, whatever the symbol. *)
Lemma batch_records_keys rt items : forall (out : gmap string price_record) tr,
  exists out',
    batch_records items out rt tr = (Ok out', tr)
    /\ (forall k, is_Some (out !! k) -> is_Some (out' !! k))
    /\ (forall item key, In item items -> record_key rt item = Some key -> is_Some (out' !! key)).
Proof.
  induction items as [|item items IH]; intros out tr.
  - exists out. cbn. repeat split; auto. intros ? ? [].
  - cbn [batch_records].
    destruct (batch_step_trace item out rt tr) as (out1 & H1 & Hkeep1 & Hnew1).
    rewrite (bind_ok _ _ _ _ _ _ H1).
    destruct (IH out1 tr) as (out2 & H2 & Hkeep2 & Hnew2).
    exists out2. split; [assumption|]. split; [auto|].
    intros it key [<-|Hin] Hk; [apply Hkeep2, Hnew1, Hk | eapply Hnew2; eassumption].
Qed.

Lemma pick_record_keys sym rt items : forall (out : gmap string price_record) tr out' tr',
  pick_record sym items out rt tr = (Ok out', tr') ->
  forall k, is_Some (out' !! k) -> is_Some (out !! k) \/ k = sym.
Proof.
  induction items as [|item items IH]; intros out tr out' tr'.
  - intros [= <- _]. now left.
  - cbn [pick_record]. unfold mbind at 1, M_bind at 1.
    match goal with |- context [try_except ?b ?h rt tr] =>
      destruct (try_except b h rt tr) as [[[r|]|e] tr1] end.
    + intros [= <- _] k Hk. destruct (decide (sym = k)) as [->|Hne]; [now right|].
      rewrite lookup_insert_ne in Hk by assumption. now left.
    + apply IH.
    + discriminate.
Qed.

(** The per-symbol fallback only stores requested symbols. *)
Lemma per_symbol_keys endpoint timeout rt syms :
  forall (out : gmap string price_record) tr out' tr',
  per_symbol endpoint timeout syms out rt tr = (Ok out', tr') ->
  forall k, is_Some (out' !! k) -> is_Some (out !! k) \/ In k syms.
Proof.
  induction syms as [|sym syms IH]; intros out tr out' tr'.
  - intros [= <- _]. now left.
  - cbn [per_symbol]. unfold do_uuid4_hex, mbind at 1, M_bind at 1.
    unfold mbind at 1, M_bind at 1.
    destruct (_http_get_json _ _ _ rt tr) as [[[status data]|e] tr1]; [|discriminate].
    unfold mbind at 1, M_bind at 1.
    match goal with |- context [(if ?c then ?a else ?b) rt tr1] =>
      destruct ((if c then a else b) rt tr1) as [[out1|e] tr2] eqn:Hstep end; [|discriminate].
    intros Hrest k Hk. apply (IH _ _ _ _ Hrest) in Hk as [Hk|Hk]; [|right; now right].
    destruct (negb (status =? 200)).
    { injection Hstep as <- _. now left. }
    unfold mbind at 1, M_bind at 1 in Hstep.
    match type of Hstep with context [try_except ?b ?h rt tr1] =>
      destruct (try_except b h rt tr1) as [[[normalized|]|e] tr3] end.
    + apply (pick_record_keys _ _ _ _ _ _ _ Hstep) in Hk as [Hk| ->]; [now left|right; now left].
    + injection Hstep as <- _. now left.
    + discriminate.
Qed.

Lemma try_endpoint_wanted endpoint symbols timeout :
  wanted_of symbols <> [] ->
  _try_redstone_endpoint endpoint symbols timeout =
  (out ← batch_query endpoint (wanted_of symbols) timeout;
   if negb (is_empty out) then mret out
   else
     out ← per_symbol endpoint timeout (wanted_of symbols) ∅;
     if negb (is_empty out) then mret out
     else raise (NoUsableDataFrom endpoint)).
Proof. unfold _try_redstone_endpoint. now destruct (wanted_of symbols). Qed.

(** C10. The batch path does not filter by the requested symbols.  When the
    batch request is answered with status 200 and a payload that normalizes
    to [items], one of them with a symbol and a numeric value, the endpoint
    call returns, after that one request, a mapping holding an entry for
    every item with a symbol and a numeric value, under its upper-cased
    symbol, requested or not.  The per-symbol fallback, in contrast, only
    stores requested symbols. *)
Theorem batch_result_is_not_filtered rt tr endpoint symbols timeout resp items :
  wanted_of symbols <> [] ->
  requests_get rt tr endpoint
    [("symbols", Str.join "," (wanted_of symbols)); ("_", uuid4_hex rt tr)] timeout = Ok resp ->
  status_code resp = 200 ->
  normalize_with (json_loads rt) (response_data resp) = Ok items ->
  (exists item key, In item items /\ record_key rt item = Some key) ->
  (exists out : gmap string price_record,
     _try_redstone_endpoint endpoint symbols timeout rt tr
     = (Ok out, (tr ++ [batch_request rt tr endpoint symbols timeout])%list)
     /\ forall item key, In item items -> record_key rt item = Some key -> is_Some (out !! key))
  /\
  (forall tr0 (out1 : gmap string price_record) tr1,
     per_symbol endpoint timeout (wanted_of symbols) ∅ rt tr0 = (Ok out1, tr1) ->
     forall k, is_Some (out1 !! k) -> In k (wanted_of symbols)).
Proof.
  intros Hwanted Hget Hstatus Hnorm (item0 & key0 & Hin0 & Hkey0). split.
  - rewrite (try_endpoint_wanted _ _ _ Hwanted).
    destruct (batch_records_keys rt items ∅ (tr ++ [batch_request rt tr endpoint symbols timeout])%list)
      as (out & Hout & _ & Hkeys).
    assert (Hbatch : batch_query endpoint (wanted_of symbols) timeout rt tr
                     = (Ok out, (tr ++ [batch_request rt tr endpoint symbols timeout])%list)).
    { unfold batch_query, do_uuid4_hex, mbind at 1, M_bind at 1.
      unfold _http_get_json, do_requests_get, mbind at 1, M_bind at 1, mbind at 1, M_bind at 1.
      rewrite Hget. cbn [mret M_ret]. rewrite Hstatus. cbn [Z.eqb Pos.eqb].
      unfold try_except, _normalize_rs_payload, mbind, M_bind. rewrite Hnorm.
      unfold batch_request in *. now rewrite Hout. }
    rewrite (bind_ok _ _ _ _ _ _ Hbatch).
    exists out. split; [|exact Hkeys].
    assert (Hne : is_empty out = false).
    { unfold is_empty. apply bool_decide_eq_false. intros ->.
      destruct (Hkeys item0 key0 Hin0 Hkey0) as [x Hx]. now rewrite lookup_empty in Hx. }
    now rewrite Hne.
  - intros tr0 out1 tr1 Hper k Hk.
    apply (per_symbol_keys _ _ _ _ _ _ _ _ Hper) in Hk as [[x Hx]|Hk]; [|assumption].
    now rewrite lookup_empty in Hx.
Qed.

Lemma batch_result_is_not_filtered_example :
  exists out : gmap string price_record,
    _try_redstone_endpoint "https://api.redstone.finance/prices" [" btc "] 4%float
                           prices_runtime []
    = (Ok out, [batch_request prices_runtime [] "https://api.redstone.finance/prices"
                              [" btc "] 4%float])
    /\ out !! "BTC" = Some (mkPrice 65000%float (PInt 123) "redstone")
    /\ out !! "ETH" = Some (mkPrice 3000.5%float PNone "x")
    /\ out !! "SOL" = None.
Proof.
  destruct (proj1 (batch_result_is_not_filtered prices_runtime []
                     "https://api.redstone.finance/prices" [" btc "] 4%float
                     (mkResponse 200 (Ok sample_prices) "")
                     [PDict [("symbol", PStr "BTC"); ("value", PInt 65000); ("timestamp", PInt 123)];
                      PDict [("symbol", PStr "eth"); ("value", PStr "3000.5"); ("provider", PStr "x")];
                      PDict [("symbol", PStr "SOL")]]
                     ltac:(discriminate) eq_refl eq_refl eq_refl
                     (ex_intro _ _ (ex_intro _ "BTC" (conj (or_introl eq_refl) eq_refl)))))
    as (out & Hout & _).
  exists out. split; [exact Hout|].
  vm_compute in Hout. injection Hout as <-. vm_compute. repeat split.
Defined.

(** *** Only the retry loop sleeps *)

Create HintDb no_sleep.

Lemma sleeps_app (tr1 tr2 : trace) :
  sleeps (tr1 ++ tr2)%list = (sleeps tr1 ++ sleeps tr2)%list.
Proof. unfold sleeps. now rewrite flat_map_app. Qed.

Section NoSleep.

Context {A B : Type}.

Lemma no_sleep_ret (a : A) : no_sleep (mret a).
Proof. now intros rt tr. Qed.

Lemma no_sleep_lift (r : result A) : no_sleep (lift r).
Proof. now intros rt tr. Qed.

Lemma no_sleep_raise (e : exn) : no_sleep (raise e : M A).
Proof. now intros rt tr. Qed.

Lemma no_sleep_bind (m : M A) (f : A -> M B) :
  no_sleep m -> (forall a, no_sleep (f a)) -> no_sleep (m ≫= f).
Proof.
  intros Hm Hf rt tr. unfold mbind, M_bind. specialize (Hm rt tr).
  destruct (m rt tr) as [[a|e] tr1]; cbn in *; [|assumption].
  now rewrite Hf.
Qed.

Lemma no_sleep_try (m : M A) (h : exn -> M A) :
  no_sleep m -> (forall e, no_sleep (h e)) -> no_sleep (try_except m h).
Proof.
  intros Hm Hh rt tr. unfold try_except. specialize (Hm rt tr).
  destruct (m rt tr) as [[a|e] tr1]; cbn in *; [assumption|].
  now rewrite Hh.
Qed.

Lemma no_sleep_if (c : bool) (m1 m2 : M A) :
  no_sleep m1 -> no_sleep m2 -> no_sleep (if c then m1 else m2).
Proof. now destruct c. Qed.

End NoSleep.

#[local] Hint Resolve no_sleep_ret no_sleep_lift no_sleep_raise no_sleep_if : no_sleep.

Lemma no_sleep_requests_get url params timeout : no_sleep (do_requests_get url params timeout).
Proof. intros rt tr. cbn. rewrite sleeps_app. cbn. apply app_nil_r. Qed.

Lemma no_sleep_uuid4 : no_sleep do_uuid4_hex.
Proof. now intros rt tr. Qed.

Lemma no_sleep_str v : no_sleep (py_str v).
Proof. now intros rt tr. Qed.

Lemma no_sleep_normalize data : no_sleep (_normalize_rs_payload data).
Proof. now intros rt tr. Qed.

#[local] Hint Resolve no_sleep_requests_get no_sleep_uuid4 no_sleep_str no_sleep_normalize
  : no_sleep.

Ltac no_sleep_step :=
  first [ apply no_sleep_bind; [|intros ?]
        | apply no_sleep_try; [|intros ?]
        | solve [auto with no_sleep]
        | match goal with
          | |- no_sleep (match ?x with _ => _ end) => destruct x
          | |- no_sleep (let '(_, _) := ?x in _) => destruct x
          end ].

Lemma no_sleep_http_get_json url params timeout : no_sleep (_http_get_json url params timeout).
Proof. unfold _http_get_json. repeat no_sleep_step. Qed.

Lemma no_sleep_read_record item : no_sleep (read_record item).
Proof. unfold read_record. repeat no_sleep_step. Qed.

#[local] Hint Resolve no_sleep_http_get_json no_sleep_read_record : no_sleep.

Lemma no_sleep_batch_records items : forall out, no_sleep (batch_records items out).
Proof.
  induction items as [|item items IH]; intros out; cbn [batch_records]; repeat no_sleep_step.
Qed.

Lemma no_sleep_pick_record sym items : forall out, no_sleep (pick_record sym items out).
Proof.
  induction items as [|item items IH]; intros out; cbn [pick_record]; repeat no_sleep_step.
Qed.

#[local] Hint Resolve no_sleep_batch_records no_sleep_pick_record : no_sleep.

Lemma no_sleep_per_symbol endpoint timeout syms :
  forall out, no_sleep (per_symbol endpoint timeout syms out).
Proof.
  induction syms as [|sym syms IH]; intros out; cbn [per_symbol]; repeat no_sleep_step.
Qed.

Lemma no_sleep_batch_query endpoint wanted timeout :
  no_sleep (batch_query endpoint wanted timeout).
Proof. unfold batch_query. repeat no_sleep_step. Qed.

#[local] Hint Resolve no_sleep_per_symbol no_sleep_batch_query : no_sleep.

Lemma no_sleep_try_endpoint endpoint symbols timeout :
  no_sleep (_try_redstone_endpoint endpoint symbols timeout).
Proof. unfold _try_redstone_endpoint. repeat no_sleep_step. Qed.

#[local] Hint Resolve no_sleep_try_endpoint : no_sleep.


(** *** The retry loop *)

Lemma float_pow2_finite :
  forallb (fun n => negb (is_infinity (float_pow2 (Z.of_nat n)))) (seq 0 1024) = true.
Proof. vm_compute. reflexivity. Qed.

Lemma float_of_Z_pow2 k :
  0 <= k < 1024 -> Num.float_of_Z (2 ^ k) = Ok (float_pow2 k).
Proof.
  intros Hk. unfold Num.float_of_Z, float_pow2.
  assert (Hpos : 0 < 2 ^ k) by (apply Z.pow_pos_nonneg; lia).
  replace (2 ^ k <? 0) with false by (symmetry; apply Z.ltb_ge; lia).
  rewrite Z.abs_eq by lia.
  pose proof (proj1 (forallb_forall _ _) float_pow2_finite (Z.to_nat k)) as H.
  cbv beta in H. rewrite Z2Nat.id in H by lia. unfold float_pow2 in H.
  rewrite (proj1 (negb_true_iff _) (H ltac:(apply in_seq; lia))). reflexivity.
Qed.

Lemma backoff_delay_pow2 retry_base_delay k :
  0 <= k < 1024 ->
  backoff_delay retry_base_delay (k + 1) = Ok (retry_base_delay * float_pow2 k)%float.
Proof.
  intros Hk. unfold backoff_delay. replace (k + 1 - 1) with k by lia.
  now rewrite (float_of_Z_pow2 k Hk).
Qed.

(** A scan of the endpoints never raises: each call runs under [try]. *)
Lemma scan_endpoints_never_raises eps symbols timeout rt : forall last_err tr,
  exists r tr', scan_endpoints eps symbols timeout last_err rt tr = (Ok r, tr').
Proof.
  induction eps as [|ep eps IH]; intros last_err tr.
  - now eexists _, _.
  - cbn [scan_endpoints]. unfold mbind at 1, M_bind at 1, try_except.
    unfold mbind at 1, M_bind at 1.
    destruct (_try_redstone_endpoint ep symbols timeout rt tr) as [[out|e] tr1]; cbn.
    + destruct (negb (is_empty out)); [now eexists _, _ | apply IH].
    + apply IH.
Qed.

Section AllEndpointsFail.

Variables (rt : Runtime) (eps symbols : list string) (timeout : float).

Hypothesis no_data : forall ep tr0 (out : gmap string price_record) tr1,
  In ep eps -> _try_redstone_endpoint ep symbols timeout rt tr0 = (Ok out, tr1) -> out = ∅.


Variables (retries : Z) (retry_base_delay : float).

(** [time.sleep] accepts the delays of the schedule. *)
Hypothesis sleep_ok : forall tr0 k,
  0 <= k < retries -> time_sleep rt tr0 (retry_base_delay * float_pow2 k)%float = Ok tt.


End AllEndpointsFail.

Lemma endpoints_or_default_nonempty endpoints : endpoints_or_default endpoints <> [].
Proof. now destruct endpoints as [[|ep eps]|]. Qed.



(** The same run, computed: four attempts on each of the three default
    endpoints (twelve requests), the four delays 0.5, 1, 2 and 4, and the
    last error is the one the last endpoint raised. *)
Lemma fetch_exhausts_retries_run :
  fst (fetch_redstone_prices ["BTC"; "USDC"] None 4%float 4 0.5%float Sample.offline [])
  = Err (FailedAfterAttempts 4 (Some (ExternalError "connection refused")))
  /\ sleeps (snd (fetch_redstone_prices ["BTC"; "USDC"] None 4%float 4 0.5%float
                                        Sample.offline []))
     = [0.5; 1; 2; 4]%float
  /\ length (snd (fetch_redstone_prices ["BTC"; "USDC"] None 4%float 4 0.5%float
                                        Sample.offline [])) = 16%nat.
Proof. repeat split; vm_compute; reflexivity. Qed.


(** The loop has enough fuel: [fetch_redstone_prices] always returns a
    mapping or raises. *)
Lemma fetch_loop_fuel eps symbols timeout retries retry_base_delay rt :
  forall n attempt last_err tr,
  retries - attempt <= Z.of_nat n ->
  fst (fetch_loop n eps symbols timeout retries retry_base_delay attempt last_err rt tr)
  <> Ok None.
Proof.
  induction n as [|n IH]; intros attempt last_err tr Hn; cbn [fetch_loop].
  - replace (attempt <? retries) with false by (symmetry; apply Z.ltb_ge; lia). easy.
  - destruct (attempt <? retries) eqn:Hlt; [|easy]. apply Z.ltb_lt in Hlt.
    unfold mbind at 1, M_bind at 1.
    destruct (scan_endpoints eps symbols timeout last_err rt tr) as [[[[r|] l]|e] tr1];
      [easy| |easy].
    rewrite bind_lift. destruct (backoff_delay retry_base_delay (attempt + 1)); [|easy].
    unfold do_sleep, mbind at 1, M_bind at 1. destruct (time_sleep rt tr1 a); [|easy].
    apply IH. lia.
Qed.

Lemma fetch_redstone_prices_returns symbols endpoints timeout_secs retries retry_base_delay rt tr :
  fst (fetch_redstone_prices symbols endpoints timeout_secs retries retry_base_delay rt tr)
  <> Ok None.
Proof. apply fetch_loop_fuel. lia. Qed.

(** ** Runs of the model on the spec's examples *)

(** [float] and [int] on a few literals. *)
Lemma float_of_string_runs :
  Num.float_of_string " 65000 " = Some 65000%float
  /\ Num.float_of_string "-2.5e-1" = Some (-0.25)%float
  /\ Num.float_of_string "1_000.5" = Some 1000.5%float
  /\ Num.float_of_string "Infinity" = Some infinity
  /\ Num.float_of_string "1e400" = Some infinity
  /\ Num.float_of_string "0x10" = None
  /\ Num.float_of_string "n/a" = None
  /\ Num.float_of_string "" = None
  /\ Num.int_of_string " -12 " = Some (-12)
  /\ Num.float_of_Z (2 ^ 1024) = Err (Builtin OverflowError).
Proof. repeat split; vm_compute; reflexivity. Qed.

(** [float] and [int] skip C whitespace only: the separator 0x1C, which
    [str.strip] removes, makes both raise, while a vertical tab is skipped. *)
Lemma number_literals_skip_c_whitespace_only :
  Num.float_of_string (String (ascii_of_nat 28) "1.5") = None
  /\ Num.float_of_string ("1.5" ++ String (ascii_of_nat 31) "") = None
  /\ Num.int_of_string (String (ascii_of_nat 28) "7") = None
  /\ Num.float_of_string (String (ascii_of_nat 11) "1.5") = Some 1.5%float
  /\ Num.int_of_string (String (ascii_of_nat 9) "7" ++ String (ascii_of_nat 13) "") = Some 7
  /\ Str.strip (String (ascii_of_nat 28) "BTC") = "BTC".
Proof. repeat split; vm_compute; reflexivity. Qed.

(** USDT0 has no pair, USDHL trades around 1.0002: the factor is that mid. *)
Lemma resolve_second_quote_run :
  fst (resolve_stable_usd_factor
         (Sample.venue [Sample.pair_entry 1 3 9]
                       (Sample.book [Sample.level "1.0001"] [Sample.level "1.0003"]))
         "FEUSD" (StrList ["USDT0"; "USDHL"]) (Some ∅) "USDC" Sample.offline [])
  = Py.float_ (PStr "1.0002").
Proof. vm_compute. reflexivity. Qed.

(** One endpoint answers with a mapping keyed by symbol. *)
Lemma fetch_mapping_run :
  fst (fetch_redstone_prices ["BTC"] None 4%float 4 0.5%float
         (Sample.runtime (fun _ => Sample.json_reply btc_mapping)) [])
  = Ok (Some {[ "BTC" := mkPrice 65000%float (PInt 123) "x" ]}).
Proof. vm_compute. reflexivity. Qed.

(** The batch request fails, the per-symbol requests succeed for two of the
    three symbols: the result holds exactly those two. *)
Lemma per_symbol_fallback_run :
  fst (_try_redstone_endpoint "https://api.redstone.finance/prices" ["btc"; "eth"; "sol"]
         4%float per_symbol_runtime [])
  = Ok {[ "BTC" := mkPrice 65000%float PNone "redstone";
          "ETH" := mkPrice 3000%float PNone "redstone" ]}
  /\ length (snd (_try_redstone_endpoint "https://api.redstone.finance/prices"
                    ["btc"; "eth"; "sol"] 4%float per_symbol_runtime [])) = 4%nat.
Proof. split; vm_compute; reflexivity. Qed.

(** * Further properties *)

(** ** The token and pair catalogs (hl_spot_prices.py) *)

Lemma build_names_lookup s ts : forall (out names : gmap string pyval),
  build_names ts out = Ok names ->
  names !! s = named_index s ts (out !! s).
Proof.
  induction ts as [|t ts IH]; intros out names.
  - now intros [= <-].
  - cbn [build_names named_index].
    destruct (Py.get t "name" PNone) as [name|e]; [|discriminate].
    destruct (Py.get t "index" PNone) as [idx|e]; [|discriminate].
    cbn [mbind result_bind].
    destruct (negb (Py.is_none name) && negb (Py.is_none idx)) eqn:Hset.
    + apply andb_prop in Hset as [Hname Hidx].
      destruct name as [| | | |n| |]; cbn [set_name]; try discriminate;
        try (intros H; apply IH in H; exact H).
      intros H%IH. rewrite H. rewrite Hidx, andb_true_r.
      destruct (String.eqb n s) eqn:E.
      * apply String.eqb_eq in E as ->. now rewrite lookup_insert_eq.
      * apply String.eqb_neq in E. now rewrite lookup_insert_ne.
    + intros H%IH. rewrite H. destruct name; try reflexivity.
      cbn in Hset. rewrite Hset. now rewrite andb_false_r.
Qed.

(** X1. The token catalog maps a name to the index of the last token entry
    that carries this name together with an index other than [None]: later
    entries replace earlier ones, and entries without a name or without an
    index are ignored. *)
Theorem token_catalog_keeps_last_index sm tokens ts (names : gmap string pyval) s :
  Py.get sm "tokens" (PList []) = Ok tokens ->
  Py.iter tokens = Ok ts ->
  _build_name_to_token_index sm = Ok names ->
  names !! s = named_index s ts None.
Proof.
  intros Ht Hi. unfold _build_name_to_token_index. rewrite Ht. cbn. rewrite Hi. cbn.
  intros H. now rewrite (build_names_lookup s ts ∅ names H), lookup_empty.
Qed.

Lemma token_catalog_keeps_last_index_example :
  ({[ "USDC" := PInt 0; "FEUSD" := PInt 5 ]} : gmap string pyval) !! "FEUSD"
  = named_index "FEUSD"
      [Sample.token "USDC" 0; Sample.token "FEUSD" 1; PDict [("name", PStr "FEUSD")];
       Sample.token "FEUSD" 5; PDict [("index", PInt 9)]] None.
Proof.
  apply (token_catalog_keeps_last_index
           (PDict [("tokens",
                    PList [Sample.token "USDC" 0; Sample.token "FEUSD" 1;
                           PDict [("name", PStr "FEUSD")];
                           Sample.token "FEUSD" 5; PDict [("index", PInt 9)]])])
           (PList [Sample.token "USDC" 0; Sample.token "FEUSD" 1;
                   PDict [("name", PStr "FEUSD")];
                   Sample.token "FEUSD" 5; PDict [("index", PInt 9)]])).
  - reflexivity.
  - reflexivity.
  - vm_compute. reflexivity.
Defined.

(** X2. A token is unknown when no entry of the token list carries its name
    with an index.  With [base] or [quote] unknown, [get_spot_mid] fails with
    the token-not-in-spot-meta error right after the metadata query; the pair
    catalog is not read and no book is requested. *)
Theorem unknown_token_is_reported info base quote rt tr sm tokens ts
    (names : gmap string pyval) :
  spot_meta info tr = Ok sm ->
  Py.get sm "tokens" (PList []) = Ok tokens ->
  Py.iter tokens = Ok ts ->
  _build_name_to_token_index sm = Ok names ->
  named_index base ts None = None \/ named_index quote ts None = None ->
  get_spot_mid info base quote rt tr
  = (Err (TokenNotInSpotMeta base quote), (tr ++ [EvSpotMeta])%list).
Proof.
  intros Hsm Ht Hi Hnames Hunknown.
  pose proof (build_names_lookup base ts ∅ names) as Hb.
  pose proof (build_names_lookup quote ts ∅ names) as Hq.
  unfold _build_name_to_token_index in Hnames. rewrite Ht in Hnames. cbn in Hnames.
  rewrite Hi in Hnames. cbn in Hnames.
  specialize (Hb Hnames). specialize (Hq Hnames). rewrite lookup_empty in Hb, Hq.
  unfold get_spot_mid. apply bind_err.
  unfold find_spot_pair_index, info_spot_meta, mbind at 1, M_bind at 1.
  rewrite Hsm, bind_lift.
  unfold _build_name_to_token_index. rewrite Ht. cbn. rewrite Hi. cbn. rewrite Hnames.
  rewrite Hb, Hq. destruct Hunknown as [-> | ->]; [reflexivity|].
  now destruct (named_index base ts None).
Qed.

Lemma unknown_token_is_reported_example :
  get_spot_mid (Sample.venue [Sample.pair_entry 1 2 7] sample_book) "FEUSD" "usdt0"
               Sample.offline []
  = (Err (TokenNotInSpotMeta "FEUSD" "usdt0"), [EvSpotMeta]).
Proof.
  apply (unknown_token_is_reported
           (Sample.venue [Sample.pair_entry 1 2 7] sample_book) "FEUSD" "usdt0"
           Sample.offline [] (Sample.catalog [Sample.pair_entry 1 2 7])
           (PList [Sample.token "USDC" 0; Sample.token "FEUSD" 1;
                   Sample.token "USDT0" 2; Sample.token "USDHL" 3])
           [Sample.token "USDC" 0; Sample.token "FEUSD" 1;
            Sample.token "USDT0" 2; Sample.token "USDHL" 3]
           {[ "USDC" := PInt 0; "FEUSD" := PInt 1; "USDT0" := PInt 2; "USDHL" := PInt 3 ]}).
  - reflexivity.
  - reflexivity.
  - reflexivity.
  - vm_compute. reflexivity.
  - right. reflexivity.
Defined.

(** The search of the pair catalog stops at the first entry for the pair. *)
Lemma find_pair_first base quote base_idx quote_idx pre u post :
  forallb is_object pre = true ->
  existsb (entry_for base_idx quote_idx) pre = false ->
  entry_for base_idx quote_idx u = true ->
  find_pair base quote base_idx quote_idx (pre ++ u :: post)
  = (pair_index ← Py.get u "index" PNone;
     if Py.is_none pair_index then Err (SpotPairNotFound base quote)
     else Py.int_ pair_index).
Proof.
  induction pre as [|p pre IH]; cbn [app forallb existsb].
  - intros _ _ Hu. unfold entry_for in Hu. cbn [find_pair].
    destruct (Py.get u "baseTokenIndex" PNone) as [b|]; [|discriminate].
    destruct (Py.get u "quoteTokenIndex" PNone) as [q|]; [|discriminate].
    apply andb_prop in Hu as [Hb Hq]. cbn. rewrite Hb. cbn. now rewrite Hq.
  - intros [Hp Hpre]%andb_prop [Hn Hns]%orb_false_elim Hu.
    destruct p as [| | | | | |kvs]; try discriminate.
    unfold entry_for in Hn. cbn in Hn. cbn [find_pair]. cbn.
    destruct (Py.eq _ base_idx); cbn in *; [rewrite Hn|]; cbn; now apply IH.
Qed.

Lemma find_spot_pair_index_unfold info base quote rt tr sm (names : gmap string pyval)
    base_idx quote_idx universe :
  spot_meta info tr = Ok sm ->
  _build_name_to_token_index sm = Ok names ->
  names !! base = Some base_idx ->
  names !! quote = Some quote_idx ->
  Py.get sm "universe" (PList []) = Ok (PList universe) ->
  find_spot_pair_index info base quote rt tr
  = (find_pair base quote base_idx quote_idx universe, (tr ++ [EvSpotMeta])%list).
Proof.
  intros Hsm Hnames Hb Hq Hu.
  unfold find_spot_pair_index, info_spot_meta, mbind at 1, M_bind at 1.
  rewrite Hsm, bind_lift, Hnames, Hb, Hq. unfold lift. now rewrite Hu.
Qed.

(** Whatever the book holds, a found pair costs one book request. *)
Lemma get_spot_mid_found_trace info base quote rt tr idx tr1 :
  find_spot_pair_index info base quote rt tr = (Ok idx, tr1) ->
  snd (get_spot_mid info base quote rt tr)
  = (tr1 ++ [EvPost "/info" (l2book_request (SPOT_ASSET_OFFSET + idx))])%list.
Proof.
  intros Hfind. unfold get_spot_mid. rewrite (bind_ok _ _ _ _ _ _ Hfind).
  unfold info_post, mbind at 1, M_bind at 1.
  destruct (post info tr1 "/info" _) as [ob|e]; [|reflexivity].
  rewrite bind_lift. destruct (book_side ob "levels" "bids") as [bids|e]; [|reflexivity].
  rewrite bind_lift. destruct (book_side ob "levels_ask" "asks") as [asks|e]; [|reflexivity].
  destruct (negb (Py.truthy bids) || negb (Py.truthy asks)); [reflexivity|].
  rewrite bind_lift. destruct (best_px bids); [|reflexivity].
  rewrite bind_lift. destruct (best_px asks); [|reflexivity].
  unfold lift. reflexivity.
Qed.



(** X4. An entry for the pair that has no index ends the search: the loop
    breaks and [get_spot_mid] fails with the pair-not-found error after the
    metadata query, also when a later entry for the same pair has an index. *)
Theorem pair_entry_without_index_ends_search info base quote rt tr sm
    (names : gmap string pyval) base_idx quote_idx pre u post :
  spot_meta info tr = Ok sm ->
  _build_name_to_token_index sm = Ok names ->
  names !! base = Some base_idx ->
  names !! quote = Some quote_idx ->
  Py.get sm "universe" (PList []) = Ok (PList (pre ++ u :: post)) ->
  forallb is_object pre = true ->
  existsb (entry_for base_idx quote_idx) pre = false ->
  entry_for base_idx quote_idx u = true ->
  Py.get u "index" PNone = Ok PNone ->
  get_spot_mid info base quote rt tr
  = (Err (SpotPairNotFound base quote), (tr ++ [EvSpotMeta])%list).
Proof.
  intros Hsm Hnames Hb Hq Hu Hpre Hnone Hentry Hidx.
  unfold get_spot_mid. apply bind_err.
  rewrite (find_spot_pair_index_unfold _ _ _ _ _ _ _ _ _ _ Hsm Hnames Hb Hq Hu).
  now rewrite (find_pair_first _ _ _ _ _ _ _ Hpre Hnone Hentry), Hidx.
Qed.

Lemma pair_entry_without_index_ends_search_example :
  get_spot_mid
    (Sample.venue [PDict [("baseTokenIndex", PInt 1); ("quoteTokenIndex", PInt 2)];
                   Sample.pair_entry 1 2 7] sample_book)
    "FEUSD" "USDT0" Sample.offline []
  = (Err (SpotPairNotFound "FEUSD" "USDT0"), [EvSpotMeta]).
Proof.
  apply (pair_entry_without_index_ends_search
           (Sample.venue [PDict [("baseTokenIndex", PInt 1); ("quoteTokenIndex", PInt 2)];
                          Sample.pair_entry 1 2 7] sample_book)
           "FEUSD" "USDT0" Sample.offline []
           (Sample.catalog [PDict [("baseTokenIndex", PInt 1); ("quoteTokenIndex", PInt 2)];
                            Sample.pair_entry 1 2 7])
           {[ "USDC" := PInt 0; "FEUSD" := PInt 1; "USDT0" := PInt 2; "USDHL" := PInt 3 ]}
           (PInt 1) (PInt 2) []
           (PDict [("baseTokenIndex", PInt 1); ("quoteTokenIndex", PInt 2)])
           [Sample.pair_entry 1 2 7]);
    vm_compute; reflexivity.
Defined.

(** ** Trying the quotes in order (hl_spot_prices.py, stable_fx.py) *)

(** [get_spot_mid] only talks to the venue. *)
Lemma get_spot_mid_events info base quote rt tr r tr' :
  get_spot_mid info base quote rt tr = (r, tr') ->
  exists evs, tr' = (tr ++ evs)%list /\ forallb venue_event evs = true.
Proof.
  intros H.
  destruct (find_spot_pair_index info base quote rt tr) as [[idx|e] tr1] eqn:Hfind.
  - pose proof (get_spot_mid_found_trace _ _ _ _ _ _ _ Hfind) as Htr.
    rewrite H in Htr. cbn in Htr. apply find_spot_pair_index_trace in Hfind as ->.
    eexists. rewrite Htr, <- app_assoc. split; reflexivity.
  - unfold get_spot_mid in H. rewrite (bind_err _ _ _ _ _ _ Hfind) in H.
    injection H as _ <-. apply find_spot_pair_index_trace in Hfind as ->.
    now exists [EvSpotMeta].
Qed.

Lemma spot_tier_events info symbol qs : forall rt tr r tr',
  spot_tier info symbol qs rt tr = (r, tr') ->
  exists evs, tr' = (tr ++ evs)%list /\ forallb venue_event evs = true.
Proof.
  induction qs as [|q qs IH]; intros rt tr r tr'.
  - intros [= _ <-]. exists []. now rewrite app_nil_r.
  - destruct (get_spot_mid info symbol q rt tr) as [[v|e] tr1] eqn:Hq.
    + rewrite (spot_tier_first _ _ _ _ _ _ _ _ Hq). intros [= _ <-].
      eapply get_spot_mid_events, Hq.
    + rewrite (spot_tier_next _ _ _ _ _ _ _ _ Hq). intros H.
      apply IH in H as (evs2 & -> & H2).
      apply get_spot_mid_events in Hq as (evs1 & -> & H1).
      exists (evs1 ++ evs2)%list. rewrite <- app_assoc. split; [reflexivity|].
      rewrite forallb_app. now rewrite H1, H2.
Qed.

(** The loop of [get_spot_mid_any] is the spot tier of the orchestrator. *)
Lemma spot_mid_any_loop_tier info base qs : forall last_err rt tr,
  exists last_err',
    spot_mid_any_loop info base qs last_err rt tr
    = (let '(r, tr') := spot_tier info base qs rt tr in
       match r with
       | Ok a => (Ok (a, last_err'), tr')
       | Err e => (Err e, tr')
       end).
Proof.
  induction qs as [|q qs IH]; intros last_err rt tr.
  - now exists last_err.
  - cbn [spot_mid_any_loop spot_tier]. unfold try_except, mbind, M_bind.
    destruct (get_spot_mid info base q rt tr) as [[v|e] tr1]; cbn.
    + now exists last_err.
    + apply IH.
Qed.

Lemma get_spot_mid_any_returns info base qs rt tr v tr' :
  get_spot_mid_any info base qs rt tr = (Returns v, tr') <->
  spot_tier info base qs rt tr = (Ok (Some v), tr').
Proof.
  unfold get_spot_mid_any.
  destruct (spot_mid_any_loop_tier info base qs None rt tr) as [l ->].
  destruct (spot_tier_total info base qs rt tr) as ([w|] & tr1 & ->); cbn; split;
    intros [= ]; subst; reflexivity.
Qed.

Lemma get_spot_mid_any_raises info base qs rt tr err tr' :
  get_spot_mid_any info base qs rt tr = (Raises err, tr') ->
  spot_tier info base qs rt tr = (Ok None, tr')
  /\ exists last_err, err = NoSpotMidAvailable base qs last_err.
Proof.
  unfold get_spot_mid_any.
  destruct (spot_mid_any_loop_tier info base qs None rt tr) as [l ->].
  destruct (spot_tier_total info base qs rt tr) as ([w|] & tr1 & ->); cbn;
    intros [= ]; subst. split; [reflexivity|]. now exists l.
Qed.

(** X5. The orchestrator's first tier does what [get_spot_mid_any] does on
    the same quotes (stable_fx.py writes the loop out again).  When
    [get_spot_mid_any] returns a mid, the orchestrator returns that mid after
    the same events.  When it raises, what it raises is its
    no-available-spot-mid error, and the orchestrator goes on from the same
    events with the DEX tier and then the peg. *)
Theorem orchestrator_starts_with_get_spot_mid_any
    info symbol preferred_quotes evm_addresses evm_usd_reference rt tr :
  (forall v tr',
     get_spot_mid_any info symbol (seq_iter preferred_quotes) rt tr = (Returns v, tr') ->
     resolve_stable_usd_factor info symbol preferred_quotes evm_addresses
                               evm_usd_reference rt tr = (Ok v, tr'))
  /\
  (forall err tr',
     get_spot_mid_any info symbol (seq_iter preferred_quotes) rt tr = (Raises err, tr') ->
     (exists last_err,
        err = NoSpotMidAvailable symbol (seq_iter preferred_quotes) last_err)
     /\ resolve_stable_usd_factor info symbol preferred_quotes evm_addresses
                                  evm_usd_reference rt tr
        = (b ← dex_tier evm_addresses symbol evm_usd_reference;
           match b with
           | Some v => mret v
           | None => mret 1%float
           end) rt tr').
Proof.
  split.
  - intros v tr' H%get_spot_mid_any_returns.
    unfold resolve_stable_usd_factor. now rewrite (bind_ok _ _ _ _ _ _ H).
  - intros err tr' [H Herr]%get_spot_mid_any_raises. split; [exact Herr|].
    unfold resolve_stable_usd_factor. now rewrite (bind_ok _ _ _ _ _ _ H).
Qed.

Lemma orchestrator_starts_with_get_spot_mid_any_example :
  resolve_stable_usd_factor (Sample.venue [Sample.pair_entry 1 3 9] sample_book)
                            "FEUSD" (StrList ["USDT0"; "USDHL"]) None "USDC"
                            Sample.offline []
  = (Ok 1.5%float, [EvSpotMeta; EvSpotMeta; EvPost "/info" (l2book_request 10009)]).
Proof.
  apply (proj1 (orchestrator_starts_with_get_spot_mid_any
                  (Sample.venue [Sample.pair_entry 1 3 9] sample_book)
                  "FEUSD" (StrList ["USDT0"; "USDHL"]) None "USDC" Sample.offline [])).
  vm_compute. reflexivity.
Defined.

(** Quotes that fail are passed over, whatever follows them. *)
Lemma spot_tier_skip info base pre rt : forall tr,
  (forall q tr0, In q pre -> is_ok (fst (get_spot_mid info base q rt tr0)) = false) ->
  exists tr1, forall rest,
    spot_tier info base (pre ++ rest) rt tr = spot_tier info base rest rt tr1.
Proof.
  induction pre as [|q pre IH]; intros tr Hfail.
  - now exists tr.
  - destruct (get_spot_mid info base q rt tr) as [[v|e] tr1] eqn:Hq.
    + specialize (Hfail q tr (or_introl eq_refl)). now rewrite Hq in Hfail.
    + destruct (IH tr1) as [tr2 H2]; [intros q' tr0 Hin; apply Hfail; now right|].
      exists tr2. intros rest. cbn [app].
      now rewrite (spot_tier_next _ _ _ _ _ _ _ _ Hq).
Qed.

(** X6. [get_spot_mid_any] returns the mid of the first quote that has one:
    when every quote before [quote] fails and [quote] yields [v], the call
    returns [v], and the quotes after it are never tried (the call does
    exactly what it does without them). *)
Theorem get_spot_mid_any_first_success info base pre quote post rt tr v :
  (forall q tr0, In q pre -> is_ok (fst (get_spot_mid info base q rt tr0)) = false) ->
  (forall tr0, fst (get_spot_mid info base quote rt tr0) = Ok v) ->
  exists tr',
    get_spot_mid_any info base (pre ++ quote :: post) rt tr = (Returns v, tr')
    /\ get_spot_mid_any info base (pre ++ [quote]) rt tr = (Returns v, tr').
Proof.
  intros Hpre Hq. destruct (spot_tier_skip info base pre rt tr Hpre) as [tr1 Hskip].
  specialize (Hq tr1).
  destruct (get_spot_mid info base quote rt tr1) as [r tr2] eqn:Hmid. cbn in Hq. subst r.
  exists tr2. split; apply get_spot_mid_any_returns; rewrite Hskip;
    now apply spot_tier_first.
Qed.

Lemma get_spot_mid_any_first_success_example :
  exists tr',
    get_spot_mid_any (Sample.venue [Sample.pair_entry 1 3 9] sample_book)
                     "FEUSD" (["USDT0"] ++ "USDHL" :: ["USDC"]) Sample.offline []
    = (Returns 1.5%float, tr')
    /\ get_spot_mid_any (Sample.venue [Sample.pair_entry 1 3 9] sample_book)
                        "FEUSD" (["USDT0"] ++ ["USDHL"]) Sample.offline []
       = (Returns 1.5%float, tr').
Proof.
  apply (get_spot_mid_any_first_success
           (Sample.venue [Sample.pair_entry 1 3 9] sample_book)
           "FEUSD" ["USDT0"] "USDHL" ["USDC"] Sample.offline [] 1.5%float).
  - intros q tr0 [<-|[]]. vm_compute. reflexivity.
  - intros tr0. vm_compute. reflexivity.
Defined.

Lemma spot_mid_any_loop_last info base qs : forall last_err rt tr last_err' tr',
  spot_mid_any_loop info base qs last_err rt tr = (Ok (None, last_err'), tr') ->
  (qs = [] -> last_err' = last_err /\ tr' = tr)
  /\ (forall pre q0, qs = (pre ++ [q0])%list ->
        exists tr0 e,
          get_spot_mid info base q0 rt tr0 = (Err e, tr') /\ last_err' = Some e).
Proof.
  induction qs as [|q qs IH]; intros last_err rt tr last_err' tr'.
  - intros [= <- <-]. split; [easy|]. intros pre q0 H. now destruct pre.
  - cbn [spot_mid_any_loop]. unfold try_except, mbind, M_bind.
    destruct (get_spot_mid info base q rt tr) as [[v|e] tr1] eqn:Hq; cbn; [discriminate|].
    intros H. split; [discriminate|]. intros pre q0 Hqs.
    destruct (IH _ _ _ _ _ H) as [Hnil Hlast]. destruct pre as [|p pre].
    + injection Hqs as <- ->. destruct (Hnil eq_refl) as [-> ->]. now exists tr, e.
    + injection Hqs as <- ->. now apply (Hlast pre q0).
Qed.

(** X7. [get_spot_mid_any] raises one error only, its own: the
    no-available-spot-mid error naming the base and the quotes.  With no
    quote at all it raises it at once, carrying no last error and after no
    query; otherwise the error it carries is the one the last quote failed
    with. *)
Theorem get_spot_mid_any_error info base qs rt tr err tr' :
  get_spot_mid_any info base qs rt tr = (Raises err, tr') ->
  exists last_err,
    err = NoSpotMidAvailable base qs last_err
    /\ (qs = [] -> last_err = None /\ tr' = tr)
    /\ (forall pre q0, qs = (pre ++ [q0])%list ->
          exists tr0 e,
            get_spot_mid info base q0 rt tr0 = (Err e, tr') /\ last_err = Some e).
Proof.
  unfold get_spot_mid_any.
  destruct (spot_mid_any_loop info base qs None rt tr) as [[[[v|] l]|e] tr1] eqn:Hloop.
  - discriminate.
  - intros [= <- <-]. exists l. split; [reflexivity|].
    now apply (spot_mid_any_loop_last _ _ _ _ _ _ _ _ Hloop).
  - destruct (spot_mid_any_loop_tier info base qs None rt tr) as [l' Hl].
    rewrite Hloop in Hl.
    destruct (spot_tier_total info base qs rt tr) as (w & tr2 & Ht). now rewrite Ht in Hl.
Qed.

Lemma get_spot_mid_any_error_example :
  exists last_err,
    NoSpotMidAvailable "FEUSD" ["USDT0"; "USDHL"]
                       (Some (SpotPairNotFound "FEUSD" "USDHL"))
    = NoSpotMidAvailable "FEUSD" ["USDT0"; "USDHL"] last_err
    /\ (["USDT0"; "USDHL"] = [] -> last_err = None /\ [EvSpotMeta; EvSpotMeta] = [])
    /\ (forall pre q0, ["USDT0"; "USDHL"] = (pre ++ [q0])%list ->
          exists tr0 e,
            get_spot_mid (Sample.venue [Sample.pair_entry 2 1 7] sample_book) "FEUSD" q0
                         Sample.offline tr0 = (Err e, [EvSpotMeta; EvSpotMeta])
            /\ last_err = Some e).
Proof.
  apply (get_spot_mid_any_error (Sample.venue [Sample.pair_entry 2 1 7] sample_book)
           "FEUSD" ["USDT0"; "USDHL"] Sample.offline []).
  vm_compute. reflexivity.
Defined.

(** ** The tiers of the orchestrator (stable_fx.py) *)

Lemma dex_tier_usdc_scales evm_addresses symbol evm_usd_reference usdc_usd_rate rt tr b tr' :
  dex_tier evm_addresses symbol evm_usd_reference rt tr = (Ok b, tr') ->
  dex_tier_usdc evm_addresses symbol evm_usd_reference usdc_usd_rate rt tr
  = (Ok (option_map (fun d => (d * usdc_usd_rate)%float) b), tr').
Proof.
  unfold dex_tier, dex_tier_usdc.
  destruct (dex_addresses evm_addresses symbol evm_usd_reference) as [[a0 b0]|].
  - unfold try_except, mbind, M_bind.
    destruct (get_pair_mid_from_dexscreener a0 b0 5 rt tr) as [[d|e] tr1]; cbn;
      now intros [= <- <-].
  - now intros [= <- <-].
Qed.

(** X8. The USDC variant never raises and makes the queries of
    [resolve_stable_usd_factor], with the same outcome of each tier.  A spot
    mid is returned by both as it is, and so is the peg 1.0: neither is
    multiplied by [usdc_usd_rate].  Only a DEX price [d] differs: the variant
    returns [d * usdc_usd_rate]. *)
Theorem usdc_variant_scales_only_the_dex_price
    info symbol usdc_usd_rate preferred_quotes evm_addresses evm_usd_reference rt tr :
  exists a tr1,
    spot_tier info symbol (seq_iter preferred_quotes) rt tr = (Ok a, tr1)
    /\ match a with
       | Some v =>
           resolve_stable_usd_factor info symbol preferred_quotes evm_addresses
                                     evm_usd_reference rt tr = (Ok v, tr1)
           /\ resolve_stable_usd_factor_with_usdc_reference
                info symbol usdc_usd_rate preferred_quotes evm_addresses
                evm_usd_reference rt tr = (Ok v, tr1)
       | None =>
           exists b tr2,
             dex_tier evm_addresses symbol evm_usd_reference rt tr1 = (Ok b, tr2)
             /\ match b with
                | Some d =>
                    resolve_stable_usd_factor info symbol preferred_quotes evm_addresses
                                              evm_usd_reference rt tr = (Ok d, tr2)
                    /\ resolve_stable_usd_factor_with_usdc_reference
                         info symbol usdc_usd_rate preferred_quotes evm_addresses
                         evm_usd_reference rt tr = (Ok (d * usdc_usd_rate)%float, tr2)
                | None =>
                    resolve_stable_usd_factor info symbol preferred_quotes evm_addresses
                                              evm_usd_reference rt tr = (Ok 1%float, tr2)
                    /\ resolve_stable_usd_factor_with_usdc_reference
                         info symbol usdc_usd_rate preferred_quotes evm_addresses
                         evm_usd_reference rt tr = (Ok 1%float, tr2)
                end
       end.
Proof.
  destruct (spot_tier_total info symbol (seq_iter preferred_quotes) rt tr)
    as (a & tr1 & Ha).
  exists a, tr1. split; [exact Ha|].
  unfold resolve_stable_usd_factor, resolve_stable_usd_factor_with_usdc_reference.
  rewrite !(bind_ok _ _ _ _ _ _ Ha). destruct a as [v|]; [now split|].
  destruct (dex_tier_total evm_addresses symbol evm_usd_reference rt tr1)
    as (b & tr2 & Hb).
  exists b, tr2. split; [exact Hb|].
  rewrite (bind_ok _ _ _ _ _ _ Hb).
  rewrite (bind_ok _ _ _ _ _ _
             (dex_tier_usdc_scales _ _ _ usdc_usd_rate _ _ _ _ Hb)).
  now destruct b.
Qed.

(** The variant on three runs: a spot mid, a DEX price, the peg. *)
Lemma usdc_variant_runs :
  fst (resolve_stable_usd_factor_with_usdc_reference
         (Sample.venue [Sample.pair_entry 1 3 9] sample_book) "FEUSD" 1.25%float
         default_preferred_quotes_usdc (Some sample_addresses) "USDC"
         (dex_runtime [Sample.pool "0x88102bea0bbad5f301f6e9e4dacdf979"
                                   "0x6d1e7cde53ba9467b783cb7c530ce054" (PStr "0.5") 10]) [])
  = Ok 1.5%float
  /\ fst (resolve_stable_usd_factor_with_usdc_reference
            Sample.venue_down "FEUSD" 1.25%float
            default_preferred_quotes_usdc (Some sample_addresses) "USDC"
            (dex_runtime [Sample.pool "0x88102bea0bbad5f301f6e9e4dacdf979"
                                      "0x6d1e7cde53ba9467b783cb7c530ce054" (PStr "0.5") 10]) [])
     = Ok 0.625%float
  /\ fst (resolve_stable_usd_factor_with_usdc_reference
            Sample.venue_down "FEUSD" 1.25%float
            default_preferred_quotes_usdc (Some sample_addresses) "USDC" Sample.offline [])
     = Ok 1%float.
Proof. repeat split; vm_compute; reflexivity. Qed.

Lemma dex_tier_none_trace evm_addresses symbol evm_usd_reference rt tr :
  dex_addresses evm_addresses symbol evm_usd_reference = None ->
  dex_tier evm_addresses symbol evm_usd_reference rt tr = (Ok None, tr).
Proof. intros H. unfold dex_tier. now rewrite H. Qed.

Lemma dex_addresses_missing (evm_addresses : option (gmap string string))
    symbol evm_usd_reference :
  evm_addresses = None
  \/ (exists m, evm_addresses = Some m
                /\ (m !! symbol = None \/ m !! evm_usd_reference = None)) ->
  dex_addresses evm_addresses symbol evm_usd_reference = None.
Proof.
  intros [-> | (m & -> & H)]; [reflexivity|]. unfold dex_addresses.
  destruct (bool_decide (m = ∅)); [reflexivity|].
  destruct H as [-> | ->]; [reflexivity|]. now destruct (m !! symbol).
Qed.

(** X9. Without the address of the symbol or without the address of the
    reference (no address map, an empty one, or one lacking either key),
    [resolve_stable_usd_factor] never sends an HTTP request: all it does is
    query the venue. *)
Theorem no_http_without_both_addresses
    info symbol preferred_quotes (evm_addresses : option (gmap string string))
    evm_usd_reference rt tr r tr' :
  evm_addresses = None
  \/ (exists m, evm_addresses = Some m
                /\ (m !! symbol = None \/ m !! evm_usd_reference = None)) ->
  resolve_stable_usd_factor info symbol preferred_quotes evm_addresses
                            evm_usd_reference rt tr = (r, tr') ->
  exists evs, tr' = (tr ++ evs)%list /\ forallb venue_event evs = true.
Proof.
  intros Hmiss%dex_addresses_missing. unfold resolve_stable_usd_factor.
  destruct (spot_tier info symbol (seq_iter preferred_quotes) rt tr) as [[a|e] tr1] eqn:Ha.
  - rewrite (bind_ok _ _ _ _ _ _ Ha). apply spot_tier_events in Ha.
    destruct a as [v|]; [now intros [= _ <-]|].
    rewrite (bind_ok _ _ _ _ _ _ (dex_tier_none_trace _ _ _ rt tr1 Hmiss)).
    now intros [= _ <-].
  - rewrite (bind_err _ _ _ _ _ _ Ha). apply spot_tier_events in Ha. now intros [= _ <-].
Qed.

Lemma no_http_without_both_addresses_example :
  exists evs,
    [EvSpotMeta; EvSpotMeta] = ([] ++ evs)%list /\ forallb venue_event evs = true.
Proof.
  apply (no_http_without_both_addresses
           (Sample.venue [] sample_book) "FEUSD" (StrList ["USDT0"; "USDHL"])
           (Some {[ "FEUSD" := "0x88102bea0bbad5f301f6e9e4dacdf979" ]}) "USDC"
           (dex_runtime [Sample.pool "0xaa" "0xbb" (PStr "2.0") 10]) []
           (Ok 1%float) [EvSpotMeta; EvSpotMeta]).
  - right. eexists. split; [reflexivity|]. right. reflexivity.
  - vm_compute. reflexivity.
Defined.

(** X10. The DEX tier comes second: when every preferred quote fails on the
    venue and the address map holds both addresses, a DEX price [d] for the
    symbol's address against the reference's address is what the call
    returns. *)
Theorem dex_price_when_spot_fails
    info symbol preferred_quotes (m : gmap string string) evm_usd_reference rt tr a b d :
  (forall q tr0, In q (seq_iter preferred_quotes) ->
                 is_ok (fst (get_spot_mid info symbol q rt tr0)) = false) ->
  m !! symbol = Some a ->
  m !! evm_usd_reference = Some b ->
  (forall tr0, fst (get_pair_mid_from_dexscreener a b 5 rt tr0) = Ok d) ->
  exists tr',
    resolve_stable_usd_factor info symbol preferred_quotes (Some m)
                              evm_usd_reference rt tr = (Ok d, tr').
Proof.
  intros Hspot Ha Hb Hdex.
  destruct (spot_tier_all_fail info symbol _ rt tr Hspot) as (tr1 & H1).
  unfold resolve_stable_usd_factor. rewrite (bind_ok _ _ _ _ _ _ H1).
  assert (Haddr : dex_addresses (Some m) symbol evm_usd_reference = Some (a, b)).
  { unfold dex_addresses. rewrite Ha, Hb.
    destruct (bool_decide (m = ∅)) eqn:E; [|reflexivity].
    apply bool_decide_eq_true in E. subst m. now rewrite lookup_empty in Ha. }
  unfold dex_tier. rewrite Haddr. specialize (Hdex tr1).
  destruct (get_pair_mid_from_dexscreener a b 5 rt tr1) as [r tr2] eqn:Hmid.
  cbn in Hdex. subst r. exists tr2.
  unfold mbind at 1, M_bind at 1.
  rewrite (try_except_ok _ _ rt tr1 (Some d) tr2); [reflexivity|].
  now rewrite (bind_ok _ _ _ _ _ _ Hmid).
Qed.

Lemma dex_price_when_spot_fails_example :
  exists tr',
    resolve_stable_usd_factor Sample.venue_down "FEUSD" (StrList ["USDT0"; "USDHL"])
      (Some sample_addresses) "USDC"
      (dex_runtime [Sample.pool "0x88102bea0bbad5f301f6e9e4dacdf979"
                                "0x6d1e7cde53ba9467b783cb7c530ce054" (PStr "0.5") 10]) []
    = (Ok 0.5%float, tr').
Proof.
  apply (dex_price_when_spot_fails Sample.venue_down "FEUSD" (StrList ["USDT0"; "USDHL"])
           sample_addresses "USDC"
           (dex_runtime [Sample.pool "0x88102bea0bbad5f301f6e9e4dacdf979"
                                     "0x6d1e7cde53ba9467b783cb7c530ce054" (PStr "0.5") 10])
           [] "0x88102bea0bbad5f301f6e9e4dacdf979" "0x6d1e7cde53ba9467b783cb7c530ce054"
           0.5%float).
  - intros q tr0 _. reflexivity.
  - vm_compute. reflexivity.
  - vm_compute. reflexivity.
  - intros tr0. vm_compute. reflexivity.
Defined.

(** ** The DEX lookup (hyper_evm_prices.py) *)

Lemma load_pairs_trace token_addr timeout rt tr :
  snd (_load_pairs_for_token token_addr timeout rt tr)
  = (tr ++ [pairs_request token_addr timeout])%list.
Proof.
  unfold _load_pairs_for_token, pairs_request, do_requests_get, raise_for_status,
    mbind, M_bind, lift, raise, mret, M_ret.
  destruct (requests_get rt tr _ [] timeout) as [resp|e]; cbn; [|reflexivity].
  destruct (_ && _); cbn; [reflexivity|].
  destruct (resp_json resp) as [data|e]; cbn; [|reflexivity].
  destruct (Py.get data "pairs" (PList [])); reflexivity.
Qed.

(** X11. A pool in the exact orientation that the loop reaches decides the
    call: its price, once [float] accepts it, is returned as it is, whatever
    the pools after it hold and whatever its value (zero or negative
    included; only the inverted orientation tests for zero). *)
Theorem exact_pool_returns_price
    tokenA tokenB timeout rt tr tr' pre p post st price v :
  _load_pairs_for_token tokenA timeout rt tr = (Ok (PList (pre ++ p :: post)), tr') ->
  scan_pools (Str.lower tokenA) (Str.lower tokenB) pre initial_best = Ok (Continue st) ->
  Str.nonempty (Str.lower tokenA) = true ->
  Str.nonempty (Str.lower tokenB) = true ->
  token_address p "baseToken" = Ok (Str.lower tokenA) ->
  token_address p "quoteToken" = Ok (Str.lower tokenB) ->
  pool_price p = Ok price ->
  Py.truthy price = true ->
  Py.float_ price = Ok v ->
  get_pair_mid_from_dexscreener tokenA tokenB timeout rt tr = (Ok v, tr').
Proof.
  intros Hload Hpre HA HB Hb Hq Hp Ht Hf.
  pose proof (scan_pool_unfold (Str.lower tokenA) (Str.lower tokenB) p st _ _ _ Hb Hq Hp)
    as Hstep.
  rewrite HA, HB in Hstep. cbn [negb orb] in Hstep.
  unfold exact_return in Hstep. rewrite !String.eqb_refl, Ht, Hf in Hstep.
  cbn [andb] in Hstep.
  rewrite (get_pair_mid_with_pairs _ _ _ _ _ _ _ Hload). f_equal.
  unfold pair_mid_of_pairs. cbn.
  rewrite (scan_pools_app _ _ _ _ _ _ Hpre). cbn [scan_pools]. now rewrite Hstep.
Qed.

Lemma exact_pool_returns_price_example :
  get_pair_mid_from_dexscreener "0xAa" "0xBb" 5%float
    (dex_runtime [Sample.pool "0xcc" "0xdd" (PStr "3.0") 50;
                  Sample.pool "0xAA" "0xBB" (PStr "0") 10;
                  Sample.pool "0xbb" "0xaa" (PStr "2.0") 900]) []
  = (Ok 0%float, [dex_query "0xAa"]).
Proof.
  apply (exact_pool_returns_price "0xAa" "0xBb" 5%float _ [] [dex_query "0xAa"]
           [Sample.pool "0xcc" "0xdd" (PStr "3.0") 50]
           (Sample.pool "0xAA" "0xBB" (PStr "0") 10)
           [Sample.pool "0xbb" "0xaa" (PStr "2.0") 900]
           (mkBest 50%float (Some (PStr "3.0"))) (PStr "0") 0%float);
    vm_compute; reflexivity.
Defined.

Lemma scan_pool_no_address tA tB p st base quote :
  token_address p "baseToken" = Ok base ->
  token_address p "quoteToken" = Ok quote ->
  base = "" \/ quote = "" ->
  scan_pool tA tB p st = Ok (Continue st).
Proof.
  intros Hb Hq Hempty. unfold scan_pool. rewrite Hb, Hq. cbn.
  destruct Hempty as [-> | ->]; cbn; [reflexivity|].
  now rewrite orb_true_r.
Qed.

Lemma scan_pools_no_address tA tB p post base quote :
  token_address p "baseToken" = Ok base ->
  token_address p "quoteToken" = Ok quote ->
  base = "" \/ quote = "" ->
  forall pre st,
    scan_pools tA tB (pre ++ p :: post) st = scan_pools tA tB (pre ++ post) st.
Proof.
  intros Hb Hq Hempty. induction pre as [|p0 pre IH]; intros st; cbn [app scan_pools].
  - now rewrite (scan_pool_no_address _ _ _ _ _ _ Hb Hq Hempty).
  - destruct (scan_pool tA tB p0 st) as [[x|st1]|e]; cbn; try reflexivity. apply IH.
Qed.

(** X12. A pool that lacks the address of its base token or of its quote
    token (missing, null or empty) is skipped before anything else of it is
    read: the lookup gives what it gives on the list without that pool. *)
Theorem pool_without_address_is_skipped tokenA tokenB pre p post base quote :
  token_address p "baseToken" = Ok base ->
  token_address p "quoteToken" = Ok quote ->
  base = "" \/ quote = "" ->
  pair_mid_of_pairs tokenA tokenB (PList (pre ++ p :: post))
  = pair_mid_of_pairs tokenA tokenB (PList (pre ++ post)).
Proof.
  intros Hb Hq Hempty. unfold pair_mid_of_pairs. cbn.
  now rewrite (scan_pools_no_address _ _ _ _ _ _ Hb Hq Hempty).
Qed.

Lemma pool_without_address_is_skipped_example :
  pair_mid_of_pairs "0xAa" "0xBb"
    (PList ([Sample.pool "0xcc" "0xdd" (PStr "3.0") 50]
            ++ PDict [("baseToken", PNone);
                      ("quoteToken", PDict [("address", PStr "0xbb")]);
                      ("priceNative", PStr "7.0");
                      ("liquidity", PDict [("usd", PInt 1000000)])]
            :: [Sample.pool "0xee" "0xff" (PStr "4.0") 60]))
  = pair_mid_of_pairs "0xAa" "0xBb"
      (PList ([Sample.pool "0xcc" "0xdd" (PStr "3.0") 50]
              ++ [Sample.pool "0xee" "0xff" (PStr "4.0") 60])).
Proof.
  apply (pool_without_address_is_skipped "0xAa" "0xBb" _ _ _ "" "0xbb").
  - reflexivity.
  - reflexivity.
  - left. reflexivity.
Defined.

(** X13. The lookup sends one request, for the pools of [tokenA], with no
    query parameters and the given timeout; it sends it whatever comes back,
    and nothing is ever asked about [tokenB]. *)
Theorem dex_lookup_sends_one_request tokenA tokenB timeout rt tr :
  snd (get_pair_mid_from_dexscreener tokenA tokenB timeout rt tr)
  = (tr ++ [EvGet (DEXSCREENER_BASE ++ "/" ++ tokenA) [] timeout])%list.
Proof.
  pose proof (load_pairs_trace tokenA timeout rt tr) as H.
  unfold get_pair_mid_from_dexscreener.
  destruct (_load_pairs_for_token tokenA timeout rt tr) as [[pairs|e] tr1] eqn:E;
    cbn in H; subst tr1.
  - rewrite (bind_ok _ _ _ _ _ _ E). unfold lift.
    now destruct (pair_mid_of_pairs tokenA tokenB pairs).
  - now rewrite (bind_err _ _ _ _ _ _ E).
Qed.

(** X14. No failure of the request is turned into the "no suitable pool"
    error: an exception of [requests.get] propagates as it is, a status from
    400 to 599 raises the HTTP error of [raise_for_status], and a body that
    is not JSON raises the decoding error. *)
Theorem dex_request_failure_propagates tokenA tokenB timeout rt tr r :
  requests_get rt tr (DEXSCREENER_BASE ++ "/" ++ tokenA) [] timeout = r ->
  match r with
  | Err e => fst (get_pair_mid_from_dexscreener tokenA tokenB timeout rt tr) = Err e
  | Ok resp =>
      (400 <= status_code resp < 600 ->
       fst (get_pair_mid_from_dexscreener tokenA tokenB timeout rt tr)
       = Err (ExternalError "HTTPError"))
      /\ (forall e,
            ~ 400 <= status_code resp < 600 ->
            resp_json resp = Err e ->
            fst (get_pair_mid_from_dexscreener tokenA tokenB timeout rt tr) = Err e)
  end.
Proof.
  intros Hr.
  unfold get_pair_mid_from_dexscreener, _load_pairs_for_token, do_requests_get,
    raise_for_status, mbind, M_bind, lift, raise, mret, M_ret.
  rewrite Hr. destruct r as [resp|e]; cbn; [|reflexivity]. split.
  - intros [Hlo Hhi].
    apply Z.leb_le in Hlo. apply Z.ltb_lt in Hhi. now rewrite Hlo, Hhi.
  - intros e Hst He.
    destruct (400 <=? status_code resp) eqn:Hlo;
      destruct (status_code resp <? 600) eqn:Hhi; cbn; try now rewrite He.
    apply Z.leb_le in Hlo. apply Z.ltb_lt in Hhi. elim Hst. now split.
Qed.

Lemma dex_request_failure_propagates_example :
  (400 <= 500 < 600 ->
   fst (get_pair_mid_from_dexscreener "0xAa" "0xBb" 5%float
          (reply_runtime (Ok (mkResponse 500 (Ok (PDict [("pairs", PList [])])) ""))) [])
   = Err (ExternalError "HTTPError"))
  /\ (forall e,
        ~ 400 <= 500 < 600 ->
        Ok (PDict [("pairs", PList [])]) = Err e ->
        fst (get_pair_mid_from_dexscreener "0xAa" "0xBb" 5%float
               (reply_runtime (Ok (mkResponse 500 (Ok (PDict [("pairs", PList [])])) ""))) [])
        = Err e).
Proof.
  exact (dex_request_failure_propagates "0xAa" "0xBb" 5%float
           (reply_runtime (Ok (mkResponse 500 (Ok (PDict [("pairs", PList [])])) ""))) []
           (Ok (mkResponse 500 (Ok (PDict [("pairs", PList [])])) "")) eq_refl).
Defined.

(** X15. A reply that lists no pool, its ["pairs"] missing, null or empty
    (any falsy value), ends in the "no suitable pool" error naming the two
    addresses as they were given. *)
Theorem no_pairs_is_no_suitable_pool tokenA tokenB timeout rt tr resp data pairs :
  requests_get rt tr (DEXSCREENER_BASE ++ "/" ++ tokenA) [] timeout = Ok resp ->
  ~ 400 <= status_code resp < 600 ->
  resp_json resp = Ok data ->
  Py.get data "pairs" (PList []) = Ok pairs ->
  Py.truthy pairs = false ->
  get_pair_mid_from_dexscreener tokenA tokenB timeout rt tr
  = (Err (NoSuitablePool tokenA tokenB), (tr ++ [pairs_request tokenA timeout])%list).
Proof.
  intros Hr Hst Hj Hp Ht.
  unfold get_pair_mid_from_dexscreener, _load_pairs_for_token, do_requests_get,
    raise_for_status, pairs_request, mbind, M_bind, lift, raise, mret, M_ret.
  rewrite Hr. cbn.
  destruct (400 <=? status_code resp) eqn:Hlo;
    destruct (status_code resp <? 600) eqn:Hhi; cbn;
    try (rewrite Hj; cbn; rewrite Hp; cbn; unfold Py.or_; rewrite Ht; reflexivity).
  apply Z.leb_le in Hlo. apply Z.ltb_lt in Hhi. elim Hst. now split.
Qed.

Lemma no_pairs_is_no_suitable_pool_example :
  get_pair_mid_from_dexscreener "0xAa" "0xBb" 5%float
    (reply_runtime (Sample.json_reply (PDict [("schemaVersion", PStr "1.0.0");
                                              ("pairs", PNone)]))) []
  = (Err (NoSuitablePool "0xAa" "0xBb"), ([] ++ [pairs_request "0xAa" 5%float])%list).
Proof.
  apply (no_pairs_is_no_suitable_pool "0xAa" "0xBb" 5%float _ []
           (mkResponse 200 (Ok (PDict [("schemaVersion", PStr "1.0.0"); ("pairs", PNone)])) "")
           (PDict [("schemaVersion", PStr "1.0.0"); ("pairs", PNone)]) PNone).
  - reflexivity.
  - cbn. lia.
  - reflexivity.
  - reflexivity.
  - reflexivity.
Defined.

(** X16. Addresses are compared without regard to case: two calls whose
    addresses differ only in case return the same price from the same
    pools. *)
Theorem address_case_is_ignored tokenA tokenB tokenA' tokenB' pairs v :
  Str.lower tokenA = Str.lower tokenA' ->
  Str.lower tokenB = Str.lower tokenB' ->
  pair_mid_of_pairs tokenA tokenB pairs = Ok v <->
  pair_mid_of_pairs tokenA' tokenB' pairs = Ok v.
Proof.
  intros HA HB. unfold pair_mid_of_pairs. rewrite HA, HB.
  destruct (Py.iter pairs) as [ps|e]; cbn; [|tauto].
  destruct (scan_pools (Str.lower tokenA') (Str.lower tokenB') ps initial_best)
    as [[x|st]|e]; cbn; try tauto.
  unfold after_scan. destruct (best_price st) as [bp|]; [|split; discriminate].
  destruct (Py.float_ bp); [tauto|split; discriminate].
Qed.

Lemma address_case_is_ignored_example :
  pair_mid_of_pairs "0xAa" "0xBb"
    (PList [Sample.pool "0xBB" "0xAA" (PStr "2.0") 10]) = Ok 0.5%float
  <-> pair_mid_of_pairs "0XAA" "0xbB"
        (PList [Sample.pool "0xBB" "0xAA" (PStr "2.0") 10]) = Ok 0.5%float.
Proof.
  apply (address_case_is_ignored "0xAa" "0xBb" "0XAA" "0xbB"); reflexivity.
Defined.

Lemma token_address_error p k e :
  token_address p k = Err e -> e = Builtin AttributeError.
Proof.
  unfold token_address. destruct p; cbn; try now intros [= <-].
  match goal with |- context [Py.or_ ?a ?b] => destruct (Py.or_ a b) end;
    cbn; try now intros [= <-].
  match goal with |- context [match ?x with Some _ => _ | None => _ end] => destruct x end;
    [|discriminate].
  destruct p; cbn; try discriminate; now intros [= <-].
Qed.

(** X17. A pool whose token address cannot be read (the pool is no object,
    a token field is neither an object nor falsy, or an address is no [str])
    ends the lookup with an [AttributeError] as soon as the loop reaches it,
    whatever the pools after it hold. *)
Theorem unreadable_pool_aborts_lookup tokenA tokenB timeout rt tr tr' pre p post st :
  _load_pairs_for_token tokenA timeout rt tr = (Ok (PList (pre ++ p :: post)), tr') ->
  scan_pools (Str.lower tokenA) (Str.lower tokenB) pre initial_best = Ok (Continue st) ->
  pool_readable p = false ->
  get_pair_mid_from_dexscreener tokenA tokenB timeout rt tr
  = (Err (Builtin AttributeError), tr').
Proof.
  intros Hload Hpre Hbad.
  rewrite (get_pair_mid_with_pairs _ _ _ _ _ _ _ Hload). f_equal.
  unfold pair_mid_of_pairs. cbn.
  rewrite (scan_pools_app _ _ _ _ _ _ Hpre). cbn [scan_pools].
  unfold pool_readable in Hbad. unfold scan_pool.
  destruct (token_address p "baseToken") as [base|e] eqn:Hb; cbn.
  - destruct (token_address p "quoteToken") as [quote|e] eqn:Hq; cbn; [discriminate|].
    now rewrite (token_address_error _ _ _ Hq).
  - now rewrite (token_address_error _ _ _ Hb).
Qed.

Lemma unreadable_pool_aborts_lookup_example :
  get_pair_mid_from_dexscreener "0xAa" "0xBb" 5%float
    (dex_runtime [Sample.pool "0xcc" "0xdd" (PStr "3.0") 50;
                  PDict [("baseToken", PDict [("address", PNone)]);
                         ("quoteToken", PDict [("address", PStr "0xbb")])];
                  Sample.pool "0xaa" "0xbb" (PStr "2.0") 10]) []
  = (Err (Builtin AttributeError), [dex_query "0xAa"]).
Proof.
  apply (unreadable_pool_aborts_lookup "0xAa" "0xBb" 5%float _ [] [dex_query "0xAa"]
           [Sample.pool "0xcc" "0xdd" (PStr "3.0") 50]
           (PDict [("baseToken", PDict [("address", PNone)]);
                   ("quoteToken", PDict [("address", PStr "0xbb")])])
           [Sample.pool "0xaa" "0xbb" (PStr "2.0") 10]
           (mkBest 50%float (Some (PStr "3.0"))));
    vm_compute; reflexivity.
Defined.

(** ** The RedStone client (redstone_prices.py) *)

Lemma upper_char_idem c : Str.upper_char (Str.upper_char c) = Str.upper_char c.
Proof. destruct c as [[] [] [] [] [] [] [] []]; vm_compute; reflexivity. Qed.

Lemma upper_idem s : Str.upper (Str.upper s) = Str.upper s.
Proof.
  unfold Str.upper, Str.chars, Str.of_chars.
  rewrite list_ascii_of_string_of_list_ascii, List.map_map. f_equal.
  apply List.map_ext. intros c. apply upper_char_idem.
Qed.

Lemma wanted_of_upper symbols k : In k (wanted_of symbols) -> Str.upper k = k.
Proof.
  unfold wanted_of. intros (s & <- & _)%in_map_iff. apply upper_idem.
Qed.

Section RaisesOnly.

Context {A B : Type} (P : exn -> Prop) (rt : Runtime).

Lemma raises_only_ret (a : A) : raises_only P rt (mret a).
Proof. intros tr e tr'. discriminate. Qed.

Lemma raises_only_bind (m : M A) (f : A -> M B) :
  raises_only P rt m -> (forall a, raises_only P rt (f a)) -> raises_only P rt (m ≫= f).
Proof.
  intros Hm Hf tr e tr'. unfold mbind, M_bind.
  destruct (m rt tr) as [[a|e0] tr1] eqn:E.
  - apply Hf.
  - intros [= <- <-]. exact (Hm _ _ _ E).
Qed.

Lemma raises_only_try (m : M A) (h : exn -> M A) :
  (forall e, raises_only P rt (h e)) -> raises_only P rt (try_except m h).
Proof.
  intros Hh tr e tr'. unfold try_except.
  destruct (m rt tr) as [[a|e0] tr1]; [discriminate|]. apply Hh.
Qed.

End RaisesOnly.

Lemma raises_only_http_get_json P rt url params timeout :
  (forall e, request_error rt url timeout e -> P e) ->
  raises_only P rt (_http_get_json url params timeout).
Proof.
  intros HP tr e tr'. unfold _http_get_json, do_requests_get, mbind, M_bind.
  destruct (requests_get rt tr url params timeout) as [resp|e0] eqn:E; [discriminate|].
  intros [= <- <-]. apply HP. now exists tr, params.
Qed.

Lemma pick_record_never_raises P rt sym items :
  forall out : gmap string price_record, raises_only P rt (pick_record sym items out).
Proof.
  induction items as [|item items IH]; intros out; cbn [pick_record].
  - apply raises_only_ret.
  - apply raises_only_bind.
    + apply raises_only_try. intros e. apply raises_only_ret.
    + intros [r|]; [apply raises_only_ret|apply IH].
Qed.

Lemma per_symbol_raises_only P rt endpoint timeout syms :
  (forall e, request_error rt endpoint timeout e -> P e) ->
  forall out : gmap string price_record,
    raises_only P rt (per_symbol endpoint timeout syms out).
Proof.
  intros HP. induction syms as [|sym syms IH]; intros out; cbn [per_symbol].
  - apply raises_only_ret.
  - apply raises_only_bind; [intros tr e tr'; discriminate|intros u].
    apply raises_only_bind; [now apply raises_only_http_get_json|intros [status data]].
    apply raises_only_bind; [|intros out'; apply IH].
    destruct (negb (status =? 200)); [apply raises_only_ret|].
    apply raises_only_bind.
    + apply raises_only_try. intros e. apply raises_only_ret.
    + intros [normalized|]; [apply pick_record_never_raises|apply raises_only_ret].
Qed.

Lemma batch_query_raises_only P rt endpoint wanted timeout :
  (forall e, request_error rt endpoint timeout e -> P e) ->
  raises_only P rt (batch_query endpoint wanted timeout).
Proof.
  intros HP. unfold batch_query.
  apply raises_only_bind; [intros tr e tr'; discriminate|intros u].
  apply raises_only_bind; [now apply raises_only_http_get_json|intros [status data]].
  destruct (status =? 200); [|apply raises_only_ret].
  apply raises_only_try. intros e. apply raises_only_ret.
Qed.

Lemma try_endpoint_errors endpoint symbols timeout rt tr e tr' :
  _try_redstone_endpoint endpoint symbols timeout rt tr = (Err e, tr') ->
  e = NoUsableDataFrom endpoint \/ request_error rt endpoint timeout e.
Proof.
  set (P := fun e => e = NoUsableDataFrom endpoint \/ request_error rt endpoint timeout e).
  assert (HP : forall e, request_error rt endpoint timeout e -> P e) by (intros; now right).
  enough (H : raises_only P rt (_try_redstone_endpoint endpoint symbols timeout))
    by (intros Hrun; exact (H _ _ _ Hrun)).
  unfold _try_redstone_endpoint. destruct (wanted_of symbols) as [|w ws].
  - apply raises_only_ret.
  - apply raises_only_bind; [now apply batch_query_raises_only|intros out].
    destruct (negb (is_empty out)); [apply raises_only_ret|].
    apply raises_only_bind; [now apply per_symbol_raises_only|intros out'].
    destruct (negb (is_empty out')); [apply raises_only_ret|].
    intros tr0 e0 tr1 [= <- _]. now left.
Qed.

(** X18. An endpoint call raises for two reasons only: [requests.get] raised
    for one of its requests, and that exception propagates as it is; or no
    query shape gave a record, and the error names the endpoint.  A status
    other than 200, a payload of an unexpected type and a record without a
    symbol or a numeric value never surface as an exception. *)
Theorem endpoint_call_raises_two_errors endpoint symbols timeout rt tr e tr' :
  _try_redstone_endpoint endpoint symbols timeout rt tr = (Err e, tr') ->
  e = NoUsableDataFrom endpoint
  \/ exists tr0 params, requests_get rt tr0 endpoint params timeout = Err e.
Proof. apply try_endpoint_errors. Qed.

Lemma endpoint_call_raises_two_errors_example :
  ExternalError "connection refused" = NoUsableDataFrom "https://api.redstone.finance/prices"
  \/ exists tr0 params,
       requests_get Sample.offline tr0 "https://api.redstone.finance/prices" params 4%float
       = Err (ExternalError "connection refused").
Proof.
  apply (endpoint_call_raises_two_errors "https://api.redstone.finance/prices" ["BTC"]
           4%float Sample.offline [] (ExternalError "connection refused")
           [EvGet "https://api.redstone.finance/prices"
                  [("symbols", "BTC"); ("_", "5f0c1d2e3a4b49788a6b7c8d9e0f1a2b")] 4%float]).
  vm_compute. reflexivity.
Defined.

Lemma batch_step_cases item (out : gmap string price_record) rt tr :
  exists out',
    try_except
      (s ← lift (Py.getitem item "symbol");
       s' ← py_str s;
       let sym := Str.upper s' in
       r ← read_record item;
       mret (<[sym := r]> out))
      (fun _ => mret out) rt tr = (Ok out', tr)
    /\ (out' = out \/ exists s r, out' = <[Str.upper s := r]> out).
Proof.
  unfold try_except. rewrite bind_lift.
  destruct (Py.getitem item "symbol") as [s|e] eqn:Hs.
  2:{ exists out. cbn. split; [reflexivity|now left]. }
  destruct (getitem_object _ _ _ Hs) as [kvs ->].
  unfold py_str at 1, mbind at 1, M_bind at 1. cbn zeta.
  destruct (read_record_object kvs rt tr) as [r Hr].
  destruct (Py.getitem (PDict kvs) "value" ≫= Py.float_) as [val|e].
  - rewrite (bind_ok _ _ _ _ _ _ Hr). cbn. eexists. split; [reflexivity|].
    right. now eexists _, _.
  - rewrite (bind_err _ _ _ _ _ _ Hr). exists out. cbn. split; [reflexivity|now left].
Qed.

Lemma batch_records_upper rt items : forall (out : gmap string price_record) tr out' tr',
  batch_records items out rt tr = (Ok out', tr') ->
  forall k, is_Some (out' !! k) -> is_Some (out !! k) \/ Str.upper k = k.
Proof.
  induction items as [|item items IH]; intros out tr out' tr'.
  - intros [= <- _]. now left.
  - cbn [batch_records].
    destruct (batch_step_cases item out rt tr) as (out1 & H1 & Hcase).
    rewrite (bind_ok _ _ _ _ _ _ H1).
    intros Hrest k Hk. apply (IH _ _ _ _ Hrest) in Hk as [Hk|Hk]; [|now right].
    destruct Hcase as [-> | (s & r & ->)]; [now left|].
    destruct (decide (Str.upper s = k)) as [<-|Hne]; [right; apply upper_idem|].
    rewrite lookup_insert_ne in Hk by assumption. now left.
Qed.

Lemma batch_query_upper endpoint symbols timeout rt tr (out : gmap string price_record) tr' :
  batch_query endpoint (wanted_of symbols) timeout rt tr = (Ok out, tr') ->
  forall k, is_Some (out !! k) -> Str.upper k = k.
Proof.
  unfold batch_query, do_uuid4_hex, mbind at 1, M_bind at 1.
  unfold mbind at 1, M_bind at 1.
  destruct (_http_get_json _ _ _ rt tr) as [[[status data]|e] tr1]; [|discriminate].
  assert (Hempty : forall k, is_Some ((∅ : gmap string price_record) !! k) -> Str.upper k = k).
  { intros k [x Hx]. now rewrite lookup_empty in Hx. }
  destruct (status =? 200); [|now intros [= <- _]].
  unfold try_except, mbind, M_bind.
  destruct (_normalize_rs_payload data rt tr1) as [[normalized|e] tr2]; [|now intros [= <- _]].
  destruct (batch_records normalized ∅ rt tr2) as [[out1|e] tr3] eqn:Hb; [|now intros [= <- _]].
  intros [= <- _] k Hk.
  apply (batch_records_upper _ _ _ _ _ _ Hb) in Hk as [[x Hx]|Hk]; [|assumption].
  now rewrite lookup_empty in Hx.
Qed.

Lemma try_endpoint_upper endpoint symbols timeout rt tr (out : gmap string price_record) tr' :
  _try_redstone_endpoint endpoint symbols timeout rt tr = (Ok out, tr') ->
  forall k, is_Some (out !! k) -> Str.upper k = k.
Proof.
  destruct (wanted_of symbols) as [|w ws] eqn:Hw.
  - unfold _try_redstone_endpoint. rewrite Hw. intros [= <- _] k [x Hx].
    now rewrite lookup_empty in Hx.
  - rewrite try_endpoint_wanted by (rewrite Hw; discriminate).
    unfold mbind at 1, M_bind at 1.
    destruct (batch_query endpoint (wanted_of symbols) timeout rt tr)
      as [[out1|e] tr1] eqn:Hb; [|discriminate].
    destruct (negb (is_empty out1)).
    + intros [= <- _]. exact (batch_query_upper _ _ _ _ _ _ _ Hb).
    + unfold mbind at 1, M_bind at 1.
      destruct (per_symbol endpoint timeout (wanted_of symbols) ∅ rt tr1)
        as [[out2|e] tr2] eqn:Hp; [|discriminate].
      destruct (negb (is_empty out2)); [|discriminate].
      intros [= <- _] k Hk.
      apply (per_symbol_keys _ _ _ _ _ _ _ _ Hp) in Hk as [[x Hx]|Hk].
      * now rewrite lookup_empty in Hx.
      * exact (wanted_of_upper _ _ Hk).
Qed.

Lemma scan_endpoints_found symbols timeout rt eps :
  forall last_err tr (result : gmap string price_record) last_err' tr',
  scan_endpoints eps symbols timeout last_err rt tr = (Ok (Some result, last_err'), tr') ->
  is_empty result = false
  /\ exists ep tr0,
       In ep eps /\ _try_redstone_endpoint ep symbols timeout rt tr0 = (Ok result, tr').
Proof.
  induction eps as [|ep eps IH]; intros last_err tr result last_err' tr'.
  - discriminate.
  - cbn [scan_endpoints]. unfold mbind at 1, M_bind at 1, try_except.
    unfold mbind at 1, M_bind at 1.
    destruct (_try_redstone_endpoint ep symbols timeout rt tr) as [[out|e] tr1] eqn:Htry; cbn.
    + destruct (is_empty out) eqn:Hout; cbn.
      * intros H. destruct (IH _ _ _ _ _ H) as (Hne & ep0 & tr0 & Hin & Hrun).
        split; [exact Hne|]. exists ep0, tr0. split; [now right|exact Hrun].
      * intros [= <- _ <-]. split; [exact Hout|]. exists ep, tr. split; [now left|exact Htry].
    + intros H. destruct (IH _ _ _ _ _ H) as (Hne & ep0 & tr0 & Hin & Hrun).
      split; [exact Hne|]. exists ep0, tr0. split; [now right|exact Hrun].
Qed.

Lemma fetch_loop_found eps symbols timeout retries retry_base_delay rt :
  forall n attempt last_err tr (result : gmap string price_record) tr',
  fetch_loop n eps symbols timeout retries retry_base_delay attempt last_err rt tr
  = (Ok (Some result), tr') ->
  is_empty result = false
  /\ exists ep tr0,
       In ep eps /\ _try_redstone_endpoint ep symbols timeout rt tr0 = (Ok result, tr').
Proof.
  induction n as [|n IH]; intros attempt last_err tr result tr'; cbn [fetch_loop];
    destruct (attempt <? retries); try discriminate.
  unfold mbind at 1, M_bind at 1.
  destruct (scan_endpoints eps symbols timeout last_err rt tr)
    as [[[[found|] l1]|e] tr1] eqn:Hscan; try discriminate.
  - intros [= <- <-]. exact (scan_endpoints_found _ _ _ _ _ _ _ _ _ Hscan).
  - rewrite bind_lift.
    destruct (backoff_delay retry_base_delay (attempt + 1)) as [d|e]; [|discriminate].
    unfold do_sleep, mbind at 1, M_bind at 1.
    destruct (time_sleep rt tr1 d); [|discriminate]. apply IH.
Qed.

(** X19. A mapping that [fetch_redstone_prices] returns is the mapping one
    endpoint of the list returned, and that call is the last thing done; it
    is never empty, and every key of it is in upper case. *)
Theorem fetched_prices_are_keyed_in_upper_case
    symbols endpoints timeout_secs retries retry_base_delay rt tr
    (out : gmap string price_record) tr' :
  fetch_redstone_prices symbols endpoints timeout_secs retries retry_base_delay rt tr
  = (Ok (Some out), tr') ->
  out <> ∅
  /\ (forall k, is_Some (out !! k) -> Str.upper k = k)
  /\ exists ep tr0,
       In ep (endpoints_or_default endpoints)
       /\ _try_redstone_endpoint ep symbols timeout_secs rt tr0 = (Ok out, tr').
Proof.
  intros H. apply fetch_loop_found in H as (Hne & ep & tr0 & Hin & Hrun).
  split; [|split].
  - intros ->. unfold is_empty in Hne. now apply bool_decide_eq_false in Hne.
  - exact (try_endpoint_upper _ _ _ _ _ _ _ Hrun).
  - now exists ep, tr0.
Qed.

Lemma fetched_prices_are_keyed_in_upper_case_example :
  ({[ "BTC" := mkPrice 65000%float (PInt 123) "x" ]} : gmap string price_record) <> ∅
  /\ (forall k,
        is_Some (({[ "BTC" := mkPrice 65000%float (PInt 123) "x" ]}
                  : gmap string price_record) !! k) ->
        Str.upper k = k)
  /\ exists ep tr0,
       In ep (endpoints_or_default None)
       /\ _try_redstone_endpoint ep [" btc"] 4%float
            (reply_runtime (Sample.json_reply btc_mapping)) tr0
          = (Ok {[ "BTC" := mkPrice 65000%float (PInt 123) "x" ]},
             [EvGet "https://api.redstone.finance/prices"
                    [("symbols", "BTC"); ("_", "5f0c1d2e3a4b49788a6b7c8d9e0f1a2b")] 4%float]).
Proof.
  apply (fetched_prices_are_keyed_in_upper_case [" btc"] None 4%float 4 0.5%float
           (reply_runtime (Sample.json_reply btc_mapping)) []).
  vm_compute. reflexivity.
Defined.

Lemma scan_endpoints_last_err symbols timeout rt eps :
  forall eps0 last_err tr found last_err' tr',
  incl eps0 eps ->
  scan_endpoints eps0 symbols timeout last_err rt tr = (Ok (found, last_err'), tr') ->
  (forall err, last_err = Some err -> endpoint_error rt eps timeout err) ->
  (forall err, last_err' = Some err -> endpoint_error rt eps timeout err)
  /\ (found = None -> is_Some last_err \/ eps0 <> [] -> is_Some last_err').
Proof.
  induction eps0 as [|ep eps0 IH]; intros last_err tr found last_err' tr' Hincl.
  - intros [= <- <- _] Hgood. split; [exact Hgood|]. now intros _ [H|H].
  - assert (Hin : In ep eps) by (apply Hincl; now left).
    assert (Hrest : incl eps0 eps) by (intros x Hx; apply Hincl; now right).
    cbn [scan_endpoints]. unfold mbind at 1, M_bind at 1, try_except.
    unfold mbind at 1, M_bind at 1.
    destruct (_try_redstone_endpoint ep symbols timeout rt tr) as [[out|e] tr1] eqn:Htry; cbn.
    + destruct (is_empty out); cbn.
      * intros H Hgood.
        destruct (IH (Some (NoDataFrom ep)) tr1 found last_err' tr' Hrest H) as [Hg Hs].
        { intros err [= <-]. exists ep. split; [exact Hin|now left]. }
        split; [exact Hg|]. intros Hf _. apply Hs; [exact Hf|]. left. now eexists.
      * intros [= <- <- _] Hgood. split; [exact Hgood|discriminate].
    + intros H Hgood.
      destruct (IH (Some e) tr1 found last_err' tr' Hrest H) as [Hg Hs].
      { intros err [= <-]. exists ep. split; [exact Hin|]. right.
        destruct (try_endpoint_errors _ _ _ _ _ _ _ Htry) as [->|Hreq]; [now left|now right]. }
      split; [exact Hg|]. intros Hf _. apply Hs; [exact Hf|]. left. now eexists.
Qed.

Lemma fetch_loop_errors eps symbols timeout retries retry_base_delay rt :
  retries <= 1024 ->
  eps <> [] ->
  (forall tr0 k,
     0 <= k < retries ->
     time_sleep rt tr0 (retry_base_delay * float_pow2 k)%float = Ok tt) ->
  forall n attempt last_err tr e tr',
  0 <= attempt ->
  (last_err = None -> attempt = 0) ->
  (forall err, last_err = Some err -> endpoint_error rt eps timeout err) ->
  fetch_loop n eps symbols timeout retries retry_base_delay attempt last_err rt tr
  = (Err e, tr') ->
  exists l,
    e = FailedAfterAttempts retries l
    /\ match l with
       | None => retries <= 0
       | Some err => endpoint_error rt eps timeout err
       end.
Proof.
  intros Hmax Hne Hsleep.
  induction n as [|n IH]; intros attempt last_err tr e tr' Hpos Hzero Hgood;
    cbn [fetch_loop]; destruct (attempt <? retries) eqn:Hlt.
  - discriminate.
  - intros [= <- _]. exists last_err. split; [reflexivity|].
    destruct last_err as [err|]; [now apply Hgood|].
    apply Z.ltb_ge in Hlt. rewrite Hzero in Hlt by reflexivity. exact Hlt.
  - apply Z.ltb_lt in Hlt.
    destruct (scan_endpoints_never_raises eps symbols timeout rt last_err tr)
      as ([found l1] & tr1 & Hscan).
    rewrite (bind_ok _ _ _ _ _ _ Hscan). cbn beta iota.
    destruct found as [result|]; [discriminate|].
    destruct (scan_endpoints_last_err symbols timeout rt eps eps last_err tr None l1 tr1
                (incl_refl _) Hscan Hgood) as [Hg1 Hs1].
    rewrite bind_lift, (backoff_delay_pow2 _ attempt) by lia.
    unfold do_sleep, mbind at 1, M_bind at 1. rewrite Hsleep by lia.
    apply IH; [lia| |exact Hg1].
    intros ->. destruct (Hs1 eq_refl) as [x Hx]; [now right|discriminate].
  - intros [= <- _]. exists last_err. split; [reflexivity|].
    destruct last_err as [err|]; [now apply Hgood|].
    apply Z.ltb_ge in Hlt. rewrite Hzero in Hlt by reflexivity. exact Hlt.
Qed.

(** X20. With at most 1024 retries and a [time.sleep] that accepts the
    delays of the schedule, [retry_base_delay * 2^k] for [k < retries],
    [fetch_redstone_prices] raises one error only, the "failed after
    [retries] attempts" error.  The error it carries is the one left by an
    endpoint of the list: "no data from", "no usable data from", or the
    exception [requests.get] raised for a request to it; it is [None] only
    when [retries] is not positive. *)
Theorem fetch_failure_carries_an_endpoint_error
    symbols endpoints timeout_secs retries retry_base_delay rt tr e tr' :
  retries <= 1024 ->
  (forall tr0 k,
     0 <= k < retries ->
     time_sleep rt tr0 (retry_base_delay * float_pow2 k)%float = Ok tt) ->
  fetch_redstone_prices symbols endpoints timeout_secs retries retry_base_delay rt tr
  = (Err e, tr') ->
  exists last_err,
    e = FailedAfterAttempts retries last_err
    /\ match last_err with
       | None => retries <= 0
       | Some err =>
           exists ep,
             In ep (endpoints_or_default endpoints)
             /\ (err = NoDataFrom ep \/ err = NoUsableDataFrom ep
                 \/ exists tr0 params, requests_get rt tr0 ep params timeout_secs = Err err)
       end.
Proof.
  intros Hmax Hsleep Hrun.
  exact (fetch_loop_errors _ symbols timeout_secs retries retry_base_delay rt Hmax
           (endpoints_or_default_nonempty endpoints) Hsleep _ 0 None tr e tr'
           (Z.le_refl 0) (fun _ => eq_refl) ltac:(discriminate) Hrun).
Qed.

Lemma fetch_failure_carries_an_endpoint_error_example :
  exists last_err,
    FailedAfterAttempts 2 (Some (ExternalError "connection refused"))
    = FailedAfterAttempts 2 last_err
    /\ match last_err with
       | None => 2 <= 0
       | Some err =>
           exists ep,
             In ep (endpoints_or_default (Some ["https://api.redstone.finance/prices"]))
             /\ (err = NoDataFrom ep \/ err = NoUsableDataFrom ep
                 \/ exists tr0 params,
                      requests_get Sample.offline tr0 ep params 4%float = Err err)
       end.
Proof.
  apply (fetch_failure_carries_an_endpoint_error ["BTC"]
           (Some ["https://api.redstone.finance/prices"]) 4%float 2 0.5%float
           Sample.offline []
           (FailedAfterAttempts 2 (Some (ExternalError "connection refused")))
           (snd (fetch_redstone_prices ["BTC"] (Some ["https://api.redstone.finance/prices"])
                   4%float 2 0.5%float Sample.offline []))).
  - lia.
  - intros tr0 k Hk. assert (k = 0 \/ k = 1) as [->| ->] by lia; vm_compute; reflexivity.
  - vm_compute. reflexivity.
Defined.

(** X21. Without a positive [retries] nothing is attempted: the call raises
    at once, with no request and no sleep, and the error carries [None]. *)
Theorem no_attempt_without_retries
    symbols endpoints timeout_secs retries retry_base_delay rt tr :
  retries <= 0 ->
  fetch_redstone_prices symbols endpoints timeout_secs retries retry_base_delay rt tr
  = (Err (FailedAfterAttempts retries None), tr).
Proof.
  intros H. unfold fetch_redstone_prices.
  replace (Z.to_nat retries) with O by lia. cbn [fetch_loop].
  replace (0 <? retries) with false by (symmetry; apply Z.ltb_ge; lia). reflexivity.
Qed.

Lemma no_attempt_without_retries_example :
  fetch_redstone_prices ["BTC"] None 4%float 0 0.5%float prices_runtime []
  = (Err (FailedAfterAttempts 0 None), []).
Proof.
  apply (no_attempt_without_retries ["BTC"] None 4%float 0 0.5%float prices_runtime []). lia.
Defined.

Lemma try_endpoint_blank endpoint symbols timeout rt tr :
  wanted_of symbols = [] ->
  _try_redstone_endpoint endpoint symbols timeout rt tr = (Ok ∅, tr).
Proof. intros H. unfold _try_redstone_endpoint. now rewrite H. Qed.

Lemma scan_endpoints_blank symbols timeout rt eps :
  wanted_of symbols = [] ->
  forall last_err tr,
    scan_endpoints eps symbols timeout last_err rt tr
    = (Ok (None, no_data_after eps last_err), tr).
Proof.
  intros Hblank. induction eps as [|ep eps IH]; intros last_err tr; [reflexivity|].
  cbn [scan_endpoints]. unfold mbind at 1, M_bind at 1, try_except.
  unfold mbind at 1, M_bind at 1. rewrite (try_endpoint_blank _ _ _ _ _ Hblank). cbn.
  apply IH.
Qed.

Lemma no_data_after_last eps last_err :
  eps <> [] -> no_data_after eps last_err = Some (NoDataFrom (List.last eps "")).
Proof.
  unfold no_data_after. revert last_err.
  induction eps as [|ep eps IH]; intros last_err Hne; [now elim Hne|].
  destruct eps as [|ep' eps]; [reflexivity|].
  change (fold_left _ (ep :: ep' :: eps) last_err)
    with (fold_left (fun _ ep => Some (NoDataFrom ep)) (ep' :: eps) (Some (NoDataFrom ep))).
  rewrite IH by discriminate. reflexivity.
Qed.

Lemma backoff_sleeps_S retry_base_delay k n :
  backoff_sleeps retry_base_delay k (S n)
  = EvSleep (retry_base_delay * float_pow2 k)%float :: backoff_sleeps retry_base_delay (k + 1) n.
Proof.
  unfold backoff_sleeps. cbn [seq map]. rewrite Z.add_0_r. f_equal.
  rewrite <- seq_shift, List.map_map. apply List.map_ext. intros i. do 3 f_equal. lia.
Qed.

Lemma fetch_loop_blank eps symbols timeout retries retry_base_delay rt :
  wanted_of symbols = [] ->
  eps <> [] ->
  retries <= 1024 ->
  (forall tr0 k,
     0 <= k < retries ->
     time_sleep rt tr0 (retry_base_delay * float_pow2 k)%float = Ok tt) ->
  forall n attempt last_err tr,
  0 <= attempt ->
  attempt + Z.of_nat n = retries ->
  fetch_loop n eps symbols timeout retries retry_base_delay attempt last_err rt tr
  = (Err (FailedAfterAttempts retries
            (match n with O => last_err | S _ => Some (NoDataFrom (List.last eps "")) end)),
     (tr ++ backoff_sleeps retry_base_delay attempt n)%list).
Proof.
  intros Hblank Hne Hmax Hsleep.
  induction n as [|n IH]; intros attempt last_err tr Hpos Hsum; cbn [fetch_loop].
  - replace (attempt <? retries) with false by (symmetry; apply Z.ltb_ge; lia).
    unfold backoff_sleeps. cbn. now rewrite app_nil_r.
  - replace (attempt <? retries) with true by (symmetry; apply Z.ltb_lt; lia).
    rewrite (bind_ok _ _ _ _ _ _ (scan_endpoints_blank symbols timeout rt eps Hblank last_err tr)).
    cbn beta iota.
    rewrite bind_lift, (backoff_delay_pow2 _ attempt) by lia.
    unfold do_sleep, mbind at 1, M_bind at 1. rewrite Hsleep by lia.
    rewrite IH by lia. rewrite backoff_sleeps_S, <- app_assoc. cbn [app].
    f_equal. f_equal. f_equal. destruct n; [|reflexivity]. now apply no_data_after_last.
Qed.

(** X22. With no usable symbol (an empty list, or only blank strings) no
    request is ever sent: each attempt takes every endpoint's empty answer as
    "no data", the schedule of sleeps runs to its end when [time.sleep]
    accepts its delays, and the call fails naming the last endpoint of the
    list. *)
Theorem blank_symbols_send_no_request
    symbols endpoints timeout_secs retries retry_base_delay rt tr :
  wanted_of symbols = [] ->
  0 < retries <= 1024 ->
  (forall tr0 k,
     0 <= k < retries ->
     time_sleep rt tr0 (retry_base_delay * float_pow2 k)%float = Ok tt) ->
  fetch_redstone_prices symbols endpoints timeout_secs retries retry_base_delay rt tr
  = (Err (FailedAfterAttempts retries
            (Some (NoDataFrom (List.last (endpoints_or_default endpoints) "")))),
     (tr ++ backoff_sleeps retry_base_delay 0 (Z.to_nat retries))%list).
Proof.
  intros Hblank Hr Hsleep. unfold fetch_redstone_prices.
  rewrite (fetch_loop_blank _ symbols timeout_secs retries retry_base_delay rt Hblank
             (endpoints_or_default_nonempty endpoints) (proj2 Hr) Hsleep) by lia.
  destruct (Z.to_nat retries) eqn:E; [lia|reflexivity].
Qed.

Lemma blank_symbols_send_no_request_example :
  fetch_redstone_prices [""; "  "] None 4%float 3 0.5%float prices_runtime []
  = (Err (FailedAfterAttempts 3
            (Some (NoDataFrom (List.last (endpoints_or_default None) "")))),
     ([] ++ backoff_sleeps 0.5%float 0 (Z.to_nat 3))%list).
Proof.
  apply (blank_symbols_send_no_request [""; "  "] None 4%float 3 0.5%float prices_runtime []).
  - reflexivity.
  - lia.
  - intros tr0 k Hk.
    assert (k = 0 \/ k = 1 \/ k = 2) as [->|[->| ->]] by lia; vm_compute; reflexivity.
Defined.

Lemma scan_endpoints_cons ep eps symbols timeout last_err rt tr :
  scan_endpoints (ep :: eps) symbols timeout last_err rt tr
  = match _try_redstone_endpoint ep symbols timeout rt tr with
    | (Ok out, tr1) =>
        if negb (is_empty out) then (Ok (Some out, last_err), tr1)
        else scan_endpoints eps symbols timeout (Some (NoDataFrom ep)) rt tr1
    | (Err e, tr1) => scan_endpoints eps symbols timeout (Some e) rt tr1
    end.
Proof.
  cbn [scan_endpoints]. unfold mbind at 1, M_bind at 1, try_except.
  unfold mbind at 1, M_bind at 1.
  destruct (_try_redstone_endpoint ep symbols timeout rt tr) as [[out|e] tr1]; cbn;
    [|reflexivity].
  now destruct (is_empty out).
Qed.

Lemma scan_endpoints_skip symbols timeout rt pre :
  (forall ep0 tr0 (o : gmap string price_record),
     In ep0 pre ->
     fst (_try_redstone_endpoint ep0 symbols timeout rt tr0) = Ok o -> o = ∅) ->
  forall rest last_err l0 tr,
  exists last_err',
    scan_endpoints (pre ++ rest) symbols timeout last_err rt tr
    = scan_endpoints rest symbols timeout last_err' rt
        (snd (scan_endpoints pre symbols timeout l0 rt tr)).
Proof.
  induction pre as [|ep pre IH]; intros Hpre rest last_err l0 tr.
  - exists last_err. reflexivity.
  - assert (Hpre' : forall ep0 tr0 (o : gmap string price_record),
               In ep0 pre ->
               fst (_try_redstone_endpoint ep0 symbols timeout rt tr0) = Ok o -> o = ∅)
      by (intros ep0 tr0 o Hin; apply Hpre; now right).
    cbn [app]. rewrite !scan_endpoints_cons.
    destruct (_try_redstone_endpoint ep symbols timeout rt tr) as [[out|e] tr1] eqn:Htry.
    + assert (out = ∅) as -> by (apply (Hpre ep tr out); [now left|now rewrite Htry]).
      replace (is_empty ∅) with true by (symmetry; now apply bool_decide_eq_true).
      cbn [negb]. apply (IH Hpre').
    + apply (IH Hpre').
Qed.

(** X23. Endpoints are tried in the order of the list, and the first one
    that returns a non-empty mapping ends the call: its mapping is the
    result, in the first attempt, and after its last request nothing more is
    done, no endpoint after it contacted and no sleep. *)
Theorem first_endpoint_with_data_wins
    symbols pre ep post timeout_secs retries retry_base_delay rt tr
    (out : gmap string price_record) :
  0 < retries ->
  (forall ep0 tr0 (o : gmap string price_record),
     In ep0 pre ->
     fst (_try_redstone_endpoint ep0 symbols timeout_secs rt tr0) = Ok o -> o = ∅) ->
  (forall tr0, fst (_try_redstone_endpoint ep symbols timeout_secs rt tr0) = Ok out) ->
  out <> ∅ ->
  fetch_redstone_prices symbols (Some (pre ++ ep :: post)%list) timeout_secs retries
                        retry_base_delay rt tr
  = (Ok (Some out),
     snd (_try_redstone_endpoint ep symbols timeout_secs rt
            (snd (scan_endpoints pre symbols timeout_secs None rt tr)))).
Proof.
  intros Hr Hpre Hep Hout. unfold fetch_redstone_prices.
  assert (Heps : endpoints_or_default (Some (pre ++ ep :: post)%list) = (pre ++ ep :: post)%list).
  { unfold endpoints_or_default. destruct pre; reflexivity. }
  rewrite Heps. destruct (Z.to_nat retries) as [|n] eqn:E; [lia|]. cbn [fetch_loop].
  replace (0 <? retries) with true by (symmetry; apply Z.ltb_lt; lia).
  unfold mbind at 1, M_bind at 1.
  destruct (scan_endpoints_skip symbols timeout_secs rt pre Hpre (ep :: post) None None tr)
    as (l & ->).
  rewrite scan_endpoints_cons.
  specialize (Hep (snd (scan_endpoints pre symbols timeout_secs None rt tr))).
  destruct (_try_redstone_endpoint ep symbols timeout_secs rt _) as [r tr1].
  cbn in Hep. subst r.
  replace (is_empty out) with false
    by (symmetry; unfold is_empty; now apply bool_decide_eq_false).
  reflexivity.
Qed.

Lemma first_endpoint_with_data_wins_example :
  fetch_redstone_prices ["BTC"]
    (Some (["https://down.example/prices"]
           ++ "https://api.redstone.finance/prices" :: ["https://later.example/prices"])%list)
    4%float 4 0.5%float
    (Sample.runtime (fun url =>
       if String.eqb url "https://down.example/prices"
       then Err (ExternalError "connection refused")
       else Sample.json_reply btc_mapping)) []
  = (Ok (Some {[ "BTC" := mkPrice 65000%float (PInt 123) "x" ]}),
     snd (_try_redstone_endpoint "https://api.redstone.finance/prices" ["BTC"] 4%float
            (Sample.runtime (fun url =>
               if String.eqb url "https://down.example/prices"
               then Err (ExternalError "connection refused")
               else Sample.json_reply btc_mapping))
            (snd (scan_endpoints ["https://down.example/prices"] ["BTC"] 4%float None
                    (Sample.runtime (fun url =>
                       if String.eqb url "https://down.example/prices"
                       then Err (ExternalError "connection refused")
                       else Sample.json_reply btc_mapping)) [])))).
Proof.
  apply (first_endpoint_with_data_wins ["BTC"] ["https://down.example/prices"]
           "https://api.redstone.finance/prices" ["https://later.example/prices"]
           4%float 4 0.5%float).
  - lia.
  - intros ep0 tr0 o [<-|[]]. vm_compute. discriminate.
  - intros tr0. vm_compute. reflexivity.
  - vm_compute. discriminate.
Defined.

(** X24. The per-symbol fallback covers a refused or unusable batch reply,
    not a failed request: when [requests.get] raises for the batch request,
    the endpoint call raises that exception after this one request. *)
Theorem raising_batch_request_ends_endpoint_call rt tr endpoint symbols timeout e :
  wanted_of symbols <> [] ->
  requests_get rt tr endpoint
    [("symbols", Str.join "," (wanted_of symbols)); ("_", uuid4_hex rt tr)] timeout = Err e ->
  _try_redstone_endpoint endpoint symbols timeout rt tr
  = (Err e, (tr ++ [batch_request rt tr endpoint symbols timeout])%list).
Proof.
  intros Hwanted Hget. rewrite (try_endpoint_wanted _ _ _ Hwanted).
  unfold batch_query, do_uuid4_hex, _http_get_json, do_requests_get, batch_request,
    mbind, M_bind.
  now rewrite Hget.
Qed.

Lemma raising_batch_request_ends_endpoint_call_example :
  _try_redstone_endpoint "https://api.redstone.finance/prices" ["btc"; "eth"] 4%float
                         Sample.offline []
  = (Err (ExternalError "connection refused"),
     ([] ++ [batch_request Sample.offline [] "https://api.redstone.finance/prices"
                           ["btc"; "eth"] 4%float])%list).
Proof.
  apply (raising_batch_request_ends_endpoint_call Sample.offline []
           "https://api.redstone.finance/prices" ["btc"; "eth"] 4%float
           (ExternalError "connection refused")).
  - vm_compute. discriminate.
  - reflexivity.
Defined.

Lemma batch_step_exact item (out : gmap string price_record) rt tr :
  try_except
    (s ← lift (Py.getitem item "symbol");
     s' ← py_str s;
     let sym := Str.upper s' in
     r ← read_record item;
     mret (<[sym := r]> out))
    (fun _ => mret out) rt tr = (Ok (store_record rt out item), tr).
Proof.
  unfold store_record, record_key, record_of, try_except, read_record, py_str, lift,
    mbind, M_bind, mret, M_ret.
  destruct item as [| | | | |l|kvs]; try reflexivity. cbn.
  destruct (Py.lookup "symbol" kvs) as [s|]; [|reflexivity].
  destruct (Py.lookup "value" kvs) as [v|]; cbn; [|reflexivity].
  now destruct (Py.float_ v).
Qed.

Lemma batch_records_exact rt items : forall (out : gmap string price_record) tr,
  batch_records items out rt tr = (Ok (fold_left (store_record rt) items out), tr).
Proof.
  induction items as [|item items IH]; intros out tr; [reflexivity|].
  cbn [batch_records fold_left].
  rewrite (bind_ok _ _ _ _ _ _ (batch_step_exact item out rt tr)). apply IH.
Qed.

Lemma store_record_other rt (out : gmap string price_record) item key :
  record_key rt item <> Some key ->
  store_record rt out item !! key = out !! key.
Proof.
  unfold store_record. intros Hne.
  destruct (record_key rt item) as [k|]; [|reflexivity].
  destruct (record_of rt item); [|reflexivity].
  apply lookup_insert_ne. congruence.
Qed.

Lemma store_records_other rt items key : forall out : gmap string price_record,
  (forall it, In it items -> record_key rt it <> Some key) ->
  fold_left (store_record rt) items out !! key = out !! key.
Proof.
  induction items as [|item items IH]; intros out Hne; [reflexivity|].
  cbn [fold_left]. rewrite IH by (intros it Hin; apply Hne; now right).
  apply store_record_other. apply Hne. now left.
Qed.

Lemma record_key_has_record rt item key :
  record_key rt item = Some key -> is_Some (record_of rt item).
Proof.
  unfold record_key, record_of.
  destruct item as [| | | | |l|kvs]; try discriminate. cbn.
  destruct (Py.lookup "symbol" kvs); [|discriminate].
  destruct (Py.lookup "value" kvs) as [v|]; cbn; [|discriminate].
  destruct (Py.float_ v); [|discriminate]. intros _. now eexists.
Qed.

(** X25. What the batch path stores under a symbol is the last record of the
    reply for it (the symbol compared in upper case): the value as [float]
    reads it, the timestamp as it came, and [str] of the provider, "redstone"
    when the record names none. *)
Theorem batch_stores_last_record rt tr endpoint symbols timeout resp pre item post key :
  wanted_of symbols <> [] ->
  requests_get rt tr endpoint
    [("symbols", Str.join "," (wanted_of symbols)); ("_", uuid4_hex rt tr)] timeout = Ok resp ->
  status_code resp = 200 ->
  normalize_with (json_loads rt) (response_data resp) = Ok (pre ++ item :: post)%list ->
  record_key rt item = Some key ->
  (forall it, In it post -> record_key rt it <> Some key) ->
  exists out : gmap string price_record,
    _try_redstone_endpoint endpoint symbols timeout rt tr
    = (Ok out, (tr ++ [batch_request rt tr endpoint symbols timeout])%list)
    /\ is_Some (out !! key)
    /\ out !! key = record_of rt item.
Proof.
  intros Hwanted Hget Hstatus Hnorm Hkey Hpost.
  rewrite (try_endpoint_wanted _ _ _ Hwanted).
  set (out := fold_left (store_record rt) (pre ++ item :: post)%list
                (∅ : gmap string price_record)).
  assert (Hbatch : batch_query endpoint (wanted_of symbols) timeout rt tr
                   = (Ok out, (tr ++ [batch_request rt tr endpoint symbols timeout])%list)).
  { unfold batch_query, do_uuid4_hex, mbind at 1, M_bind at 1.
    unfold _http_get_json, do_requests_get, mbind at 1, M_bind at 1, mbind at 1, M_bind at 1.
    rewrite Hget. cbn [mret M_ret]. rewrite Hstatus. cbn [Z.eqb Pos.eqb].
    unfold try_except, _normalize_rs_payload, mbind, M_bind. rewrite Hnorm.
    unfold batch_request. now rewrite batch_records_exact. }
  rewrite (bind_ok _ _ _ _ _ _ Hbatch).
  assert (Hval : out !! key = record_of rt item).
  { unfold out. rewrite fold_left_app. cbn [fold_left].
    rewrite (store_records_other _ _ _ _ Hpost). unfold store_record. rewrite Hkey.
    destruct (record_key_has_record _ _ _ Hkey) as [r ->]. apply lookup_insert_eq. }
  assert (Hsome : is_Some (out !! key)).
  { rewrite Hval. exact (record_key_has_record _ _ _ Hkey). }
  exists out. split; [|split; assumption].
  assert (Hne : is_empty out = false).
  { unfold is_empty. apply bool_decide_eq_false. intros Heq. rewrite Heq in Hsome.
    destruct Hsome as [x Hx]. now rewrite lookup_empty in Hx. }
  now rewrite Hne.
Qed.

Lemma batch_stores_last_record_example :
  exists out : gmap string price_record,
    _try_redstone_endpoint "https://api.redstone.finance/prices" ["btc"] 4%float
      (reply_runtime (Sample.json_reply
         (PList [PDict [("symbol", PStr "BTC"); ("value", PInt 65000)];
                 PDict [("symbol", PStr "btc"); ("value", PStr "64000.5");
                        ("timestamp", PInt 7)];
                 PDict [("symbol", PStr "ETH"); ("value", PInt 3000)]]))) []
    = (Ok out, ([] ++ [batch_request
                         (reply_runtime (Sample.json_reply
                            (PList [PDict [("symbol", PStr "BTC"); ("value", PInt 65000)];
                                    PDict [("symbol", PStr "btc"); ("value", PStr "64000.5");
                                           ("timestamp", PInt 7)];
                                    PDict [("symbol", PStr "ETH"); ("value", PInt 3000)]])))
                         [] "https://api.redstone.finance/prices" ["btc"] 4%float])%list)
    /\ is_Some (out !! "BTC")
    /\ out !! "BTC" = Some (mkPrice 64000.5%float (PInt 7) "redstone").
Proof.
  apply (batch_stores_last_record
           (reply_runtime (Sample.json_reply
              (PList [PDict [("symbol", PStr "BTC"); ("value", PInt 65000)];
                      PDict [("symbol", PStr "btc"); ("value", PStr "64000.5");
                             ("timestamp", PInt 7)];
                      PDict [("symbol", PStr "ETH"); ("value", PInt 3000)]])))
           [] "https://api.redstone.finance/prices" ["btc"] 4%float
           (mkResponse 200
              (Ok (PList [PDict [("symbol", PStr "BTC"); ("value", PInt 65000)];
                          PDict [("symbol", PStr "btc"); ("value", PStr "64000.5");
                                 ("timestamp", PInt 7)];
                          PDict [("symbol", PStr "ETH"); ("value", PInt 3000)]])) "")
           [PDict [("symbol", PStr "BTC"); ("value", PInt 65000)]]
           (PDict [("symbol", PStr "btc"); ("value", PStr "64000.5"); ("timestamp", PInt 7)])
           [PDict [("symbol", PStr "ETH"); ("value", PInt 3000)]] "BTC").
  - vm_compute. discriminate.
  - reflexivity.
  - reflexivity.
  - reflexivity.
  - vm_compute. reflexivity.
  - intros it [<-|[]]. vm_compute. discriminate.
Defined.

Section Silent.

Context {A B : Type}.

Lemma silent_ret (a : A) : silent (mret a : M A).
Proof. intros rt tr. reflexivity. Qed.

Lemma silent_lift (r : result A) : silent (lift r).
Proof. intros rt tr. unfold lift. now destruct r. Qed.

Lemma silent_bind (m : M A) (f : A -> M B) :
  silent m -> (forall a, silent (f a)) -> silent (m ≫= f).
Proof.
  intros Hm Hf rt tr. unfold mbind, M_bind. specialize (Hm rt tr).
  destruct (m rt tr) as [[a|e] tr1]; cbn in Hm; subst tr1; [apply Hf|reflexivity].
Qed.

Lemma silent_try (m : M A) (h : exn -> M A) :
  silent m -> (forall e, silent (h e)) -> silent (try_except m h).
Proof.
  intros Hm Hh rt tr. unfold try_except. specialize (Hm rt tr).
  destruct (m rt tr) as [[a|e] tr1]; cbn in Hm; subst tr1; [reflexivity|apply Hh].
Qed.

End Silent.

Lemma silent_py_str v : silent (py_str v).
Proof. intros rt tr. reflexivity. Qed.

Lemma silent_read_record item : silent (read_record item).
Proof.
  unfold read_record.
  repeat (apply silent_bind; [first [apply silent_lift | apply silent_py_str]|intros ?]).
  apply silent_ret.
Qed.

Lemma silent_pick_record sym items :
  forall out : gmap string price_record, silent (pick_record sym items out).
Proof.
  induction items as [|item items IH]; intros out; cbn [pick_record].
  - apply silent_ret.
  - apply silent_bind.
    + apply silent_try; [|intros e; apply silent_ret].
      apply silent_bind; [apply silent_lift|intros s].
      apply silent_bind; [apply silent_py_str|intros s'].
      destruct (negb _); [apply silent_ret|].
      apply silent_bind; [apply silent_read_record|intros r; apply silent_ret].
    + intros [r|]; [apply silent_ret|apply IH].
Qed.

Lemma silent_normalize data : silent (_normalize_rs_payload data).
Proof. intros rt tr. reflexivity. Qed.

Lemma asked_app (tr1 tr2 : trace) : asked (tr1 ++ tr2)%list = (asked tr1 ++ asked tr2)%list.
Proof. unfold asked. apply flat_map_app. Qed.

Lemma per_symbol_step_quiet sym status data (out : gmap string price_record) rt tr :
  exists out',
    (if negb (status =? 200) then mret out
     else
       n ← try_except (l ← _normalize_rs_payload data; mret (Some l))
                      (fun _ => mret None);
       match n with
       | Some normalized => pick_record sym normalized out
       | None => mret out
       end) rt tr = (Ok out', tr).
Proof.
  match goal with |- context [(if ?c then ?a else ?b) rt tr] =>
    assert (Hsilent : silent (if c then a else b));
    [|assert (Hnr : raises_only (fun _ => False) rt (if c then a else b));
      [|specialize (Hsilent rt tr);
        destruct ((if c then a else b) rt tr) as [[out1|e] tr2] eqn:E;
        cbn in Hsilent; subst tr2]]
  end.
  - destruct (negb _); [apply silent_ret|].
    apply silent_bind.
    + apply silent_try; [|intros e; apply silent_ret].
      apply silent_bind; [apply silent_normalize|intros l; apply silent_ret].
    + intros [normalized|]; [apply silent_pick_record|apply silent_ret].
  - destruct (negb _); [apply raises_only_ret|].
    apply raises_only_bind.
    + apply raises_only_try. intros e. apply raises_only_ret.
    + intros [normalized|]; [apply pick_record_never_raises|apply raises_only_ret].
  - now exists out1.
  - elim (Hnr _ _ _ E).
Qed.

Lemma per_symbol_asked endpoint timeout rt :
  (forall tr0 params, is_ok (requests_get rt tr0 endpoint params timeout) = true) ->
  forall syms (out : gmap string price_record) tr,
    asked (snd (per_symbol endpoint timeout syms out rt tr)) = (asked tr ++ syms)%list.
Proof.
  intros Hget. induction syms as [|sym syms IH]; intros out tr; cbn [per_symbol].
  - cbn. now rewrite app_nil_r.
  - unfold do_uuid4_hex, mbind at 1, M_bind at 1.
    unfold _http_get_json, do_requests_get, mbind at 1, M_bind at 1, mbind at 1, M_bind at 1.
    specialize (Hget tr [("symbol", sym); ("_", uuid4_hex rt tr)]).
    destruct (requests_get rt tr endpoint _ timeout) as [resp|e]; [|discriminate].
    cbn [mret M_ret].
    destruct (per_symbol_step_quiet sym (status_code resp) (response_data resp) out rt
                (tr ++ [EvGet endpoint [("symbol", sym); ("_", uuid4_hex rt tr)] timeout])%list)
      as (out1 & Hstep).
    rewrite (bind_ok _ _ _ _ _ _ Hstep).
    rewrite IH, asked_app. cbn. now rewrite <- app_assoc.
Qed.

Lemma batch_query_trace endpoint wanted timeout rt tr :
  snd (batch_query endpoint wanted timeout rt tr)
  = (tr ++ [EvGet endpoint [("symbols", Str.join "," wanted); ("_", uuid4_hex rt tr)]
                  timeout])%list.
Proof.
  unfold batch_query, do_uuid4_hex, mbind at 1, M_bind at 1.
  unfold _http_get_json, do_requests_get, mbind at 1, M_bind at 1, mbind at 1, M_bind at 1.
  destruct (requests_get rt tr endpoint _ timeout) as [resp|e]; [|reflexivity].
  cbn [mret M_ret]. destruct (status_code resp =? 200); [|reflexivity].
  unfold try_except, _normalize_rs_payload, mbind, M_bind.
  destruct (normalize_with (json_loads rt) (response_data resp)); [|reflexivity].
  now rewrite batch_records_exact.
Qed.

(** X26. When the batch query of an endpoint gives no record and no request
    raises, the fallback asks for every wanted symbol, one request each, in
    the order of the list: it goes on after a symbol was found, and a symbol
    wanted twice is asked twice. *)
Theorem fallback_asks_every_wanted_symbol endpoint symbols timeout rt tr tr1 :
  (forall tr0 params, is_ok (requests_get rt tr0 endpoint params timeout) = true) ->
  batch_query endpoint (wanted_of symbols) timeout rt tr = (Ok ∅, tr1) ->
  asked (snd (_try_redstone_endpoint endpoint symbols timeout rt tr))
  = (asked tr ++ wanted_of symbols)%list.
Proof.
  intros Hget Hbatch. pose proof (batch_query_trace endpoint (wanted_of symbols) timeout rt tr)
    as Htr.
  rewrite Hbatch in Htr. cbn [snd] in Htr.
  destruct (wanted_of symbols) as [|w ws] eqn:Hw.
  - unfold _try_redstone_endpoint. rewrite Hw. cbn. now rewrite app_nil_r.
  - rewrite try_endpoint_wanted by (rewrite Hw; discriminate). rewrite Hw.
    rewrite (bind_ok _ _ _ _ _ _ Hbatch).
    replace (is_empty ∅) with true by (symmetry; now apply bool_decide_eq_true).
    cbn [negb]. pose proof (per_symbol_asked endpoint timeout rt Hget (w :: ws) ∅ tr1) as Hask.
    unfold mbind, M_bind.
    destruct (per_symbol endpoint timeout (w :: ws) ∅ rt tr1) as [[out|e] tr2];
      cbn [snd] in Hask.
    + destruct (negb (is_empty out)); unfold mret, M_ret, raise; cbn [snd];
        rewrite Hask, Htr, asked_app; cbn; now rewrite app_nil_r.
    + cbn [snd]. rewrite Hask, Htr, asked_app. cbn. now rewrite app_nil_r.
Qed.

Lemma fallback_asks_every_wanted_symbol_example :
  asked (snd (_try_redstone_endpoint "https://api.redstone.finance/prices"
                ["btc"; "sol"; "eth"; " BTC "] 4%float per_symbol_runtime []))
  = (asked [] ++ wanted_of ["btc"; "sol"; "eth"; " BTC "])%list.
Proof.
  apply (fallback_asks_every_wanted_symbol "https://api.redstone.finance/prices"
           ["btc"; "sol"; "eth"; " BTC "] 4%float per_symbol_runtime []
           (snd (batch_query "https://api.redstone.finance/prices"
                   (wanted_of ["btc"; "sol"; "eth"; " BTC "]) 4%float per_symbol_runtime []))).
  - intros tr0 params. unfold per_symbol_runtime, per_symbol_only. cbn [requests_get].
    destruct params as [|[k v] params]; [reflexivity|].
    destruct k as [|c k]; [reflexivity|]. 
    repeat match goal with
           | |- context [match ?x with _ => _ end] => destruct x; try reflexivity
           end.
  - vm_compute. reflexivity.
Defined.

(** ** The USD factors of the local stables (hl_spot_prices.py) *)

Lemma stable_factors_loop_steps info :
  stable_factors_loop info stable_candidates [] ∅
  = (r1 ← stable_step info "feUSD" "USDT0" ∅;
     r2 ← stable_step info "feUSD" "USDC" r1;
     r3 ← stable_step info "USDHL" "USDT0" r2;
     r4 ← stable_step info "USDHL" "USDC" r3;
     r5 ← stable_step info "USDT0" "USDC" r4;
     mret r5).
Proof.
  unfold stable_candidates. cbn [stable_factors_loop].
  repeat match goal with
         | |- context [bool_decide ?P] =>
             replace (bool_decide P) with false by (vm_compute; reflexivity)
         end.
  reflexivity.
Qed.

Lemma stable_step_run info base quote (results : gmap string float) rt tr :
  stable_step info base quote results rt tr
  = (Ok (stored_factor (fst (get_spot_mid info base quote rt tr)) base results),
     snd (get_spot_mid info base quote rt tr)).
Proof.
  unfold stable_step, try_except, mbind, M_bind, stored_factor.
  destruct (get_spot_mid info base quote rt tr) as [[v|e] t]; cbn [fst snd];
    [destruct (results !! base)|]; reflexivity.
Qed.

Lemma usdt0_retry_run info (results : gmap string float) rt tr :
  usdt0_retry info results rt tr
  = match results !! "USDT0" with
    | None => (Ok (stored_factor (fst (get_spot_mid info "USDT0" "USDC" rt tr)) "USDT0" results),
               snd (get_spot_mid info "USDT0" "USDC" rt tr))
    | Some _ => (Ok results, tr)
    end.
Proof.
  unfold usdt0_retry, stored_factor. destruct (results !! "USDT0") eqn:E; [reflexivity|].
  unfold try_except, mbind, M_bind.
  destruct (get_spot_mid info "USDT0" "USDC" rt tr) as [[v|e] t]; reflexivity.
Qed.

Lemma stored_factor_keys r base (results : gmap string float) k :
  is_Some (stored_factor r base results !! k) -> is_Some (results !! k) \/ k = base.
Proof.
  unfold stored_factor. destruct r as [px|e]; [|now left].
  destruct (results !! base) eqn:E; [now left|].
  destruct (decide (base = k)) as [->|Hne]; [now right|].
  rewrite lookup_insert_ne by assumption. now left.
Qed.

Lemma stored_factor_other r base (results : gmap string float) k :
  k <> base -> stored_factor r base results !! k = results !! k.
Proof.
  intros Hne. unfold stored_factor. destruct r as [px|e]; [|reflexivity].
  destruct (results !! base); [reflexivity|]. now apply lookup_insert_ne.
Qed.

Lemma stored_factor_first r1 r2 base (results : gmap string float) :
  results !! base = None ->
  stored_factor r2 base (stored_factor r1 base results) !! base = first_ok r1 r2.
Proof.
  intros Hnone. unfold stored_factor, first_ok. rewrite Hnone.
  destruct r1 as [v1|e1].
  - rewrite lookup_insert_eq. destruct r2; apply lookup_insert_eq.
  - rewrite Hnone. destruct r2 as [v2|e2]; [apply lookup_insert_eq|exact Hnone].
Qed.

Lemma get_stable_usd_factors_run info rt tr :
  let g1 := get_spot_mid info "feUSD" "USDT0" rt tr in
  let g2 := get_spot_mid info "feUSD" "USDC" rt (snd g1) in
  let g3 := get_spot_mid info "USDHL" "USDT0" rt (snd g2) in
  let g4 := get_spot_mid info "USDHL" "USDC" rt (snd g3) in
  let g5 := get_spot_mid info "USDT0" "USDC" rt (snd g4) in
  let r4 := stored_factor (fst g4) "USDHL"
              (stored_factor (fst g3) "USDHL"
                 (stored_factor (fst g2) "feUSD" (stored_factor (fst g1) "feUSD" ∅))) in
  let r5 := stored_factor (fst g5) "USDT0" r4 in
  exists (results : gmap string float) tr',
    (results ← stable_factors_loop info stable_candidates [] ∅; usdt0_retry info results) rt tr
    = (Ok results, tr')
    /\ results !! "feUSD" = r4 !! "feUSD"
    /\ results !! "USDHL" = r4 !! "USDHL"
    /\ results !! "USDT0"
       = first_ok (fst g5) (fst (get_spot_mid info "USDT0" "USDC" rt (snd g5)))
    /\ (forall k, is_Some (results !! k) -> k = "feUSD" \/ k = "USDHL" \/ k = "USDT0")
    /\ tr' = match fst g5 with
             | Ok _ => snd g5
             | Err _ => snd (get_spot_mid info "USDT0" "USDC" rt (snd g5))
             end.
Proof.
  intros g1 g2 g3 g4 g5 r4 r5.
  assert (Hloop : stable_factors_loop info stable_candidates [] ∅ rt tr = (Ok r5, snd g5)).
  { rewrite stable_factors_loop_steps.
    rewrite (bind_ok _ _ _ _ _ _ (stable_step_run info "feUSD" "USDT0" ∅ rt tr)).
    rewrite (bind_ok _ _ _ _ _ _ (stable_step_run info "feUSD" "USDC" _ rt _)).
    rewrite (bind_ok _ _ _ _ _ _ (stable_step_run info "USDHL" "USDT0" _ rt _)).
    rewrite (bind_ok _ _ _ _ _ _ (stable_step_run info "USDHL" "USDC" _ rt _)).
    rewrite (bind_ok _ _ _ _ _ _ (stable_step_run info "USDT0" "USDC" _ rt _)).
    reflexivity. }
  assert (Hkeys4 : forall k, is_Some (r4 !! k) -> k = "feUSD" \/ k = "USDHL").
  { intros k Hk. unfold r4 in Hk.
    repeat (apply stored_factor_keys in Hk as [Hk| ->]; [|tauto]).
    destruct Hk as [x Hx]. now rewrite lookup_empty in Hx. }
  assert (Hnone4 : r4 !! "USDT0" = None).
  { destruct (r4 !! "USDT0") eqn:E; [|reflexivity].
    destruct (Hkeys4 "USDT0") as [H|H]; [rewrite E; now eexists|discriminate|discriminate]. }
  rewrite (bind_ok _ _ _ _ _ _ Hloop), usdt0_retry_run.
  destruct (r5 !! "USDT0") as [v|] eqn:E5.
  - exists r5, (snd g5). split; [reflexivity|].
    split; [apply stored_factor_other; discriminate|].
    split; [apply stored_factor_other; discriminate|]. split.
    + rewrite E5. unfold r5, stored_factor in E5. rewrite Hnone4 in E5. unfold first_ok.
      destruct (fst g5) as [v5|e5]; [|congruence].
      rewrite lookup_insert_eq in E5. congruence.
    + split.
      * intros k Hk. unfold r5 in Hk.
        apply stored_factor_keys in Hk as [Hk| ->]; [|tauto].
        destruct (Hkeys4 k Hk); tauto.
      * unfold r5, stored_factor in E5. rewrite Hnone4 in E5.
        destruct (fst g5) as [v5|e5]; [reflexivity|congruence].
  - eexists _, _. split; [reflexivity|].
    split; [unfold r5; rewrite !stored_factor_other by discriminate; reflexivity|].
    split; [unfold r5; rewrite !stored_factor_other by discriminate; reflexivity|]. split.
    + unfold r5. apply stored_factor_first. exact Hnone4.
    + split.
      * intros k Hk. apply stored_factor_keys in Hk as [Hk| ->]; [|tauto].
        unfold r5 in Hk. apply stored_factor_keys in Hk as [Hk| ->]; [|tauto].
        destruct (Hkeys4 k Hk); tauto.
      * unfold r5, stored_factor in E5. rewrite Hnone4 in E5.
        destruct (fst g5) as [v5|e5]; [|reflexivity].
        rewrite lookup_insert_eq in E5. discriminate.
Qed.

(** X27. Every exception of the lookups is caught: whatever the venue does,
    [get_stable_usd_factors] either returns a mapping that is not empty and
    whose keys are among feUSD, USDHL and USDT0, or raises its own "could not
    derive any factor" error. *)
Theorem stable_factors_outcome info rt tr :
  match fst (get_stable_usd_factors info rt tr) with
  | Returns results =>
      results <> ∅
      /\ forall k, is_Some (results !! k) -> k = "feUSD" \/ k = "USDHL" \/ k = "USDT0"
  | Raises e => e = NoStableFactors
  end.
Proof.
  destruct (get_stable_usd_factors_run info rt tr)
    as (results & tr' & Hrun & _ & _ & _ & Hkeys & _).
  unfold get_stable_usd_factors. rewrite Hrun.
  destruct (bool_decide (results = ∅)) eqn:E; cbn [fst]; [reflexivity|].
  split; [now apply bool_decide_eq_false in E|exact Hkeys].
Qed.

(** X28. The factor of feUSD is its mid against USDT0 when that lookup
    succeeds, else its mid against USDC, else feUSD has no entry; the same
    for USDHL.  Each of the five lookups is made, in the candidates' order,
    also the one against USDC of a base that already has its factor.  The
    factor of USDT0 is its mid against USDC, looked up a second time when the
    first lookup failed. *)
Theorem stable_factors_prefer_usdt0 info rt tr (results : gmap string float) tr' :
  get_stable_usd_factors info rt tr = (Returns results, tr') ->
  let g1 := get_spot_mid info "feUSD" "USDT0" rt tr in
  let g2 := get_spot_mid info "feUSD" "USDC" rt (snd g1) in
  let g3 := get_spot_mid info "USDHL" "USDT0" rt (snd g2) in
  let g4 := get_spot_mid info "USDHL" "USDC" rt (snd g3) in
  let g5 := get_spot_mid info "USDT0" "USDC" rt (snd g4) in
  let g6 := get_spot_mid info "USDT0" "USDC" rt (snd g5) in
  results !! "feUSD" = first_ok (fst g1) (fst g2)
  /\ results !! "USDHL" = first_ok (fst g3) (fst g4)
  /\ results !! "USDT0" = first_ok (fst g5) (fst g6)
  /\ tr' = match fst g5 with Ok _ => snd g5 | Err _ => snd g6 end.
Proof.
  intros Hrun g1 g2 g3 g4 g5 g6.
  destruct (get_stable_usd_factors_run info rt tr)
    as (results0 & tr0 & Hrun0 & Hfe & Hhl & Ht0 & _ & Htr).
  unfold get_stable_usd_factors in Hrun. rewrite Hrun0 in Hrun.
  destruct (bool_decide (results0 = ∅)); [discriminate|].
  injection Hrun as <- <-.
  split; [|split; [|split; [exact Ht0|exact Htr]]].
  - rewrite Hfe, !stored_factor_other by discriminate.
    apply stored_factor_first, lookup_empty.
  - rewrite Hhl. apply stored_factor_first.
    rewrite !stored_factor_other by discriminate. apply lookup_empty.
Qed.

Lemma stable_factors_prefer_usdt0_example :
  let g1 := get_spot_mid (stable_venue [Sample.pair_entry 1 0 7] sample_book)
              "feUSD" "USDT0" Sample.offline [] in
  let g2 := get_spot_mid (stable_venue [Sample.pair_entry 1 0 7] sample_book)
              "feUSD" "USDC" Sample.offline (snd g1) in
  let g3 := get_spot_mid (stable_venue [Sample.pair_entry 1 0 7] sample_book)
              "USDHL" "USDT0" Sample.offline (snd g2) in
  let g4 := get_spot_mid (stable_venue [Sample.pair_entry 1 0 7] sample_book)
              "USDHL" "USDC" Sample.offline (snd g3) in
  let g5 := get_spot_mid (stable_venue [Sample.pair_entry 1 0 7] sample_book)
              "USDT0" "USDC" Sample.offline (snd g4) in
  let g6 := get_spot_mid (stable_venue [Sample.pair_entry 1 0 7] sample_book)
              "USDT0" "USDC" Sample.offline (snd g5) in
  ({[ "feUSD" := 1.5%float ]} : gmap string float) !! "feUSD" = first_ok (fst g1) (fst g2)
  /\ ({[ "feUSD" := 1.5%float ]} : gmap string float) !! "USDHL" = first_ok (fst g3) (fst g4)
  /\ ({[ "feUSD" := 1.5%float ]} : gmap string float) !! "USDT0" = first_ok (fst g5) (fst g6)
  /\ snd (get_stable_usd_factors (stable_venue [Sample.pair_entry 1 0 7] sample_book)
            Sample.offline [])
     = match fst g5 with Ok _ => snd g5 | Err _ => snd g6 end.
Proof.
  apply (stable_factors_prefer_usdt0 (stable_venue [Sample.pair_entry 1 0 7] sample_book)
           Sample.offline [] {[ "feUSD" := 1.5%float ]}).
  vm_compute. reflexivity.
Defined.

(** ** The service (app.py) *)

Lemma spot_tier_some info symbol qs : forall rt tr v tr',
  spot_tier info symbol qs rt tr = (Ok (Some v), tr') ->
  exists q tr0, In q qs /\ get_spot_mid info symbol q rt tr0 = (Ok v, tr').
Proof.
  induction qs as [|q qs IH]; intros rt tr v tr'; [discriminate|].
  destruct (get_spot_mid info symbol q rt tr) as [[v0|e] tr1] eqn:Hq.
  - rewrite (spot_tier_first _ _ _ _ _ _ _ _ Hq). intros [= <- <-].
    exists q, tr. split; [now left|exact Hq].
  - rewrite (spot_tier_next _ _ _ _ _ _ _ _ Hq). intros H.
    destruct (IH _ _ _ _ H) as (q0 & tr0 & Hin & Hrun).
    exists q0, tr0. split; [now right|exact Hrun].
Qed.

(** X29. The price the service returns is the RedStone value of BTC divided
    by a factor that never comes from the DEX: the configured address map has
    no entry for the reference "USDC", and the default quotes are the five
    letters of "FEUSD".  So the factor is the spot mid of FEUSD against a
    token named by one of these letters, or the peg 1.0; after the venue
    client is made, only the venue is queried. *)
Theorem service_price_never_uses_the_dex sv rt tr out tr' :
  btc_feusd sv rt tr = (Ok out, tr') ->
  exists (rs : gmap string price_record) tr1 btc info tr2 fx evs,
    fetch_redstone_prices ["BTC"; "USDT0"; "USDC"] None 4%float 4 0.5%float rt tr
    = (Ok (Some rs), tr1)
    /\ rs !! "BTC" = Some btc
    /\ new_info sv rt tr1 = (Ok info, tr2)
    /\ tr' = (tr2 ++ evs)%list
    /\ forallb venue_event evs = true
    /\ PrimFloat.eqb fx zero = false
    /\ out = mkReply "BTC-FEUSD" (value btc / fx)%float (time_time sv tr')
    /\ (fx = 1%float
        \/ exists q tr0 tr3,
             In q ["F"; "E"; "U"; "S"; "D"]
             /\ get_spot_mid info "FEUSD" q rt tr0 = (Ok fx, tr3)).
Proof.
  unfold btc_feusd. unfold mbind at 1, M_bind at 1.
  destruct (fetch_redstone_prices _ _ _ _ _ rt tr) as [[[rs|]|e] tr1]; try discriminate.
  destruct (rs !! "BTC") as [btc|] eqn:Hbtc; [|discriminate].
  unfold mbind at 1, M_bind at 1.
  destruct (new_info sv rt tr1) as [[info|e] tr2] eqn:Hinfo; [|discriminate].
  unfold resolve_stable_usd_factor.
  destruct (spot_tier info "FEUSD" (seq_iter default_preferred_quotes) rt tr2)
    as [[a|e] tr3] eqn:Hspot.
  2:{ destruct (spot_tier_total info "FEUSD" (seq_iter default_preferred_quotes) rt tr2)
        as (r & t & H). rewrite H in Hspot. discriminate. }
  destruct (spot_tier_events _ _ _ _ _ _ _ Hspot) as (evs & -> & Hevs).
  assert (Hdex : dex_tier (Some EVM_ADDR) "FEUSD" "USDC" rt (tr2 ++ evs)%list
                 = (Ok None, (tr2 ++ evs)%list)).
  { unfold dex_tier.
    replace (dex_addresses (Some EVM_ADDR) "FEUSD" "USDC") with (@None (string * string))
      by (vm_compute; reflexivity).
    reflexivity. }
  assert (Hfx : exists fx,
             (a ← spot_tier info "FEUSD" (seq_iter default_preferred_quotes);
              match a with
              | Some v => mret v
              | None =>
                  b ← dex_tier (Some EVM_ADDR) "FEUSD" "USDC";
                  match b with
                  | Some v => mret v
                  | None => mret 1%float
                  end
              end) rt tr2 = (Ok fx, (tr2 ++ evs)%list)
             /\ (fx = 1%float
                 \/ exists q tr0 tr3,
                      In q ["F"; "E"; "U"; "S"; "D"]
                      /\ get_spot_mid info "FEUSD" q rt tr0 = (Ok fx, tr3))).
  { rewrite (bind_ok _ _ _ _ _ _ Hspot). destruct a as [v|].
    - exists v. split; [reflexivity|]. right.
      destruct (spot_tier_some _ _ _ _ _ _ _ Hspot) as (q & tr0 & Hin & Hrun).
      now exists q, tr0, (tr2 ++ evs)%list.
    - rewrite (bind_ok _ _ _ _ _ _ Hdex). exists 1%float. split; [reflexivity|now left]. }
  destruct Hfx as (fx & Hrun & Hfrom).
  rewrite (bind_ok _ _ _ _ _ _ Hrun), bind_lift. unfold Py.truediv.
  destruct (PrimFloat.eqb fx zero) eqn:Hz; [discriminate|].
  intros [= <- <-].
  exists rs, tr1, btc, info, tr2, fx, evs.
  split; [reflexivity|]. split; [exact Hbtc|]. split; [exact Hinfo|].
  split; [reflexivity|]. split; [exact Hevs|]. split; [exact Hz|].
  split; [reflexivity|exact Hfrom].
Qed.

Lemma service_price_never_uses_the_dex_example :
  exists (rs : gmap string price_record) tr1 btc info tr2 fx evs,
    fetch_redstone_prices ["BTC"; "USDT0"; "USDC"] None 4%float 4 0.5%float prices_runtime []
    = (Ok (Some rs), tr1)
    /\ rs !! "BTC" = Some btc
    /\ new_info (sample_service (Sample.venue [] sample_book) 1700000000%float)
                prices_runtime tr1 = (Ok info, tr2)
    /\ snd (btc_feusd (sample_service (Sample.venue [] sample_book) 1700000000%float)
                      prices_runtime [])
       = (tr2 ++ evs)%list
    /\ forallb venue_event evs = true
    /\ PrimFloat.eqb fx zero = false
    /\ mkReply "BTC-FEUSD" 65000%float 1700000000%float
       = mkReply "BTC-FEUSD" (value btc / fx)%float
           (time_time (sample_service (Sample.venue [] sample_book) 1700000000%float)
              (snd (btc_feusd (sample_service (Sample.venue [] sample_book) 1700000000%float)
                              prices_runtime [])))
    /\ (fx = 1%float
        \/ exists q tr0 tr3,
             In q ["F"; "E"; "U"; "S"; "D"]
             /\ get_spot_mid info "FEUSD" q prices_runtime tr0 = (Ok fx, tr3)).
Proof.
  apply (service_price_never_uses_the_dex
           (sample_service (Sample.venue [] sample_book) 1700000000%float)
           prices_runtime [] (mkReply "BTC-FEUSD" 65000%float 1700000000%float)).
  vm_compute. reflexivity.
Defined.
